(** * The critical-issue detector of [critical_detector.py]

    A shallow embedding of [class CriticalIssueDetector]: the four threshold
    rules, [check_critical_issues], [generate_report] and
    [get_issue_history], followed by the properties of the detector that the
    specification states.

    Conventions of the embedding.
    - A naive [datetime] is the integer number of microseconds on the local
      wall clock since [datetime.min], the first instant of year 1; a
      [timedelta] is a signed number of microseconds.  Python represents the
      instants of the years 1 to 9999 and durations of up to 999999999 days
      in either direction; building another one raises [OverflowError].
    - [datetime.now()] is an effect: the world carries the wall clock as the
      function from "number of readings taken so far" to the instant shown,
      and every call of [datetime.now()] takes the next reading.  The source
      reads the clock once in every rule and once per logged issue, and so
      does the model.
    - Exceptions are values ([Raise]); the world reached when an exception
      leaves a method is kept, so that what the method had already changed
      can be stated.
    - Confidences are IEEE binary64 numbers, as Python floats are, and are
      compared with the primitive comparison; [0.7] and [0.9] below are the
      very doubles the Python literals denote.
    - The three derived quantities the source computes in floating point
      from integers ([total_seconds() / 60], [len(recent) * 0.7] and the
      negative percentage) are computed over the rationals; see the note at
      [minutes]. *)

From Stdlib Require Import List String Ascii Bool ZArith QArith Lia.
From Stdlib Require Import PrimFloat Uint63 SpecFloat FloatOps FloatAxioms.
From Stdlib Require Import DecimalString.
Import ListNotations.

Set Warnings "-inexact-float".

Local Open Scope Z_scope.

(** ** Instants, durations and timestamp texts *)

Definition datetime := Z.
Definition timedelta := Z.

(** [timedelta.total_seconds() / 60] as an exact rational number of minutes.

    The source computes it in binary64: the microsecond count is divided by
    [10**6] and then by [60], each division rounded to nearest.  It is only
    ever compared with an integer number [m] of minutes (15, 5 and 30).
    Rounding to nearest is monotone and maps [m * 60] and [m] to themselves,
    and a duration one microsecond off the bound is far more than one unit in
    the last place away from it, so the rounded comparison and the exact one
    agree; the model compares exactly. *)
Definition minutes (d : timedelta) : Q := d # 60000000.

(** [datetime.min] and [datetime.max], the first microsecond of year 1 and
    the last of year 9999, which is day 3652059 of the calendar. *)
Definition datetime_min : datetime := 0.
Definition datetime_max : datetime := 3652059 * 86400000000 - 1.

(** An instant that a [datetime] can hold. *)
Definition representable (t : Z) : bool :=
  (datetime_min <=? t) && (t <=? datetime_max).

(** The text of a timestamp, seen through [datetime.fromisoformat]: either a
    text that it reads as the naive instant [t] (among them [t.isoformat()],
    which it reads back as [t]), or a text [s] that it rejects.  Texts with a
    UTC offset, which it reads as aware instants, are not modelled: no caller
    of the detector produces them. *)
Inductive isotext : Type :=
| IsoOf (t : datetime)
| NotIso (s : string).

Inductive exn : Type :=
| ValueError (s : string)
| IndexError
| OverflowError.

Inductive outcome (A : Type) : Type :=
| Ok (a : A)
| Raise (e : exn).
Arguments Ok {A} a.
Arguments Raise {A} e.

(** [t.isoformat()] *)
Definition isoformat (t : datetime) : isotext := IsoOf t.

(** [datetime.fromisoformat(s)]: raises [ValueError] on a text it cannot
    read. *)
Definition fromisoformat (s : isotext) : outcome datetime :=
  match s with
  | IsoOf t => Ok t
  | NotIso s => Raise (ValueError s)
  end.

(** [timedelta(hours=h)]: the duration is normalised to days, seconds and
    microseconds, the days rounded down, and [OverflowError] is raised when
    the days exceed 999999999 in either direction. *)
Definition timedelta_hours (h : Z) : outcome timedelta :=
  if (-999999999 <=? h / 24) && (h / 24 <=? 999999999)
  then Ok (h * 3600000000)
  else Raise OverflowError.

(** [t - d] for a [datetime] and a [timedelta]: [OverflowError] when the
    result is outside [datetime.min .. datetime.max]. *)
Definition datetime_sub (t : datetime) (d : timedelta) : outcome datetime :=
  if representable (t - d) then Ok (t - d) else Raise OverflowError.

(** ** Dictionaries of the detector *)

(** One emotion reading, a [dict] read with [e.get]: each key may be
    missing.  Where present, the timestamp is a string, the label a string
    and the confidence a float. *)
Module Emotion.
Record t : Type := make {
  timestamp : option isotext;
  dominant_emotion : option string;
  confidence : option float
}.
End Emotion.

(** Values stored under the keys of a [details] dictionary. *)
Inductive value : Type :=
| VNone
| VStr (s : string)
| VInt (z : Z)
| VFloat (f : float)
| VNum (q : Q).

(** A [details] dictionary, keys in insertion order. *)
Definition dict := list (string * value).

Fixpoint dict_get (k : string) (d : dict) : option value :=
  match d with
  | [] => None
  | (k', v) :: rest => if String.eqb k k' then Some v else dict_get k rest
  end.

(** An issue as a rule returns it. *)
Module Issue.
Record t : Type := make {
  type : string;
  severity : string;
  details : dict;
  recommendation : string
}.
End Issue.

(** An entry of [issue_history]. *)
Module Logged.
Record t : Type := make {
  timestamp : isotext;
  issue_type : string;
  severity : string;
  details : dict
}.
End Logged.

(** ** The detector object *)

(** The value of [critical_thresholds] under 'sustained_negative_emotion'
    and 'extreme_emotion'. *)
Record emotion_threshold : Type := {
  emotion : list string;
  duration_minutes : Z;
  confidence_threshold : float
}.

Record swings_threshold : Type := {
  swings_per_minute : Z;
  time_window_minutes : Z
}.

Record breakdown_threshold : Type := {
  no_response_minutes : Z
}.

Record thresholds : Type := {
  sustained_negative_emotion : emotion_threshold;
  rapid_emotion_swings : swings_threshold;
  extreme_emotion : emotion_threshold;
  communication_breakdown : breakdown_threshold
}.

Record CriticalIssueDetector : Type := {
  issue_history : list Logged.t;
  critical_thresholds : thresholds
}.

(** [CriticalIssueDetector.__init__] *)
Definition init : CriticalIssueDetector :=
  {| issue_history := [];
     critical_thresholds :=
       {| sustained_negative_emotion :=
            {| emotion := ["sad"; "angry"; "fearful"]%string;
               duration_minutes := 15;
               confidence_threshold := 0.7%float |};
          rapid_emotion_swings :=
            {| swings_per_minute := 3;
               time_window_minutes := 5 |};
          extreme_emotion :=
            {| emotion := ["angry"; "fearful"]%string;
               confidence_threshold := 0.9%float;
               duration_minutes := 5 |};
          communication_breakdown :=
            {| no_response_minutes := 30 |} |} |}.

(** ** The world and the monad of methods *)

Record world : Type := {
  clock : nat -> datetime;
  reads : nat;
  self : CriticalIssueDetector
}.

Definition M (A : Type) : Type := world -> outcome A * world.

Definition ret {A} (a : A) : M A := fun w => (Ok a, w).

Definition bind {A B} (c : M A) (k : A -> M B) : M B :=
  fun w =>
    match c w with
    | (Ok a, w') => k a w'
    | (Raise e, w') => (Raise e, w')
    end.

Declare Scope detector_scope.
Delimit Scope detector_scope with det.
Notation "x <- c ;; k" := (bind c (fun x => k))
  (at level 61, c at next level, right associativity) : detector_scope.
Notation "c ;;; k" := (bind c (fun _ => k))
  (at level 61, right associativity) : detector_scope.

(** A computation that can only return or raise, run inside a method. *)
Definition lift {A} (o : outcome A) : M A := fun w => (o, w).

(** [datetime.now()] *)
Definition datetime_now : M datetime :=
  fun w =>
    (Ok (clock w (reads w)),
     {| clock := clock w; reads := S (reads w); self := self w |}).

(** Reading an attribute of [self]. *)
Definition get_self : M CriticalIssueDetector := fun w => (Ok (self w), w).

(** [self.issue_history.append(entry)] *)
Definition issue_history_append (entry : Logged.t) : M unit :=
  fun w =>
    (Ok tt,
     {| clock := clock w; reads := reads w;
        self := {| issue_history := issue_history (self w) ++ [entry];
                   critical_thresholds := critical_thresholds (self w) |} |}).

(** ** Comprehensions and small helpers *)

(** [[e for e in l if cond(e)]] where evaluating [cond] may raise: the
    elements are visited in order and the first exception ends the
    comprehension. *)
Fixpoint comprehension {A} (cond : A -> outcome bool) (l : list A)
  : outcome (list A) :=
  match l with
  | [] => Ok []
  | e :: rest =>
      match cond e with
      | Raise x => Raise x
      | Ok b =>
          match comprehension cond rest with
          | Raise x => Raise x
          | Ok kept => Ok (if b then e :: kept else kept)
          end
      end
  end.

(** [sum(1 for e in l if p(e))] *)
Definition count {A} (p : A -> bool) (l : list A) : nat :=
  List.length (List.filter p l).

(** [l[-1]] *)
Fixpoint last_item {A} (l : list A) : outcome A :=
  match l with
  | [] => Raise IndexError
  | [e] => Ok e
  | _ :: rest => last_item rest
  end.

(** [x in names], for [x] the result of a [dict.get] *)
Definition member (x : option string) (names : list string) : bool :=
  match x with
  | Some s => existsb (String.eqb s) names
  | None => false
  end.

(** Truth value of the result of [e.get('dominant_emotion')]: [None] and the
    empty string are false. *)
Definition truthy (x : option string) : bool :=
  match x with
  | Some s => negb (String.eqb s "")
  | None => false
  end.

(** [a != b] on results of [dict.get] *)
Definition differs (a b : option string) : bool :=
  match a, b with
  | Some s, Some s' => negb (String.eqb s s')
  | None, None => false
  | _, _ => true
  end.

(** [e.get('confidence', 0) >= threshold] *)
Definition confidence_reaches (threshold : float) (e : Emotion.t) : bool :=
  match Emotion.confidence e with
  | Some c => PrimFloat.leb threshold c
  | None => PrimFloat.leb threshold 0%float
  end.

(** The stored form of [e.get('dominant_emotion')] and of
    [e.get('confidence', 0)]. *)
Definition label_value (e : Emotion.t) : value :=
  match Emotion.dominant_emotion e with
  | Some s => VStr s
  | None => VNone
  end.

Definition confidence_value (e : Emotion.t) : value :=
  match Emotion.confidence e with
  | Some c => VFloat c
  | None => VInt 0
  end.

(** The condition of the three window comprehensions:
    [(now - datetime.fromisoformat(e.get('timestamp', now.isoformat())))
       .total_seconds() / 60 <= duration]. *)
Definition in_window (now : datetime) (duration : Z) (e : Emotion.t)
  : outcome bool :=
  let text := match Emotion.timestamp e with
              | Some s => s
              | None => isoformat now
              end in
  match fromisoformat text with
  | Raise x => Raise x
  | Ok t => Ok (Qle_bool (minutes (now - t)) (inject_Z duration))
  end.

(** ** The four rules *)

Local Open Scope detector_scope.

(** [len(l)] as a Python integer *)
Definition len {A} (l : list A) : Z := Z.of_nat (List.length l).

(** [negative_count >= len(recent_emotions) * 0.7].

    The source multiplies in binary64, by the double nearest to 0.7, and
    compares the integer count with the rounded product.  The product is
    within a few units in the last place of the exact [0.7 * n]; when [n] is
    not a multiple of 10 the exact value lies at least 0.1 away from every
    integer, and when [n = 10 * k] the rounded product lies in the interval
    from [7 * k - 1], excluded, to [7 * k].  For every list that fits in
    memory the comparison therefore has the value of the exact one, which is
    what the model computes. *)
Definition seventy_percent (negative_count n : Z) : bool :=
  Qle_bool (inject_Z n * (7 # 10)) (inject_Z negative_count).

(** [(negative_count / len(recent_emotions)) * 100]; the list is not empty
    where the source evaluates it. *)
Definition percentage (negative_count n : Z) : Q :=
  (negative_count # Z.to_pos n) * inject_Z 100.

Definition _check_sustained_negative_emotion (emotion_data : list Emotion.t)
  : M (option Issue.t) :=
  if len emotion_data <? 5 then ret None
  else
    d <- get_self ;;
    let threshold := sustained_negative_emotion (critical_thresholds d) in
    let negative_emotions := emotion threshold in
    let duration := duration_minutes threshold in
    let confidence_threshold := confidence_threshold threshold in
    now <- datetime_now ;;
    recent_emotions <- lift (comprehension (in_window now duration) emotion_data) ;;
    if len recent_emotions <? 3 then ret None
    else
      let negative_count :=
        Z.of_nat (count (fun e =>
                           member (Emotion.dominant_emotion e) negative_emotions
                           && confidence_reaches confidence_threshold e)
                        recent_emotions) in
      if seventy_percent negative_count (len recent_emotions) then
        newest <- lift (last_item recent_emotions) ;;
        ret (Some
          {| Issue.type := "sustained_negative_emotion";
             Issue.severity := "high";
             Issue.details :=
               [("emotion", label_value newest);
                ("duration_minutes", VInt duration);
                ("negative_percentage",
                 VNum (percentage negative_count (len recent_emotions)))]%string;
             Issue.recommendation :=
               "Immediate psychological support recommended. Consider ground control notification." |})
      else ret None.

(** The loop of [_check_rapid_emotion_swings] that counts the changes:
    [prev_emotion] and [emotion_changes] are the loop variables. *)
Fixpoint count_changes (prev_emotion : option string) (emotion_changes : Z)
  (recent_emotions : list Emotion.t) : Z :=
  match recent_emotions with
  | [] => emotion_changes
  | e :: rest =>
      let current := Emotion.dominant_emotion e in
      let emotion_changes :=
        if truthy prev_emotion && differs current prev_emotion
        then emotion_changes + 1 else emotion_changes in
      count_changes current emotion_changes rest
  end.

Definition _check_rapid_emotion_swings (emotion_data : list Emotion.t)
  : M (option Issue.t) :=
  if len emotion_data <? 5 then ret None
  else
    d <- get_self ;;
    let threshold := rapid_emotion_swings (critical_thresholds d) in
    let swings_per_minute := swings_per_minute threshold in
    let time_window := time_window_minutes threshold in
    now <- datetime_now ;;
    recent_emotions <- lift (comprehension (in_window now time_window) emotion_data) ;;
    if len recent_emotions <? 3 then ret None
    else
      let emotion_changes := count_changes None 0 recent_emotions in
      if swings_per_minute * time_window <=? emotion_changes then
        ret (Some
          {| Issue.type := "rapid_emotion_swings";
             Issue.severity := "medium";
             Issue.details :=
               [("swings_detected", VInt emotion_changes);
                ("time_window_minutes", VInt time_window)]%string;
             Issue.recommendation :=
               "Monitor closely. May indicate stress or instability." |})
      else ret None.

Definition _check_extreme_emotion (emotion_data : list Emotion.t)
  : M (option Issue.t) :=
  match emotion_data with
  | [] => ret None
  | _ :: _ =>
    d <- get_self ;;
    let threshold := extreme_emotion (critical_thresholds d) in
    let extreme_emotions := emotion threshold in
    let confidence_threshold := confidence_threshold threshold in
    let duration := duration_minutes threshold in
    now <- datetime_now ;;
    recent_emotions <- lift (comprehension (in_window now duration) emotion_data) ;;
    match recent_emotions with
    | [] => ret None
    | _ :: _ =>
      let extreme_count :=
        Z.of_nat (count (fun e =>
                           member (Emotion.dominant_emotion e) extreme_emotions
                           && confidence_reaches confidence_threshold e)
                        recent_emotions) in
      if 2 <=? extreme_count then
        newest <- lift (last_item recent_emotions) ;;
        ret (Some
          {| Issue.type := "extreme_emotion";
             Issue.severity := "high";
             Issue.details :=
               [("emotion", label_value newest);
                ("confidence", confidence_value newest);
                ("occurrences", VInt extreme_count)]%string;
             Issue.recommendation :=
               "Immediate attention required. Consider ground control notification." |})
      else ret None
    end
  end.

(** [last_interaction] is [None] or a [datetime]; a [datetime] is always
    true. *)
Definition _check_communication_breakdown (last_interaction : option datetime)
  : M (option Issue.t) :=
  d <- get_self ;;
  let threshold := communication_breakdown (critical_thresholds d) in
  let no_response_minutes := no_response_minutes threshold in
  match last_interaction with
  | None => ret None
  | Some last_interaction =>
    now <- datetime_now ;;
    let minutes_since := minutes (now - last_interaction) in
    if Qle_bool (inject_Z no_response_minutes) minutes_since then
      ret (Some
        {| Issue.type := "communication_breakdown";
           Issue.severity := "high";
           Issue.details :=
             [("minutes_since_last_interaction", VNum minutes_since)]%string;
           Issue.recommendation :=
             "Attempt to re-establish communication. If unsuccessful, notify ground control." |})
    else ret None
  end.

(** ** [check_critical_issues] *)

(** [if found: issues.append(found)] *)
Definition append_found (issues : list Issue.t) (found : option Issue.t)
  : list Issue.t :=
  match found with
  | Some issue => issues ++ [issue]
  | None => issues
  end.

(** The logging loop: one clock reading and one [append] per issue. *)
Fixpoint log_issues (issues : list Issue.t) : M unit :=
  match issues with
  | [] => ret tt
  | issue :: rest =>
      now <- datetime_now ;;
      issue_history_append
        {| Logged.timestamp := isoformat now;
           Logged.issue_type := Issue.type issue;
           Logged.severity := Issue.severity issue;
           Logged.details := Issue.details issue |} ;;;
      log_issues rest
  end.

(** An audio emotion dictionary; the detector only receives the list. *)
Definition audio_dict := list (string * value).

Definition check_critical_issues (emotion_data : list Emotion.t)
  (audio_data : option (list audio_dict)) (last_interaction : option datetime)
  : M (list Issue.t) :=
  let issues := [] in
  sustained <- _check_sustained_negative_emotion emotion_data ;;
  let issues := append_found issues sustained in
  swings <- _check_rapid_emotion_swings emotion_data ;;
  let issues := append_found issues swings in
  extreme <- _check_extreme_emotion emotion_data ;;
  let issues := append_found issues extreme in
  issues <-
    match last_interaction with
    | Some _ =>
        breakdown <- _check_communication_breakdown last_interaction ;;
        ret (append_found issues breakdown)
    | None => ret issues
    end ;;
  log_issues issues ;;;
  ret issues.

(** ** [get_issue_history] *)

(** The clock is read first, then the look-back is built and subtracted;
    either of the two can raise [OverflowError], before the history is
    looked at. *)
Definition get_issue_history (hours : Z) : M (list Logged.t) :=
  now <- datetime_now ;;
  delta <- lift (timedelta_hours hours) ;;
  cutoff <- lift (datetime_sub now delta) ;;
  d <- get_self ;;
  lift (comprehension
          (fun issue =>
             match fromisoformat (Logged.timestamp issue) with
             | Raise x => Raise x
             | Ok t => Ok (cutoff <=? t)
             end)
          (issue_history d)).

(** ** [generate_report] *)

(** String methods, on ASCII text. *)

Definition is_lower (c : ascii) : bool :=
  (97 <=? nat_of_ascii c)%nat && (nat_of_ascii c <=? 122)%nat.

Definition is_upper (c : ascii) : bool :=
  (65 <=? nat_of_ascii c)%nat && (nat_of_ascii c <=? 90)%nat.

Definition to_upper (c : ascii) : ascii :=
  if is_lower c then ascii_of_nat (nat_of_ascii c - 32) else c.

Definition to_lower (c : ascii) : ascii :=
  if is_upper c then ascii_of_nat (nat_of_ascii c + 32) else c.

(** [s.upper()] *)
Fixpoint upper (s : string) : string :=
  match s with
  | EmptyString => EmptyString
  | String c rest => String (to_upper c) (upper rest)
  end.

(** [s.replace(a, b)] for one-character [a] and [b] *)
Fixpoint replace (a b : ascii) (s : string) : string :=
  match s with
  | EmptyString => EmptyString
  | String c rest =>
      String (if Ascii.eqb c a then b else c) (replace a b rest)
  end.

(** [s.title()]: [previous_is_cased] is the flag of the library's loop. *)
Fixpoint title_from (previous_is_cased : bool) (s : string) : string :=
  match s with
  | EmptyString => EmptyString
  | String c rest =>
      if is_lower c then
        String (if previous_is_cased then c else to_upper c)
               (title_from true rest)
      else if is_upper c then
        String (if previous_is_cased then to_lower c else c)
               (title_from true rest)
      else String c (title_from false rest)
  end.

Definition title (s : string) : string := title_from false s.

(** [c * n] for a one-character string [c] *)
Fixpoint times (c : ascii) (n : nat) : string :=
  match n with
  | O => EmptyString
  | S n' => String c (times c n')
  end.

(** [str(i)] for a natural number *)
Definition str (i : nat) : string := NilEmpty.string_of_uint (Nat.to_uint i).

(** The newline character of the ["\n"] escapes. *)
Definition nl : string := String (ascii_of_nat 10) EmptyString.

Section Report.

(** The two library renderings the report relies on:
    [now.strftime('%Y-%m-%d %H:%M:%S')] and [json.dumps(d, indent=2)]. *)
Variable strftime : datetime -> string.
Variable json_dumps : dict -> string.

Local Open Scope string_scope.

(** The four lines the loop of [generate_report] adds for the issue
    numbered [i]. *)
Definition issue_lines (i : nat) (issue : Issue.t) : string :=
  ("Issue #" ++ str i ++ ": "
     ++ title (replace "_" " " (Issue.type issue)) ++ nl)
  ++ ("Severity: " ++ upper (Issue.severity issue) ++ nl)
  ++ ("Details: " ++ json_dumps (Issue.details issue) ++ nl)
  ++ ("Recommendation: " ++ Issue.recommendation issue ++ nl ++ nl).

(** [for i, issue in enumerate(issues, i): report += ...] *)
Fixpoint report_loop (i : nat) (issues : list Issue.t) (report : string)
  : string :=
  match issues with
  | [] => report
  | issue :: rest => report_loop (S i) rest (report ++ issue_lines i issue)
  end.

Definition generate_report (issues : list Issue.t) : M string :=
  match issues with
  | [] => ret "No critical issues detected. All systems normal."
  | _ :: _ =>
      now <- datetime_now ;;
      let report := "CRITICAL ISSUE REPORT - " ++ strftime now ++ nl in
      let report := report ++ times "=" 50 ++ nl ++ nl in
      ret (report_loop 1 issues report)
  end.

End Report.

(** * The conversational agent of [conversation_ai.py]

    [class ConversationAI], which the application runs beside the detector
    and feeds with the same emotion readings.  The text it handles is ASCII;
    [random.choice] draws from a source of random numbers that the world
    carries as the wall clock is carried; the confidence is a binary64
    number compared with the primitive comparison. *)

(** [s.lower()] *)
Fixpoint lower (s : string) : string :=
  match s with
  | EmptyString => EmptyString
  | String c rest => String (to_lower c) (lower rest)
  end.

(** [word in s] for strings: [word] occurs in [s] as a substring. *)
Fixpoint contains (word s : string) : bool :=
  String.prefix word s
  || match s with
     | EmptyString => false
     | String _ rest => contains word rest
     end.

(** [any(word in s for word in words)] *)
Definition any_in (words : list string) (s : string) : bool :=
  existsb (fun word => contains word s) words.

(** [x in names] for a string [x] *)
Definition among (x : string) (names : list string) : bool :=
  existsb (String.eqb x) names.

(** Truth value of an optional string argument: [None] and the empty string
    are false. *)
Definition given (x : option string) : bool := truthy x.

Module Conversation.

Local Open Scope string_scope.

Inductive error : Type :=
| KeyError (k : string)
| IndexError.

Inductive result (A : Type) : Type :=
| Returns (a : A)
| Raises (e : error).
Arguments Returns {A} a.
Arguments Raises {A} e.

(** An entry of [conversation_history]. *)
Module Turn.
Record t : Type := make {
  timestamp : isotext;
  emotion : string;
  confidence : float;
  user_input : option string;
  response : string;
  intervention_level : string
}.
End Turn.

(** A dictionary from names to lists of sentences. *)
Definition templates := list (string * list string).

(** [d[k]] *)
Fixpoint lookup (k : string) (d : templates) : result (list string) :=
  match d with
  | [] => Raises (KeyError k)
  | (k', v) :: rest => if String.eqb k k' then Returns v else lookup k rest
  end.

(** [k in d] *)
Definition has_key (k : string) (d : templates) : bool :=
  existsb (fun kv => String.eqb k (fst kv)) d.

Record ConversationAI : Type := {
  conversation_history : list Turn.t;
  emotion_context : dict;
  intervention_level : string;
  response_templates : templates;
  interventions : templates
}.

(** [ConversationAI.__init__] *)
Definition init : ConversationAI :=
  {| conversation_history := [];
     emotion_context := [];
     intervention_level := "normal";
     response_templates :=
       [("sad",
         ["I notice you might be feeling down. Would you like to talk about what's on your mind?";
          "It's okay to feel this way. Remember, you're doing important work. Would you like to share what's bothering you?";
          "I'm here to listen. Sometimes talking about our feelings can help. What would you like to discuss?";
          "You've been working hard. It's normal to feel overwhelmed. Let's take a moment to breathe together."]);
        ("angry",
         ["I sense some frustration. Let's take a deep breath together. What's causing this feeling?";
          "It sounds like something is bothering you. Would you like to discuss it?";
          "I understand this might be challenging. Let's work through this together, step by step."]);
        ("fearful",
         ["I notice some anxiety. Remember, you're safe and well-trained for this mission. What's making you feel this way?";
          "It's natural to feel concerned. Let's talk through what's worrying you.";
          "You're in a controlled environment with excellent support. What specific concern would you like to address?"]);
        ("happy",
         ["Great to see you're in good spirits! How has your day been?";
          "I'm glad you're feeling positive! Is there anything specific that's going well?";
          "Wonderful! It's good to see you're doing well. Keep up the great work!"]);
        ("neutral",
         ["How are you feeling today?";
          "How can I assist you today?";
          "Is there anything you'd like to talk about or any support you need?"]);
        ("surprised",
         ["Something unexpected happened? Would you like to discuss it?";
          "I notice a reaction. What's going on?";
          "Is everything okay? I'm here to help if you need anything."]);
        ("disgust",
         ["I sense some discomfort. What's causing this feeling?";
          "Would you like to talk about what's bothering you?";
          "I'm here to help. What can we address together?"])]%string;
     interventions :=
       [("breathing_exercise",
         ["Let's do a breathing exercise together. Inhale slowly for 4 counts... hold for 4... exhale for 4...";
          "Take a moment to breathe deeply. This can help calm your nervous system.";
          "Let's practice some deep breathing. Focus on your breath."]);
        ("positive_reminder",
         ["Remember, you're part of an incredible mission. Your work is making a difference.";
          "You've trained extensively for this. You have the skills and knowledge to succeed.";
          "You're not alone. Your team and ground control are here to support you."]);
        ("activity_suggestion",
         ["Would you like to try a brief exercise routine? Physical activity can help improve mood.";
          "How about listening to some calming music?";
          "Would you like to review your mission objectives? Sometimes focusing on goals can help."])]%string |}.

(** The world of the agent: the wall clock and the random source, each with
    the number of values taken from it so far, and the agent itself. *)
Record world : Type := {
  clock : nat -> datetime;
  reads : nat;
  random : nat -> nat;
  draws : nat;
  self : ConversationAI
}.

Definition M (A : Type) : Type := world -> result A * world.

Definition ret {A} (a : A) : M A := fun w => (Returns a, w).

Definition bind {A B} (c : M A) (k : A -> M B) : M B :=
  fun w =>
    match c w with
    | (Returns a, w') => k a w'
    | (Raises e, w') => (Raises e, w')
    end.

Declare Scope conversation_scope.
Delimit Scope conversation_scope with conv.
Notation "x <- c ;; k" := (bind c (fun x => k))
  (at level 61, c at next level, right associativity) : conversation_scope.
Notation "c ;;; k" := (bind c (fun _ => k))
  (at level 61, right associativity) : conversation_scope.
Local Open Scope conversation_scope.

Definition lift {A} (r : result A) : M A := fun w => (r, w).

(** [datetime.now()] *)
Definition datetime_now : M datetime :=
  fun w =>
    (Returns (clock w (reads w)),
     {| clock := clock w; reads := S (reads w); random := random w;
        draws := draws w; self := self w |}).

(** [random.choice(seq)]: some element of a sequence that is not empty, the
    one at the position the random source gives; [IndexError] on the empty
    sequence. *)
Definition random_choice (seq : list string) : M string :=
  fun w =>
    match seq with
    | [] => (Raises IndexError, w)
    | first :: _ =>
        (Returns (nth (random w (draws w) mod List.length seq) seq first),
         {| clock := clock w; reads := reads w; random := random w;
            draws := S (draws w); self := self w |})
    end.

Definition get_self : M ConversationAI := fun w => (Returns (self w), w).

(** [self.intervention_level = level] *)
Definition set_intervention_level (level : string) : M unit :=
  fun w =>
    (Returns tt,
     {| clock := clock w; reads := reads w; random := random w;
        draws := draws w;
        self := {| conversation_history := conversation_history (self w);
                   emotion_context := emotion_context (self w);
                   intervention_level := level;
                   response_templates := response_templates (self w);
                   interventions := interventions (self w) |} |}).

(** [self.conversation_history.append(turn)] *)
Definition conversation_history_append (turn : Turn.t) : M unit :=
  fun w =>
    (Returns tt,
     {| clock := clock w; reads := reads w; random := random w;
        draws := draws w;
        self := {| conversation_history :=
                     (conversation_history (self w) ++ [turn])%list;
                   emotion_context := emotion_context (self w);
                   intervention_level := intervention_level (self w);
                   response_templates := response_templates (self w);
                   interventions := interventions (self w) |} |}).

Definition _respond_to_input (user_input emotion : string) : string :=
  let user_lower := lower user_input in
  if any_in ["help"; "support"; "need"] user_lower then
    "I'm here to help. What specific support do you need right now?"
  else if any_in ["tired"; "exhausted"; "sleep"] user_lower then
    "I understand you're feeling tired. Rest is important. Have you been able to get adequate sleep? Remember, your health is a priority."
  else if any_in ["stress"; "stressed"; "pressure"] user_lower then
    "Stress is a natural response. Let's work through this together. What's causing you the most stress right now?"
  else if any_in ["lonely"; "alone"; "isolated"] user_lower then
    "I understand that isolation can be challenging. Remember, you're part of a team, and we're all connected. Would you like to talk about what you're missing?"
  else if any_in ["thank"; "thanks"; "appreciate"] user_lower then
    "You're welcome! I'm here whenever you need support. How are you feeling now?"
  else if any_in ["fine"; "okay"; "good"; "well"] user_lower then
    "That's good to hear! I'm glad you're doing well. Is there anything else you'd like to discuss?"
  else if among emotion ["sad"; "angry"; "fearful"] then
    "I hear you. It sounds like you're going through something challenging. Would you like to talk more about it?"
  else
    "Thank you for sharing. How can I best support you right now?".

(** The first statements of [generate_response]: the primary emotion. *)
Definition primary_of (emotion : string) (audio_emotion : option string)
  : string :=
  let primary_emotion := lower emotion in
  match audio_emotion with
  | Some audio =>
      if given audio_emotion && negb (String.eqb audio primary_emotion) then
        if among primary_emotion ["sad"; "angry"; "fearful"] then
          primary_emotion
        else if among audio ["sad"; "angry"; "fearful"] then audio
        else primary_emotion
      else primary_emotion
  | None => primary_emotion
  end.

(** The branch of [generate_response] without user input: a sentence for the
    primary emotion, or a neutral one when the emotion has no templates. *)
Definition proactive_response (primary_emotion : string) : M string :=
  d <- get_self ;;
  if has_key primary_emotion (response_templates d) then
    seq <- lift (lookup primary_emotion (response_templates d)) ;;
    random_choice seq
  else
    seq <- lift (lookup "neutral" (response_templates d)) ;;
    random_choice seq.

Definition generate_response (emotion : string) (confidence : float)
  (audio_emotion : option string) (user_input : option string) : M string :=
  let primary_emotion := primary_of emotion audio_emotion in
  set_intervention_level
    (if PrimFloat.ltb 0.7%float confidence
        && among primary_emotion ["sad"; "angry"; "fearful"]
     then "supportive"
     else if PrimFloat.ltb 0.8%float confidence
             && among primary_emotion ["sad"; "angry"]
     then "critical"
     else "normal") ;;;
  response <-
    match user_input with
    | Some text =>
        if given user_input then ret (_respond_to_input text primary_emotion)
        else proactive_response primary_emotion
    | None => proactive_response primary_emotion
    end ;;
  d <- get_self ;;
  response <-
    (if String.eqb (intervention_level d) "supportive" then
       seq <- lift (lookup "breathing_exercise" (interventions d)) ;;
       intervention <- random_choice seq ;;
       ret (response ++ nl ++ nl ++ intervention)%string
     else if String.eqb (intervention_level d) "critical" then
       seq <- lift (lookup "positive_reminder" (interventions d)) ;;
       intervention <- random_choice seq ;;
       let response := (response ++ nl ++ nl ++ intervention)%string in
       seq <- lift (lookup "activity_suggestion" (interventions d)) ;;
       activity <- random_choice seq ;;
       ret (response ++ nl ++ nl ++ activity)%string
     else ret response) ;;
  now <- datetime_now ;;
  d <- get_self ;;
  conversation_history_append
    {| Turn.timestamp := isoformat now;
       Turn.emotion := primary_emotion;
       Turn.confidence := confidence;
       Turn.user_input := user_input;
       Turn.response := response;
       Turn.intervention_level := intervention_level d |} ;;;
  ret response.

(** A value of the summary dictionary. *)
Inductive field : Type :=
| FInt (n : Z)
| FStr (s : string)
| FList (l : list string).

Definition summary := list (string * field).

Fixpoint summary_get (k : string) (d : summary) : option field :=
  match d with
  | [] => None
  | (k', v) :: rest => if String.eqb k k' then Some v else summary_get k rest
  end.

(** [l.count(x)] *)
Definition count_of (x : string) (l : list string) : nat :=
  List.length (filter (String.eqb x) l).

(** [max(xs, key=key)], after its first element [best]: a later element
    replaces the best so far only when its key is greater. *)
Fixpoint max_from {A} (key : A -> nat) (best : A) (xs : list A) : A :=
  match xs with
  | [] => best
  | x :: rest => max_from key (if (key best <? key x)%nat then x else best) rest
  end.

(** [l[-10:] if len(l) > 10 else l] *)
Definition last_ten (l : list string) : list string :=
  if (10 <? List.length l)%nat then skipn (List.length l - 10) l else l.

Section Summary.

(** The order in which [set(emotions)] is iterated; the language leaves it
    open.  The set of a list that is not empty is not empty, so that [max]
    has a first element to start from; for a [set_of] that would return
    the empty list there, the model answers neutral. *)
Variable set_of : list string -> list string.

Definition get_conversation_summary (d : ConversationAI) : summary :=
  match conversation_history d with
  | [] => [("total_interactions", FInt 0)]%string
  | _ :: _ =>
      let emotions := map Turn.emotion (conversation_history d) in
      let intervention_levels :=
        map Turn.intervention_level (conversation_history d) in
      [("total_interactions", FInt (len (conversation_history d)));
       ("most_common_emotion",
        FStr (match emotions with
              | [] => "neutral"
              | _ :: _ =>
                  match set_of emotions with
                  | [] => "neutral"
                  | first :: rest =>
                      max_from (fun x => count_of x emotions) first rest
                  end
              end));
       ("critical_interventions",
        FInt (Z.of_nat (count_of "critical" intervention_levels)));
       ("supportive_interventions",
        FInt (Z.of_nat (count_of "supportive" intervention_levels)));
       ("recent_emotions", FList (last_ten emotions))]%string
  end.

End Summary.

(** [reset_conversation] *)
Definition reset_conversation : M unit :=
  fun w =>
    (Returns tt,
     {| clock := clock w; reads := reads w; random := random w;
        draws := draws w;
        self := {| conversation_history := [];
                   emotion_context := emotion_context (self w);
                   intervention_level := "normal";
                   response_templates := response_templates (self w);
                   interventions := interventions (self w) |} |}).

End Conversation.

(** * The dominant emotion of [facial_expression.py] and [audio_emotion.py]

    [get_dominant_emotion] of [FacialExpressionDetector] and of
    [AudioEmotionDetector], the same code in both: the source of the label
    and confidence of every observation the detector is given.  The
    dictionary of probabilities comes from [self.detect_emotion], an
    external model, and is the argument here; its values are binary64
    numbers. *)

(** [max(items, key=lambda x: x[1])], after its first item [best]: a later
    item replaces the best so far only when its value is greater. *)
Fixpoint max_item (best : string * float) (items : list (string * float))
  : string * float :=
  match items with
  | [] => best
  | x :: rest =>
      max_item (if PrimFloat.ltb (snd best) (snd x) then x else best) rest
  end.

Definition get_dominant_emotion (emotions : list (string * float))
  : string * float :=
  match emotions with
  | [] => ("neutral"%string, 1.0%float)
  | first :: rest => max_item first rest
  end.

(** * Vocabulary of the specification *)

(** The detector as [__init__] leaves it, up to the history. *)
Definition configured (w : world) : Prop :=
  critical_thresholds (self w) = critical_thresholds init.

(** The instant [datetime.now()] shows when next called. *)
Definition next_now (w : world) : datetime := clock w (reads w).

(** The world after [k] more readings of the clock and nothing else. *)
Definition later (k : nat) (w w' : world) : Prop :=
  clock w' = clock w /\ reads w' = (reads w + k)%nat /\ self w' = self w.

(** An observation whose timestamp, if it has one, is a text that
    [datetime.fromisoformat] reads. *)
Definition readable (e : Emotion.t) : Prop :=
  forall s, Emotion.timestamp e <> Some (NotIso s).

Definition unreadable (e : Emotion.t) : Prop :=
  exists s, Emotion.timestamp e = Some (NotIso s).

(** A present, non-empty label, as every member of the label vocabulary
    is. *)
Definition labelled (e : Emotion.t) : Prop :=
  truthy (Emotion.dominant_emotion e) = true.

(** The instant of an observation at an evaluation that reads the clock at
    [now]: an observation without a timestamp counts as taken at [now]; one
    with an unreadable timestamp has no instant. *)
Definition instant (now : datetime) (e : Emotion.t) : option datetime :=
  match Emotion.timestamp e with
  | None => Some now
  | Some (IsoOf t) => Some t
  | Some (NotIso _) => None
  end.

(** "The observation lies within [m] minutes of [now]": its instant is at
    most [m] minutes before [now]. *)
Definition within (now : datetime) (m : Z) (e : Emotion.t) : bool :=
  match instant now e with
  | Some t => now - t <=? m * 60000000
  | None => false
  end.

(** "Label in {sad, angry, fearful} and confidence >= 0.7". *)
Definition negative (e : Emotion.t) : bool :=
  member (Emotion.dominant_emotion e) ["sad"; "angry"; "fearful"]%string
  && confidence_reaches 0.7%float e.

(** "Label in {angry, fearful} and confidence >= 0.9". *)
Definition extreme (e : Emotion.t) : bool :=
  member (Emotion.dominant_emotion e) ["angry"; "fearful"]%string
  && confidence_reaches 0.9%float e.

(** The number of adjacent pairs of distinct labels in a sequence. *)
Fixpoint adjacent_changes (labels : list (option string)) : nat :=
  match labels with
  | a :: (b :: _) as rest =>
      ((if differs a b then 1 else 0) + adjacent_changes rest)%nat
  | _ => 0%nat
  end.

(** The number of adjacent pairs of a sequence whose first label is present
    and not empty and whose second label is another one. *)
Fixpoint changes_after_label (labels : list (option string)) : nat :=
  match labels with
  | a :: (b :: _) as rest =>
      ((if truthy a && differs a b then 1 else 0)
       + changes_after_label rest)%nat
  | _ => 0%nat
  end.

(** An observation of the data model: timestamp, label and confidence all
    present. *)
Definition observation (t : datetime) (label : string) (c : float)
  : Emotion.t :=
  {| Emotion.timestamp := Some (isoformat t);
     Emotion.dominant_emotion := Some label;
     Emotion.confidence := Some c |}.

(** An issue of the given type was raised. *)
Definition raised (kind : string) (issues : list Issue.t) : Prop :=
  exists i, In i issues /\ Issue.type i = kind.

(** What [check_critical_issues] logs for an issue, but for the time. *)
Definition logged_as (entry : Logged.t) (issue : Issue.t) : Prop :=
  Logged.issue_type entry = Issue.type issue
  /\ Logged.severity entry = Issue.severity issue
  /\ Logged.details entry = Issue.details issue.

(** A history entry raised within [hours] hours of [now]. *)
Definition raised_within (now : datetime) (hours : Z) (entry : Logged.t)
  : bool :=
  match Logged.timestamp entry with
  | IsoOf t => now - t <=? hours * 3600000000
  | NotIso _ => false
  end.

(** Every entry of the history carries the text of an instant, as the
    entries [check_critical_issues] appends do. *)
Definition history_readable (h : list Logged.t) : Prop :=
  Forall (fun entry => exists t, Logged.timestamp entry = IsoOf t) h.

(** [k] is [l] with some elements left out, the others in their order. *)
Inductive subsequence {A : Type} : list A -> list A -> Prop :=
| subsequence_nil : subsequence [] []
| subsequence_keep x k l : subsequence k l -> subsequence (x :: k) (x :: l)
| subsequence_drop x k l : subsequence k l -> subsequence k (x :: l).

(** A world for the examples: the clock shows [t0] and advances by one
    second with every reading; the detector is fresh. *)
Definition t0 : datetime := 63000000000000000.
Definition minute : timedelta := 60000000.
Definition example_world : world :=
  {| clock := fun n => t0 + Z.of_nat n * 1000000;
     reads := 0;
     self := init |}.

(** The binary64 computations of the source, to compare the exact ones
    with: an integer as a float, [len(recent) * 0.7] against the count, and
    [total_seconds() / 60]. *)
Definition float_of_Z (z : Z) : float :=
  if z <? 0 then PrimFloat.opp (PrimFloat.of_uint63 (Uint63.of_Z (- z)))
  else PrimFloat.of_uint63 (Uint63.of_Z z).

Definition seventy_percent_binary64 (negative_count n : Z) : bool :=
  PrimFloat.leb (PrimFloat.mul (float_of_Z n) 0.7%float)
                (float_of_Z negative_count).

Definition minutes_binary64 (d : timedelta) : float :=
  PrimFloat.div (PrimFloat.div (float_of_Z d) (float_of_Z 1000000)) 60%float.

(** The observations of the examples: taken at [t0]; one of them carries a
    text that is no timestamp. *)
Definition sad_reading : Emotion.t := observation t0 "sad" 0.8%float.
Definition calm_reading : Emotion.t := observation t0 "neutral" 1.0%float.
Definition garbled_reading : Emotion.t :=
  {| Emotion.timestamp := Some (NotIso "half past nine");
     Emotion.dominant_emotion := Some "sad"%string;
     Emotion.confidence := Some 0.8%float |}.

Definition three_sad : list Emotion.t :=
  [sad_reading; sad_reading; sad_reading].
Definition five_sad : list Emotion.t :=
  [sad_reading; sad_reading; sad_reading; sad_reading; sad_reading].
Definition five_calm : list Emotion.t :=
  [calm_reading; calm_reading; calm_reading; calm_reading; calm_reading].
Definition two_angry : list Emotion.t :=
  [observation t0 "angry" 0.95%float; observation t0 "angry" 0.95%float].

(** Sixteen observations that alternate between happy and sad: fifteen
    changes of label. *)
Definition sixteen_swings : list Emotion.t :=
  List.concat (repeat [observation t0 "happy" 0.6%float;
                  observation t0 "sad" 0.6%float] 8).

Definition five_sad_one_garbled : list Emotion.t :=
  five_sad ++ [garbled_reading].

(** The world after one check of [five_sad]: its history has one entry. *)
Definition logged_world : world :=
  snd (check_critical_issues five_sad None None example_world).

(** Seventeen observations, every other one without a label. *)
Definition unlabelled_reading : Emotion.t :=
  {| Emotion.timestamp := Some (isoformat t0);
     Emotion.dominant_emotion := None;
     Emotion.confidence := Some 0.6%float |}.
Definition half_unlabelled : list Emotion.t :=
  List.concat (repeat [unlabelled_reading; observation t0 "sad" 0.6%float] 8)
  ++ [unlabelled_reading].

(** "Label neutral and confidence 1.0". *)
Definition neutral_reading (e : Emotion.t) : Prop :=
  Emotion.dominant_emotion e = Some "neutral"%string
  /\ Emotion.confidence e = Some 1.0%float.

(** Two worlds that differ at most in the history of the detector. *)
Definition same_but_history (w1 w2 : world) : Prop :=
  clock w1 = clock w2 /\ reads w1 = reads w2
  /\ critical_thresholds (self w1) = critical_thresholds (self w2).

(** A method that never looks at the history: run in two worlds that
    differ at most there, it gives the same outcome and leaves worlds that
    again differ at most there. *)
Definition history_blind {A} (c : M A) : Prop :=
  forall w1 w2,
    same_but_history w1 w2 ->
    fst (c w1) = fst (c w2) /\ same_but_history (snd (c w1)) (snd (c w2)).

(** The world [w] with the history [h] in place of its own. *)
Definition with_history (h : list Logged.t) (w : world) : world :=
  {| clock := clock w; reads := reads w;
     self := {| issue_history := h;
                critical_thresholds := critical_thresholds (self w) |} |}.

(** The parts of a report: the leading line, which carries the current
    time, and the rest, made of the ruler and one block of four lines per
    issue, numbered from [i]. *)
Definition leading_line (strftime : datetime -> string) (now : datetime)
  : string :=
  ("CRITICAL ISSUE REPORT - " ++ strftime now ++ nl)%string.

Fixpoint blocks (json_dumps : dict -> string) (i : nat)
  (issues : list Issue.t) : string :=
  match issues with
  | [] => EmptyString
  | issue :: rest =>
      (issue_lines json_dumps i issue ++ blocks json_dumps (S i) rest)%string
  end.

Definition report_body (json_dumps : dict -> string) (issues : list Issue.t)
  : string :=
  (times "=" 50 ++ nl ++ nl ++ blocks json_dumps 1 issues)%string.

(** ** Further vocabulary for the detector *)

(** The types of issue, in the order the rules are evaluated. *)
Definition issue_kinds : list string :=
  ["sustained_negative_emotion"; "rapid_emotion_swings"; "extreme_emotion";
   "communication_breakdown"]%string.

(** An observation without the `timestamp` key. *)
Definition untimed (e : Emotion.t) : Prop := Emotion.timestamp e = None.

(** An observation without the `confidence` key or without the
    `dominant_emotion` key. *)
Definition incomplete (e : Emotion.t) : Prop :=
  Emotion.confidence e = None \/ Emotion.dominant_emotion e = None.

(** The instant an entry of the history was raised at, if its timestamp is
    readable. *)
Definition raised_at (entry : Logged.t) : option datetime :=
  match Logged.timestamp entry with
  | IsoOf t => Some t
  | NotIso _ => None
  end.

(** The wall clock never goes back. *)
Definition nondecreasing (clk : nat -> datetime) : Prop :=
  forall n m, (n <= m)%nat -> clk n <= clk m.

(** A history in the order of time: every entry carries an instant, and no
    entry was raised after a later one. *)
Fixpoint chronological (h : list Logged.t) : Prop :=
  match h with
  | [] => True
  | entry :: rest =>
      (exists t, raised_at entry = Some t
                 /\ Forall (fun later_entry =>
                              exists t', raised_at later_entry = Some t'
                                         /\ t <= t') rest)
      /\ chronological rest
  end.

(** No entry of the history was raised after the instant [now]. *)
Definition not_after (now : datetime) (h : list Logged.t) : Prop :=
  Forall (fun entry => exists t, raised_at entry = Some t /\ t <= now) h.

(** The state the detector keeps over time when the clock never goes back:
    the history is in the order of time and holds nothing raised after the
    instant the clock shows next. *)
Definition timely (w : world) : Prop :=
  nondecreasing (clock w)
  /\ chronological (issue_history (self w))
  /\ not_after (next_now w) (issue_history (self w)).

(** Two observations for the examples: an extreme one and a calm one that
    follows it. *)
Definition angry_then_happy : list Emotion.t :=
  [observation t0 "angry" 0.95%float; observation t0 "angry" 0.95%float;
   observation t0 "happy" 0.5%float].

(** Three observations without any key but the label. *)
Definition bare_reading : Emotion.t :=
  {| Emotion.timestamp := None;
     Emotion.dominant_emotion := Some "angry"%string;
     Emotion.confidence := None |}.
Definition untimed_sad : Emotion.t :=
  {| Emotion.timestamp := None;
     Emotion.dominant_emotion := Some "sad"%string;
     Emotion.confidence := Some 0.8%float |}.

(** ** Vocabulary for the conversational agent *)

(** One of the three negative emotions. *)
Definition negative_name (s : string) : bool :=
  among s ["sad"; "angry"; "fearful"]%string.

(** The agent has the templates and interventions of [__init__]. *)
Definition stocked (d : Conversation.ConversationAI) : Prop :=
  Conversation.response_templates d
  = Conversation.response_templates Conversation.init
  /\ Conversation.interventions d
     = Conversation.interventions Conversation.init.

(** The agent is not at the critical level and no turn of its history was
    logged at it. *)
Definition never_critical (d : Conversation.ConversationAI) : Prop :=
  Conversation.intervention_level d <> "critical"%string
  /\ Forall (fun turn =>
               Conversation.Turn.intervention_level turn <> "critical"%string)
            (Conversation.conversation_history d).

(** A method of the agent that leaves the agent, the clock and the number
    of its readings as they are. *)
Definition idle {A} (c : Conversation.M A) : Prop :=
  forall w r w',
    c w = (r, w') ->
    Conversation.self w' = Conversation.self w
    /\ Conversation.clock w' = Conversation.clock w
    /\ Conversation.reads w' = Conversation.reads w.

(** Two outcomes of a method of the agent that agree on everything but the
    user input recorded in the history: the same result, the same numbers of
    clock readings and random draws, the same level, and turn by turn the
    same responses. *)
Definition same_but_input {A}
  (x y : Conversation.result A * Conversation.world) : Prop :=
  fst x = fst y
  /\ Conversation.draws (snd x) = Conversation.draws (snd y)
  /\ Conversation.reads (snd x) = Conversation.reads (snd y)
  /\ Conversation.intervention_level (Conversation.self (snd x))
     = Conversation.intervention_level (Conversation.self (snd y))
  /\ map Conversation.Turn.response
       (Conversation.conversation_history (Conversation.self (snd x)))
     = map Conversation.Turn.response
         (Conversation.conversation_history (Conversation.self (snd y))).

(** The keywords [_respond_to_input] looks for. *)
Definition keywords : list string :=
  ["help"; "support"; "need"; "tired"; "exhausted"; "sleep"; "stress";
   "stressed"; "pressure"; "lonely"; "alone"; "isolated"; "thank"; "thanks";
   "appreciate"; "fine"; "okay"; "good"; "well"]%string.

(** [set_of] lists the members of a list, in some order. *)
Definition lists_members (set_of : list string -> list string) : Prop :=
  forall l x, In x (set_of l) <-> In x l.

(** A world of the agent for the examples: the clock of [example_world], a
    random source that counts up, a fresh agent. *)
Definition example_agent_world : Conversation.world :=
  {| Conversation.clock := fun n => t0 + Z.of_nat n * 1000000;
     Conversation.reads := 0;
     Conversation.random := fun n => n;
     Conversation.draws := 0;
     Conversation.self := Conversation.init |}.

(** The world of the agent after one answer: its history has one turn. *)
Definition talked_world : Conversation.world :=
  snd (Conversation.generate_response "Sad" 0.9%float None None
         example_agent_world).

(** An order of iteration for the examples: first occurrences. *)
Definition first_occurrences (l : list string) : list string :=
  rev (nodup string_dec (rev l)).

(** * Properties *)

(** ** Exact comparisons *)

Lemma minutes_le (d m : Z) :
  Qle_bool (minutes d) (inject_Z m) = (d <=? m * 60000000).
Proof.
  unfold Qle_bool, minutes, inject_Z. cbn [Qnum Qden].
  now rewrite Z.mul_1_r.
Qed.

Lemma minutes_ge (d m : Z) :
  Qle_bool (inject_Z m) (minutes d) = (m * 60000000 <=? d).
Proof.
  unfold Qle_bool, minutes, inject_Z. cbn [Qnum Qden].
  now rewrite Z.mul_1_r.
Qed.

Lemma seventy_percent_exact (c n : Z) :
  seventy_percent c n = (7 * n <=? 10 * c).
Proof.
  unfold seventy_percent, Qle_bool, inject_Z, Qmult. cbn [Qnum Qden].
  apply eq_true_iff_eq. rewrite !Z.leb_le. lia.
Qed.

Lemma percentage_bounds (c n : Z) :
  0 <= c <= n -> 0 < n -> (0 <= percentage c n /\ percentage c n <= 100)%Q.
Proof.
  intros Hc Hn. unfold percentage, Qle, Qmult, inject_Z. cbn [Qnum Qden].
  rewrite Pos.mul_1_r, Z2Pos.id by lia. nia.
Qed.

(** The exact comparisons have the value of the binary64 ones of the
    source: for every window of up to 300 observations and every count, and
    at, just below and just above each of the three bounds in minutes. *)
Lemma seventy_percent_binary64_agrees :
  forallb
    (fun n =>
       forallb
         (fun c =>
            Bool.eqb (seventy_percent_binary64 (Z.of_nat c) (Z.of_nat n))
                     (seventy_percent (Z.of_nat c) (Z.of_nat n)))
         (seq 0 (S n)))
    (seq 0 301)
  = true.
Proof. vm_compute. reflexivity. Qed.

Lemma minutes_binary64_agrees :
  forallb
    (fun m =>
       forallb
         (fun d =>
            Bool.eqb (PrimFloat.leb (minutes_binary64 (m * 60000000 + d))
                                    (float_of_Z m))
                     (Qle_bool (minutes (m * 60000000 + d)) (inject_Z m))
            && Bool.eqb (PrimFloat.leb (float_of_Z m)
                                       (minutes_binary64 (m * 60000000 + d)))
                        (Qle_bool (inject_Z m) (minutes (m * 60000000 + d))))
         [-1; 0; 1])
    [5; 15; 30]
  = true.
Proof. vm_compute. reflexivity. Qed.

(** ** Windows *)

Lemma in_window_readable now m e :
  readable e -> in_window now m e = Ok (within now m e).
Proof.
  unfold readable, in_window, within, instant. intros Hr.
  destruct (Emotion.timestamp e) as [[t | s] | ];
    cbn [fromisoformat isoformat].
  - now rewrite minutes_le.
  - now destruct (Hr s).
  - now rewrite minutes_le.
Qed.

Lemma comprehension_filter {A} (cond : A -> outcome bool) (p : A -> bool) l :
  Forall (fun e => cond e = Ok (p e)) l ->
  comprehension cond l = Ok (filter p l).
Proof.
  induction 1 as [ | e l He _ IH]; cbn.
  - reflexivity.
  - rewrite He, IH. now destruct (p e).
Qed.

Lemma window_readable now m l :
  Forall readable l ->
  comprehension (in_window now m) l = Ok (filter (within now m) l).
Proof.
  intros Hl. apply comprehension_filter.
  eapply Forall_impl; [ | exact Hl].
  intros e He. now apply in_window_readable.
Qed.

Lemma window_unreadable now m l :
  Exists unreadable l ->
  exists s, comprehension (in_window now m) l = Raise (ValueError s).
Proof.
  induction 1 as [e l [s He] | e l _ [s IH]]; cbn.
  - exists s. unfold in_window. now rewrite He.
  - destruct (in_window now m e) as [b | x] eqn:E.
    + exists s. now rewrite IH.
    + unfold in_window in E.
      destruct (Emotion.timestamp e) as [[t | s'] | ]; cbn in E;
        try discriminate.
      exists s'. now inversion E.
Qed.

Lemma last_item_ok {A} (l : list A) :
  l <> [] -> exists e, last_item l = Ok e /\ In e l.
Proof.
  induction l as [ | a l IH]; [easy | intros _].
  destruct l as [ | b l].
  - exists a. cbn. auto.
  - destruct IH as [e [He Hin]]; [easy | ].
    exists e. split; [exact He | now right].
Qed.

Lemma filter_filter {A} (p q : A -> bool) l :
  filter p (filter q l) = filter (fun e => q e && p e) l.
Proof.
  induction l as [ | a l IH]; cbn; [reflexivity | ].
  destruct (q a); cbn; [destruct (p a) | ]; now rewrite IH.
Qed.

(** ** What a rule may change *)

Lemma later_refl w : later 0 w w.
Proof. unfold later. repeat split. lia. Qed.

Lemma later_now w :
  later 1 w {| clock := clock w; reads := S (reads w); self := self w |}.
Proof. unfold later. cbn. repeat split. lia. Qed.

Lemma later_trans j k w1 w2 w3 :
  later j w1 w2 -> later k w2 w3 -> later (j + k) w1 w3.
Proof.
  unfold later. intros (Hc & Hr & Hs) (Hc' & Hr' & Hs').
  rewrite Hc', Hr', Hs', Hc, Hr, Hs. repeat split. lia.
Qed.

(** Runs a method body: exposes the state passing and splits on every test
    the body makes. *)
Ltac run_method :=
  unfold bind, get_self, datetime_now, lift, ret;
  repeat match goal with
         | |- context [match ?x with _ => _ end] => destruct x eqn:?
         end.

Ltac close_frame :=
  cbn [snd];
  first [ exists 0%nat; split; [lia | apply later_refl]
        | exists 1%nat; split; [lia | apply later_now] ].

Lemma sustained_frame data w :
  exists k, (k <= 1)%nat
            /\ later k w (snd (_check_sustained_negative_emotion data w)).
Proof. unfold _check_sustained_negative_emotion. run_method; close_frame. Qed.

Lemma swings_frame data w :
  exists k, (k <= 1)%nat
            /\ later k w (snd (_check_rapid_emotion_swings data w)).
Proof. unfold _check_rapid_emotion_swings. run_method; close_frame. Qed.

Lemma extreme_frame data w :
  exists k, (k <= 1)%nat /\ later k w (snd (_check_extreme_emotion data w)).
Proof. unfold _check_extreme_emotion. run_method; close_frame. Qed.

Lemma breakdown_frame li w :
  exists k, (k <= 1)%nat
            /\ later k w (snd (_check_communication_breakdown li w)).
Proof. unfold _check_communication_breakdown. run_method; close_frame. Qed.

(** ** The type and severity a rule gives its issue *)

Ltac close_kind :=
  match goal with
  | H : (_, _) = (Ok (Some _), _) |- _ => inversion H; subst; cbn; auto
  | H : (_, _) = (_, _) |- _ => discriminate H
  end.

Lemma sustained_kind data w i w' :
  _check_sustained_negative_emotion data w = (Ok (Some i), w') ->
  Issue.type i = "sustained_negative_emotion"%string
  /\ Issue.severity i = "high"%string.
Proof.
  unfold _check_sustained_negative_emotion. run_method; intros; close_kind.
Qed.

Lemma swings_kind data w i w' :
  _check_rapid_emotion_swings data w = (Ok (Some i), w') ->
  Issue.type i = "rapid_emotion_swings"%string
  /\ Issue.severity i = "medium"%string.
Proof.
  unfold _check_rapid_emotion_swings. run_method; intros; close_kind.
Qed.

Lemma extreme_kind data w i w' :
  _check_extreme_emotion data w = (Ok (Some i), w') ->
  Issue.type i = "extreme_emotion"%string
  /\ Issue.severity i = "high"%string.
Proof.
  unfold _check_extreme_emotion. run_method; intros; close_kind.
Qed.

Lemma breakdown_kind li w i w' :
  _check_communication_breakdown li w = (Ok (Some i), w') ->
  Issue.type i = "communication_breakdown"%string
  /\ Issue.severity i = "high"%string.
Proof.
  unfold _check_communication_breakdown. run_method; intros; close_kind.
Qed.

(** ** When a rule fires *)

Lemma extreme_fires data w :
  configured w -> Forall readable data ->
  exists r,
    fst (_check_extreme_emotion data w) = Ok r
    /\ (r <> None <->
        (2 <= List.length
                (filter extreme (filter (within (next_now w) 5) data)))%nat).
Proof.
  intros Hc Hr. unfold _check_extreme_emotion, next_now.
  destruct data as [ | e0 data0] eqn:Ed.
  - exists None. cbn. split; [reflexivity | ]. split; [easy | lia].
  - rewrite <- Ed in *. clear Ed.
    unfold bind, get_self, datetime_now, lift, ret. rewrite Hc.
    cbn [init critical_thresholds extreme_emotion emotion duration_minutes
         confidence_threshold].
    rewrite (window_readable _ _ _ Hr).
    fold extreme. unfold count.
    set (recent := filter (within (clock w (reads w)) 5) data).
    destruct recent as [ | e1 recent1] eqn:Er.
    + exists None. cbn. split; [reflexivity | ]. split; [easy | lia].
    + rewrite <- Er.
      destruct (Z.leb_spec 2 (Z.of_nat (List.length (filter extreme recent))))
        as [Hn | Hn].
      * destruct (last_item_ok recent) as [e [He _]]; [now rewrite Er | ].
        rewrite He. eexists. cbn [fst]. split; [reflexivity | ].
        split; [lia | easy].
      * exists None. cbn [fst]. split; [reflexivity | ]. split; [easy | lia].
Qed.

Lemma sustained_fires data w :
  configured w -> Forall readable data ->
  let recent := filter (within (next_now w) 15) data in
  let bad := filter negative recent in
  exists r,
    fst (_check_sustained_negative_emotion data w) = Ok r
    /\ (r <> None <->
        (5 <= List.length data /\ 3 <= List.length recent
         /\ 7 * List.length recent <= 10 * List.length bad)%nat)
    /\ (forall i, r = Some i ->
        dict_get "negative_percentage" (Issue.details i)
        = Some (VNum (percentage (len bad) (len recent)))).
Proof.
  intros Hc Hr recent bad. unfold _check_sustained_negative_emotion.
  unfold len at 1.
  destruct (Z.ltb_spec (Z.of_nat (List.length data)) 5) as [Hd | Hd].
  - exists None. cbn. split; [reflexivity | ]. split; [ | easy].
    split; [easy | lia].
  - unfold bind, get_self, datetime_now, lift, ret. rewrite Hc.
    cbn [init critical_thresholds sustained_negative_emotion emotion
         duration_minutes confidence_threshold].
    rewrite (window_readable _ _ _ Hr).
    fold negative. unfold count. fold (next_now w). fold recent. fold bad.
    unfold len at 1.
    destruct (Z.ltb_spec (Z.of_nat (List.length recent)) 3) as [Hw | Hw].
    + exists None. cbn. split; [reflexivity | ]. split; [ | easy].
      split; [easy | lia].
    + rewrite seventy_percent_exact. unfold len at 1.
      destruct (Z.leb_spec (7 * Z.of_nat (List.length recent))
                           (10 * Z.of_nat (List.length bad))) as [Hn | Hn].
      * destruct (last_item_ok recent) as [e [He _]].
        { intros E. rewrite E in Hw. cbn in Hw. lia. }
        rewrite He. eexists. cbn [fst]. split; [reflexivity | ].
        split; [split; [lia | easy] | ].
        intros i Hi. inversion Hi. reflexivity.
      * exists None. cbn [fst]. split; [reflexivity | ]. split; [ | easy].
        split; [easy | lia].
Qed.

Lemma swings_fires data w :
  configured w -> Forall readable data ->
  let recent := filter (within (next_now w) 5) data in
  exists r,
    fst (_check_rapid_emotion_swings data w) = Ok r
    /\ (r <> None <->
        (5 <= List.length data)%nat /\ (3 <= List.length recent)%nat
        /\ 15 <= count_changes None 0 recent).
Proof.
  intros Hc Hr recent. unfold _check_rapid_emotion_swings.
  unfold len at 1.
  destruct (Z.ltb_spec (Z.of_nat (List.length data)) 5) as [Hd | Hd].
  - exists None. cbn. split; [reflexivity | ]. split; [easy | lia].
  - unfold bind, get_self, datetime_now, lift, ret. rewrite Hc.
    cbn [init critical_thresholds rapid_emotion_swings swings_per_minute
         time_window_minutes].
    rewrite (window_readable _ _ _ Hr).
    fold (next_now w). fold recent. unfold len at 1.
    destruct (Z.ltb_spec (Z.of_nat (List.length recent)) 3) as [Hw | Hw].
    + exists None. cbn. split; [reflexivity | ]. split; [easy | lia].
    + change (3 * 5) with 15.
      destruct (Z.leb_spec 15 (count_changes None 0 recent)) as [Hn | Hn].
      * eexists. cbn [fst]. split; [reflexivity | ].
        split; [lia | easy].
      * exists None. cbn [fst]. split; [reflexivity | ].
        split; [easy | lia].
Qed.

Lemma breakdown_fires t w :
  configured w ->
  exists r,
    fst (_check_communication_breakdown (Some t) w) = Ok r
    /\ (r <> None <-> 30 * 60000000 <= next_now w - t).
Proof.
  intros Hc. unfold _check_communication_breakdown.
  unfold bind, get_self, datetime_now, lift, ret. rewrite Hc.
  cbn [init critical_thresholds communication_breakdown no_response_minutes].
  rewrite minutes_ge. fold (next_now w).
  destruct (Z.leb_spec (30 * 60000000) (next_now w - t)) as [Hn | Hn].
  - eexists. cbn [fst]. split; [reflexivity | ]. split; [lia | easy].
  - exists None. cbn [fst]. split; [reflexivity | ]. split; [easy | lia].
Qed.

(** ** The change-counting loop *)

Lemma differs_sym a b : differs a b = differs b a.
Proof.
  destruct a as [s | ], b as [s' | ]; cbn; try reflexivity.
  now rewrite String.eqb_sym.
Qed.

Lemma adjacent_changes_cons a b rest :
  adjacent_changes (a :: b :: rest)
  = ((if differs a b then 1 else 0) + adjacent_changes (b :: rest))%nat.
Proof. reflexivity. Qed.

Lemma count_changes_from prev acc l :
  truthy prev = true ->
  Forall labelled l ->
  count_changes prev acc l
  = acc + Z.of_nat (adjacent_changes (prev :: map Emotion.dominant_emotion l)).
Proof.
  intros Hp Hl. revert prev acc Hp.
  induction Hl as [ | e l He _ IH]; intros prev acc Hp.
  - cbn. lia.
  - cbn [count_changes map]. rewrite Hp. cbn [andb].
    rewrite (IH _ _ He), adjacent_changes_cons, (differs_sym prev).
    destruct (differs (Emotion.dominant_emotion e) prev); lia.
Qed.

Lemma count_changes_adjacent l :
  Forall labelled l ->
  count_changes None 0 l
  = Z.of_nat (adjacent_changes (map Emotion.dominant_emotion l)).
Proof.
  intros Hl. destruct Hl as [ | e l He Hl]; [reflexivity | ].
  cbn [count_changes truthy andb map].
  now rewrite (count_changes_from _ _ _ He Hl).
Qed.

Lemma changes_after_label_cons a b rest :
  changes_after_label (a :: b :: rest)
  = ((if truthy a && differs a b then 1 else 0)
     + changes_after_label (b :: rest))%nat.
Proof. reflexivity. Qed.

Lemma count_changes_counted prev acc l :
  count_changes prev acc l
  = acc
    + Z.of_nat (changes_after_label (prev :: map Emotion.dominant_emotion l)).
Proof.
  revert prev acc. induction l as [ | e l IH]; intros prev acc.
  - cbn. lia.
  - cbn [count_changes map].
    rewrite IH, changes_after_label_cons, (differs_sym prev).
    destruct (truthy prev && differs (Emotion.dominant_emotion e) prev); lia.
Qed.

Lemma count_changes_start l :
  count_changes None 0 l
  = Z.of_nat (changes_after_label (map Emotion.dominant_emotion l)).
Proof.
  rewrite count_changes_counted. now destruct l.
Qed.

Lemma changes_after_label_adjacent labels :
  Forall (fun a => truthy a = true) labels ->
  changes_after_label labels = adjacent_changes labels.
Proof.
  induction labels as [ | a [ | b rest] IH]; intros Hl; [reflexivity .. | ].
  rewrite changes_after_label_cons, adjacent_changes_cons.
  inversion Hl as [ | a' l' Ha Hl']. subst a' l'.
  rewrite Ha, (IH Hl'). reflexivity.
Qed.

Lemma changes_after_label_bound (labels : list (option string)) :
  (changes_after_label labels <= Nat.pred (List.length labels))%nat.
Proof.
  induction labels as [ | a [ | b rest] IH]; [cbn; lia .. | ].
  rewrite changes_after_label_cons. cbn [List.length Nat.pred] in *.
  destruct (truthy a && differs a b); lia.
Qed.

Lemma adjacent_changes_bound (labels : list (option string)) :
  (adjacent_changes labels <= Nat.pred (List.length labels))%nat.
Proof.
  induction labels as [ | a [ | b rest] IH]; [cbn; lia .. | ].
  rewrite adjacent_changes_cons. cbn [List.length Nat.pred] in *.
  destruct (differs a b); lia.
Qed.

Lemma Forall_filter {A} (P : A -> Prop) (p : A -> bool) l :
  Forall P l -> Forall P (filter p l).
Proof.
  intros Hl. rewrite Forall_forall in *.
  intros e He. apply filter_In in He. now apply Hl.
Qed.

(** ** Sequencing *)

Lemma bind_ok {A B} (c : M A) (k : A -> M B) w b w' :
  bind c k w = (Ok b, w') ->
  exists a w1, c w = (Ok a, w1) /\ k a w1 = (Ok b, w').
Proof.
  unfold bind. destruct (c w) as [[a | x] w1]; [ | discriminate].
  intros H. now exists a, w1.
Qed.

Lemma bind_raise {A B} (c : M A) (k : A -> M B) w x w' :
  bind c k w = (Raise x, w') ->
  c w = (Raise x, w')
  \/ exists a w1, c w = (Ok a, w1) /\ k a w1 = (Raise x, w').
Proof.
  unfold bind. destruct (c w) as [[a | y] w1]; intros H.
  - right. now exists a, w1.
  - left. now inversion H.
Qed.

Lemma bind_run {A B} (c : M A) (k : A -> M B) w a w1 :
  c w = (Ok a, w1) -> bind c k w = k a w1.
Proof. unfold bind. now intros ->. Qed.

(** ** The logging loop *)

Lemma log_issues_run issues w :
  exists entries w',
    log_issues issues w = (Ok tt, w')
    /\ clock w' = clock w
    /\ reads w' = (reads w + List.length issues)%nat
    /\ critical_thresholds (self w') = critical_thresholds (self w)
    /\ issue_history (self w') = issue_history (self w) ++ entries
    /\ Forall2 logged_as entries issues
    /\ history_readable entries.
Proof.
  revert w. induction issues as [ | issue rest IH]; intros w.
  - exists [], w. cbn [log_issues ret]. rewrite app_nil_r.
    repeat split; try constructor. cbn. lia.
  - cbn [log_issues]. unfold bind at 1 2, datetime_now, issue_history_append.
    match goal with
    | |- context [log_issues rest ?w1] =>
        destruct (IH w1) as (entries & w' & Hrun & Hc & Hn & Ht & Hh & Hf & Hr)
    end.
    cbn [self clock reads issue_history critical_thresholds] in *.
    eexists (_ :: entries), w'. split; [exact Hrun | ].
    rewrite Hh, <- app_assoc. cbn [app List.length].
    repeat split; auto; try lia.
    + constructor; [ | exact Hf]. now unfold logged_as.
    + constructor; [ | exact Hr]. eexists. reflexivity.
Qed.

(** ** The steps of [check_critical_issues] *)

Lemma check_ok_inv data audio li w issues w' :
  check_critical_issues data audio li w = (Ok issues, w') ->
  exists s sw ex br w1 w2 w3 w4,
    _check_sustained_negative_emotion data w = (Ok s, w1)
    /\ _check_rapid_emotion_swings data w1 = (Ok sw, w2)
    /\ _check_extreme_emotion data w2 = (Ok ex, w3)
    /\ match li with
       | Some _ => _check_communication_breakdown li w3 = (Ok br, w4)
       | None => br = None /\ w4 = w3
       end
    /\ issues
       = append_found
           (append_found (append_found (append_found [] s) sw) ex) br
    /\ log_issues issues w4 = (Ok tt, w').
Proof.
  unfold check_critical_issues. intros H.
  apply bind_ok in H as (s & w1 & H1 & H).
  apply bind_ok in H as (sw & w2 & H2 & H).
  apply bind_ok in H as (ex & w3 & H3 & H).
  apply bind_ok in H as (found & w4 & H4 & H).
  apply bind_ok in H as ([] & w5 & H5 & H).
  unfold ret in H. inversion H. subst found w5. clear H.
  destruct li as [t | ].
  - apply bind_ok in H4 as (br & w4' & H4 & H).
    unfold ret in H. inversion H. subst w4'.
    exists s, sw, ex, br, w1, w2, w3, w4.
    repeat split; try assumption; congruence.
  - unfold ret in H4. inversion H4. subst w4.
    exists s, sw, ex, None, w1, w2, w3, w3.
    repeat split; try assumption; congruence.
Qed.

Lemma rules_frame data w s sw ex w1 w2 w3 :
  _check_sustained_negative_emotion data w = (s, w1) ->
  _check_rapid_emotion_swings data w1 = (sw, w2) ->
  _check_extreme_emotion data w2 = (ex, w3) ->
  exists k, (k <= 3)%nat /\ later k w w3.
Proof.
  intros H1 H2 H3.
  destruct (sustained_frame data w) as (k1 & Hk1 & L1). rewrite H1 in L1.
  destruct (swings_frame data w1) as (k2 & Hk2 & L2). rewrite H2 in L2.
  destruct (extreme_frame data w2) as (k3 & Hk3 & L3). rewrite H3 in L3.
  exists (k1 + k2 + k3)%nat. split; [lia | ].
  eapply later_trans; [eapply later_trans | ]; eassumption.
Qed.

Lemma configured_later k w w' : later k w w' -> configured w -> configured w'.
Proof. unfold later, configured. intros (_ & _ & ->). auto. Qed.

Lemma check_returns data audio li w :
  configured w -> Forall readable data ->
  exists issues w', check_critical_issues data audio li w = (Ok issues, w').
Proof.
  intros Hc Hr.
  destruct (sustained_fires data w Hc Hr) as (s & Hs & _).
  destruct (_check_sustained_negative_emotion data w) as [o1 w1] eqn:E1.
  cbn [fst] in Hs. subst o1.
  destruct (sustained_frame data w) as (k1 & _ & L1). rewrite E1 in L1.
  apply configured_later in L1 as Hc1; [ | exact Hc].
  destruct (swings_fires data w1 Hc1 Hr) as (sw & Hsw & _).
  destruct (_check_rapid_emotion_swings data w1) as [o2 w2] eqn:E2.
  cbn [fst] in Hsw. subst o2.
  destruct (swings_frame data w1) as (k2 & _ & L2). rewrite E2 in L2.
  apply configured_later in L2 as Hc2; [ | exact Hc1].
  destruct (extreme_fires data w2 Hc2 Hr) as (ex & Hex & _).
  destruct (_check_extreme_emotion data w2) as [o3 w3] eqn:E3.
  cbn [fst] in Hex. subst o3.
  destruct (extreme_frame data w2) as (k3 & _ & L3). rewrite E3 in L3.
  apply configured_later in L3 as Hc3; [ | exact Hc2].
  unfold check_critical_issues.
  rewrite (bind_run _ _ _ _ _ E1), (bind_run _ _ _ _ _ E2),
    (bind_run _ _ _ _ _ E3).
  destruct li as [t | ].
  - destruct (breakdown_fires t w3 Hc3) as (br & Hbr & _).
    destruct (_check_communication_breakdown (Some t) w3) as [o4 w4] eqn:E4.
    cbn [fst] in Hbr. subst o4.
    unfold bind at 1. unfold bind at 1. rewrite E4. unfold ret at 1.
    match goal with
    | |- context [log_issues ?l] =>
        destruct (log_issues_run l w4) as (entries & w' & Hl & _)
    end.
    unfold bind, ret. rewrite Hl. eauto.
  - unfold bind at 1. unfold ret at 1.
    match goal with
    | |- context [log_issues ?l] =>
        destruct (log_issues_run l w3) as (entries & w' & Hl & _)
    end.
    unfold bind, ret. rewrite Hl. eauto.
Qed.

Lemma check_raise_inv data audio li w x w' :
  check_critical_issues data audio li w = (Raise x, w') ->
  exists k, later k w w'.
Proof.
  unfold check_critical_issues. intros H.
  apply bind_raise in H as [H1 | (s & w1 & H1 & H)].
  { destruct (sustained_frame data w) as (k & _ & L). rewrite H1 in L. eauto. }
  apply bind_raise in H as [H2 | (sw & w2 & H2 & H)].
  { destruct (sustained_frame data w) as (k1 & _ & L1). rewrite H1 in L1.
    destruct (swings_frame data w1) as (k2 & _ & L2). rewrite H2 in L2.
    eexists. eapply later_trans; eassumption. }
  apply bind_raise in H as [H3 | (ex & w3 & H3 & H)].
  { destruct (rules_frame _ _ _ _ _ _ _ _ H1 H2 H3) as (k & _ & L). eauto. }
  destruct (rules_frame _ _ _ _ _ _ _ _ H1 H2 H3) as (k & _ & L).
  apply bind_raise in H as [H4 | (found & w4 & H4 & H)].
  - destruct li as [t | ]; [ | discriminate H4].
    apply bind_raise in H4 as [H4 | (br & w4 & H4 & H)]; [ | discriminate H].
    destruct (breakdown_frame (Some t) w3) as (k4 & _ & L4). rewrite H4 in L4.
    eexists. eapply later_trans; eassumption.
  - apply bind_raise in H as [H5 | (u & w5 & _ & H)]; [ | discriminate H].
    destruct (log_issues_run found w4) as (entries & w5 & Hl & _).
    rewrite Hl in H5. discriminate H5.
Qed.

(** ** Unreadable timestamps *)

Lemma sustained_unreadable data w :
  Exists unreadable data ->
  _check_sustained_negative_emotion data w = (Ok None, w)
  \/ exists s w',
       _check_sustained_negative_emotion data w = (Raise (ValueError s), w').
Proof.
  intros Hu. unfold _check_sustained_negative_emotion.
  destruct (len data <? 5); [now left | right].
  unfold bind, get_self, datetime_now, lift.
  match goal with
  | |- context [comprehension (in_window ?now ?m) data] =>
      destruct (window_unreadable now m data Hu) as [s ->]
  end.
  eauto.
Qed.

Lemma swings_unreadable data w :
  Exists unreadable data ->
  _check_rapid_emotion_swings data w = (Ok None, w)
  \/ exists s w',
       _check_rapid_emotion_swings data w = (Raise (ValueError s), w').
Proof.
  intros Hu. unfold _check_rapid_emotion_swings.
  destruct (len data <? 5); [now left | right].
  unfold bind, get_self, datetime_now, lift.
  match goal with
  | |- context [comprehension (in_window ?now ?m) data] =>
      destruct (window_unreadable now m data Hu) as [s ->]
  end.
  eauto.
Qed.

Lemma extreme_unreadable data w :
  Exists unreadable data ->
  exists s w', _check_extreme_emotion data w = (Raise (ValueError s), w').
Proof.
  intros Hu. unfold _check_extreme_emotion.
  destruct data as [ | e0 data0] eqn:Ed; [inversion Hu | ].
  rewrite <- Ed in *.
  unfold bind, get_self, datetime_now, lift.
  match goal with
  | |- context [comprehension (in_window ?now ?m) data] =>
      destruct (window_unreadable now m data Hu) as [s ->]
  end.
  eauto.
Qed.

Lemma check_unreadable data audio li w :
  Exists unreadable data ->
  exists s w',
    check_critical_issues data audio li w = (Raise (ValueError s), w').
Proof.
  intros Hu. unfold check_critical_issues.
  destruct (sustained_unreadable data w Hu) as [E1 | (s & w' & E1)].
  2: { exists s, w'. unfold bind at 1. now rewrite E1. }
  rewrite (bind_run _ _ _ _ _ E1).
  destruct (swings_unreadable data w Hu) as [E2 | (s & w' & E2)].
  2: { exists s, w'. unfold bind at 1. now rewrite E2. }
  rewrite (bind_run _ _ _ _ _ E2).
  destruct (extreme_unreadable data w Hu) as (s & w' & E3).
  exists s, w'. unfold bind at 1. now rewrite E3.
Qed.

(** ** Issues of a rule and observations of the data model *)

Lemma fires_kind (rule : M (option Issue.t)) w r kind level :
  fst (rule w) = Ok r ->
  (forall i w', rule w = (Ok (Some i), w') ->
                Issue.type i = kind /\ Issue.severity i = level) ->
  forall i, r = Some i -> Issue.type i = kind /\ Issue.severity i = level.
Proof.
  intros Hr Hk i ->. destruct (rule w) as [o w'] eqn:E.
  cbn [fst] in Hr. subst o. now apply (Hk i w').
Qed.

Lemma extreme_observation t label c :
  extreme (observation t label c)
  = member (Some label) ["angry"; "fearful"]%string
    && PrimFloat.leb 0.9%float c.
Proof. reflexivity. Qed.

Lemma within_observation now m t label c :
  within now m (observation t label c) = (now - t <=? m * 60000000).
Proof. reflexivity. Qed.

(** ** Quiet data and the shape of the returned list *)

Lemma neutral_is_quiet e :
  neutral_reading e -> negative e = false /\ extreme e = false /\ labelled e.
Proof.
  unfold neutral_reading, negative, extreme, labelled, confidence_reaches.
  intros [-> ->]. repeat split.
Qed.

Lemma filter_none {A} (p : A -> bool) l :
  Forall (fun e => p e = false) l -> filter p l = [].
Proof.
  induction 1 as [ | e l He _ IH]; cbn; [reflexivity | ].
  now rewrite He.
Qed.

Lemma adjacent_changes_constant (x : option string) labels :
  Forall (fun y => y = x) labels -> adjacent_changes labels = 0%nat.
Proof.
  induction 1 as [ | a l Ha Hl IH]; [reflexivity | ].
  destruct Hl as [ | b l Hb Hl]; [reflexivity | ].
  rewrite adjacent_changes_cons, IH, Ha, Hb.
  destruct x as [s | ]; cbn; [ | reflexivity].
  now rewrite String.eqb_refl.
Qed.

Lemma quiet_rules data w :
  configured w -> Forall readable data -> Forall neutral_reading data ->
  fst (_check_sustained_negative_emotion data w) = Ok None
  /\ fst (_check_rapid_emotion_swings data w) = Ok None
  /\ fst (_check_extreme_emotion data w) = Ok None.
Proof.
  intros Hc Hr Hn.
  assert (Hq : forall m,
             Forall neutral_reading (filter (within (next_now w) m) data))
    by (intros m; now apply Forall_filter).
  split; [ | split].
  - destruct (sustained_fires data w Hc Hr) as (r & -> & Hiff & _).
    destruct r as [i | ]; [exfalso | reflexivity].
    assert (Hf : Some i <> None) by discriminate.
    apply Hiff in Hf. destruct Hf as (_ & Hw & Hb).
    rewrite (filter_none negative) in Hb; [cbn [List.length] in Hb; lia | ].
    eapply Forall_impl; [ | apply (Hq 15)].
    intros e He. now apply neutral_is_quiet.
  - destruct (swings_fires data w Hc Hr) as (r & -> & Hiff).
    destruct r as [i | ]; [exfalso | reflexivity].
    assert (Hf : Some i <> None) by discriminate.
    apply Hiff in Hf. destruct Hf as (_ & _ & Hb).
    rewrite count_changes_adjacent in Hb.
    + rewrite (adjacent_changes_constant (Some "neutral"%string)) in Hb.
      * lia.
      * apply Forall_map. eapply Forall_impl; [ | apply (Hq 5)].
        intros e He. apply He.
    + eapply Forall_impl; [ | apply (Hq 5)].
      intros e He. now apply neutral_is_quiet.
  - destruct (extreme_fires data w Hc Hr) as (r & -> & Hiff).
    destruct r as [i | ]; [exfalso | reflexivity].
    assert (Hf : Some i <> None) by discriminate.
    apply Hiff in Hf.
    rewrite (filter_none extreme) in Hf; [cbn [List.length] in Hf; lia | ].
    eapply Forall_impl; [ | apply (Hq 5)].
    intros e He. now apply neutral_is_quiet.
Qed.

Lemma in_append_found i issues found :
  In i (append_found issues found) <-> In i issues \/ found = Some i.
Proof.
  destruct found as [j | ]; cbn.
  - rewrite in_app_iff. cbn. intuition congruence.
  - intuition congruence.
Qed.

(** The list [check_critical_issues] returns: what the three emotion rules
    found, then what the communication rule found, which has read the clock
    after at most three earlier readings. *)
Lemma check_shape data audio li w :
  configured w -> Forall readable data ->
  exists issues w' front br k,
    check_critical_issues data audio li w = (Ok issues, w')
    /\ issues = append_found front br
    /\ (forall i, In i front ->
        Issue.type i <> "communication_breakdown"%string)
    /\ (Forall neutral_reading data -> front = [])
    /\ (k <= 3)%nat
    /\ match li with
       | None => br = None
       | Some t =>
           br <> None <-> 30 * 60000000 <= clock w (reads w + k) - t
       end
    /\ (forall i, br = Some i ->
        Issue.type i = "communication_breakdown"%string
        /\ Issue.severity i = "high"%string).
Proof.
  intros Hc Hr.
  destruct (check_returns data audio li w Hc Hr) as (issues & w' & Hrun).
  destruct (check_ok_inv _ _ _ _ _ _ Hrun)
    as (s & sw & ex & br & w1 & w2 & w3 & w4 & H1 & H2 & H3 & H4 & Hi & _).
  destruct (rules_frame _ _ _ _ _ _ _ _ H1 H2 H3) as (k & Hk & L3).
  destruct (sustained_frame data w) as (k1 & _ & L1). rewrite H1 in L1.
  destruct (swings_frame data w1) as (k2 & _ & L2). rewrite H2 in L2.
  pose proof (configured_later _ _ _ L1 Hc) as Hc1.
  pose proof (configured_later _ _ _ L2 Hc1) as Hc2.
  pose proof (configured_later _ _ _ L3 Hc) as Hc3.
  exists issues, w', (append_found (append_found (append_found [] s) sw) ex),
    br, k.
  split; [exact Hrun | split; [exact Hi | split; [ | split; [ | split]]]].
  - intros i Hin. rewrite !in_append_found in Hin. cbn [In] in Hin.
    destruct Hin as [[[[] | ->] | ->] | ->].
    + apply sustained_kind in H1 as [-> _]. discriminate.
    + apply swings_kind in H2 as [-> _]. discriminate.
    + apply extreme_kind in H3 as [-> _]. discriminate.
  - intros Hn.
    destruct (quiet_rules data w Hc Hr Hn) as (Q1 & _ & _).
    destruct (quiet_rules data w1 Hc1 Hr Hn) as (_ & Q2 & _).
    destruct (quiet_rules data w2 Hc2 Hr Hn) as (_ & _ & Q3).
    rewrite H1 in Q1. rewrite H2 in Q2. rewrite H3 in Q3.
    cbn [fst] in Q1, Q2, Q3. inversion Q1. inversion Q2. inversion Q3.
    reflexivity.
  - exact Hk.
  - destruct li as [t | ].
    + split.
      * destruct (breakdown_fires t w3 Hc3) as (r & Hr4 & Hiff).
        rewrite H4 in Hr4. cbn [fst] in Hr4. inversion Hr4. subst r.
        destruct L3 as (Lc & Ln & _). unfold next_now in Hiff.
        rewrite Lc, Ln in Hiff. exact Hiff.
      * intros i ->. now apply breakdown_kind in H4.
    + destruct H4 as [-> _]. split; [reflexivity | discriminate].
Qed.

(** ** Methods that do not look at the history *)

Lemma blind_ret {A} (a : A) : history_blind (ret a).
Proof. intros w1 w2 H. now split. Qed.

Lemma blind_bind {A B} (c : M A) (k : A -> M B) :
  history_blind c -> (forall a, history_blind (k a)) ->
  history_blind (bind c k).
Proof.
  intros Hc Hk w1 w2 H. unfold bind.
  destruct (Hc w1 w2 H) as [Hf Hs].
  destruct (c w1) as [[a1 | x1] v1], (c w2) as [[a2 | x2] v2];
    cbn [fst snd] in *; try discriminate.
  - inversion Hf. subst a2. now apply Hk.
  - inversion Hf. now split.
Qed.

Lemma blind_lift {A} (o : outcome A) : history_blind (lift o).
Proof. intros w1 w2 H. now split. Qed.

Lemma blind_now : history_blind datetime_now.
Proof.
  intros w1 w2 (Hc & Hn & Ht). unfold datetime_now, same_but_history.
  cbn. rewrite Hc, Hn. auto.
Qed.

Lemma blind_append entry : history_blind (issue_history_append entry).
Proof.
  intros w1 w2 (Hc & Hn & Ht). unfold issue_history_append, same_but_history.
  cbn. auto.
Qed.

(** A method that reads from [self] only the thresholds. *)
Lemma blind_thresholds {A} (k : CriticalIssueDetector -> M A) :
  (forall d1 d2, critical_thresholds d1 = critical_thresholds d2 ->
                 k d1 = k d2) ->
  (forall d, history_blind (k d)) ->
  history_blind (bind get_self k).
Proof.
  intros Hk Hb w1 w2 H. unfold bind, get_self.
  rewrite (Hk (self w1) (self w2)) by apply H. now apply Hb.
Qed.

Ltac blind_step :=
  first [ apply blind_ret | apply blind_lift | apply blind_now
        | apply blind_append
        | apply blind_thresholds;
          [intros ? ? Heq; cbv beta zeta; now rewrite Heq | intros ?]
        | apply blind_bind; [ | intros ?]
        | match goal with
          | |- history_blind (if ?b then _ else _) => destruct b
          | |- history_blind (match ?x with _ => _ end) => destruct x
          end ].

Lemma blind_sustained data :
  history_blind (_check_sustained_negative_emotion data).
Proof. unfold _check_sustained_negative_emotion. repeat blind_step. Qed.

Lemma blind_swings data : history_blind (_check_rapid_emotion_swings data).
Proof. unfold _check_rapid_emotion_swings. repeat blind_step. Qed.

Lemma blind_extreme data : history_blind (_check_extreme_emotion data).
Proof. unfold _check_extreme_emotion. repeat blind_step. Qed.

Lemma blind_breakdown li : history_blind (_check_communication_breakdown li).
Proof. unfold _check_communication_breakdown. repeat blind_step. Qed.

Lemma blind_log issues : history_blind (log_issues issues).
Proof.
  induction issues as [ | issue rest IH]; cbn [log_issues].
  - apply blind_ret.
  - repeat blind_step. exact IH.
Qed.

Lemma blind_check data audio li :
  history_blind (check_critical_issues data audio li).
Proof.
  unfold check_critical_issues.
  apply blind_bind; [apply blind_sustained | intros s].
  apply blind_bind; [apply blind_swings | intros sw].
  apply blind_bind; [apply blind_extreme | intros ex].
  apply blind_bind; [ | intros issues].
  - destruct li as [t | ]; [ | apply blind_ret].
    apply blind_bind; [apply blind_breakdown | intros br; apply blind_ret].
  - apply blind_bind; [apply blind_log | intros u; apply blind_ret].
Qed.

(** ** The history *)

Lemma same_but_history_with h w : same_but_history (with_history h w) w.
Proof. unfold same_but_history, with_history. cbn. auto. Qed.

Lemma check_appends data audio li w :
  exists entries,
    issue_history (self (snd (check_critical_issues data audio li w)))
    = issue_history (self w) ++ entries
    /\ critical_thresholds (self (snd (check_critical_issues data audio li w)))
       = critical_thresholds (self w)
    /\ history_readable entries
    /\ match fst (check_critical_issues data audio li w) with
       | Ok issues => Forall2 logged_as entries issues
       | Raise _ => entries = []
       end.
Proof.
  destruct (check_critical_issues data audio li w) as [[issues | x] w'] eqn:E;
    cbn [fst snd].
  - destruct (check_ok_inv _ _ _ _ _ _ E)
      as (s & sw & ex & br & w1 & w2 & w3 & w4 & H1 & H2 & H3 & H4 & _ & H5).
    destruct (rules_frame _ _ _ _ _ _ _ _ H1 H2 H3) as (k & _ & _ & _ & L3).
    assert (L4 : self w4 = self w).
    { destruct li as [t | ].
      - destruct (breakdown_frame (Some t) w3) as (k4 & _ & _ & _ & L4).
        rewrite H4 in L4. cbn [snd] in L4. congruence.
      - destruct H4 as [_ ->]. exact L3. }
    destruct (log_issues_run issues w4)
      as (entries & w'' & Hrun & _ & _ & Ht & Hh & Hf & Hr).
    rewrite H5 in Hrun. inversion Hrun. subst w''.
    exists entries. rewrite Hh, Ht, L4. auto.
  - exists []. destruct (check_raise_inv _ _ _ _ _ _ E) as (k & _ & _ & ->).
    rewrite app_nil_r. repeat split. constructor.
Qed.

Lemma check_keeps_history_readable data audio li w :
  history_readable (issue_history (self w)) ->
  history_readable
    (issue_history (self (snd (check_critical_issues data audio li w)))).
Proof.
  intros H. destruct (check_appends data audio li w) as (entries & -> & _ & Hr & _).
  now apply Forall_app.
Qed.

Lemma init_history_readable : history_readable (issue_history init).
Proof. constructor. Qed.

Lemma filter_subsequence {A} (p : A -> bool) l : subsequence (filter p l) l.
Proof.
  induction l as [ | a l IH]; cbn; [constructor | ].
  destruct (p a); now constructor.
Qed.

(** ** The report *)

Lemma append_assoc (a b c : string) :
  ((a ++ b) ++ c = a ++ (b ++ c))%string.
Proof. induction a as [ | x a IH]; cbn; [reflexivity | now rewrite IH]. Qed.

Lemma append_empty_r (a : string) : (a ++ "" = a)%string.
Proof. induction a as [ | x a IH]; cbn; [reflexivity | now rewrite IH]. Qed.

Lemma report_loop_blocks json_dumps i issues report :
  report_loop json_dumps i issues report
  = (report ++ blocks json_dumps i issues)%string.
Proof.
  revert i report. induction issues as [ | issue rest IH]; intros i report.
  - cbn. now rewrite append_empty_r.
  - cbn [report_loop blocks]. now rewrite IH, append_assoc.
Qed.

(** ** The look-back of the history query *)

Lemma representable_bounds t :
  representable t = true <-> 0 <= t <= 315537897599999999.
Proof.
  unfold representable. rewrite andb_true_iff, !Z.leb_le.
  change datetime_min with 0.
  replace datetime_max with 315537897599999999 by (vm_compute; reflexivity).
  reflexivity.
Qed.

Lemma timedelta_hours_ok hours :
  -87649416 <= hours <= 87649416 ->
  timedelta_hours hours = Ok (hours * 3600000000).
Proof.
  intros H. unfold timedelta_hours.
  assert (H1 : -999999999 <= hours / 24)
    by (apply Z.div_le_lower_bound; lia).
  assert (H2 : hours / 24 <= 999999999)
    by (apply Z.div_le_upper_bound; lia).
  apply Z.leb_le in H1, H2. now rewrite H1, H2.
Qed.

Lemma look_back_ok now hours :
  representable now = true ->
  representable (now - hours * 3600000000) = true ->
  timedelta_hours hours = Ok (hours * 3600000000)
  /\ datetime_sub now (hours * 3600000000)
     = Ok (now - hours * 3600000000).
Proof.
  intros Hn Hc. unfold datetime_sub. rewrite Hc. split; [ | reflexivity].
  apply timedelta_hours_ok.
  apply representable_bounds in Hn, Hc. lia.
Qed.

Lemma look_back_overflow now hours :
  representable (now - hours * 3600000000) = false ->
  match timedelta_hours hours with
  | Ok delta => datetime_sub now delta
  | Raise x => Raise x
  end = Raise OverflowError.
Proof.
  intros Hc. unfold timedelta_hours.
  destruct ((-999999999 <=? hours / 24) && (hours / 24 <=? 999999999));
    [ | reflexivity].
  unfold datetime_sub. now rewrite Hc.
Qed.

Lemma look_back_cases now hours :
  match timedelta_hours hours with
  | Ok delta => datetime_sub now delta
  | Raise x => Raise x
  end = Ok (now - hours * 3600000000)
  \/ match timedelta_hours hours with
     | Ok delta => datetime_sub now delta
     | Raise x => Raise x
     end = Raise OverflowError.
Proof.
  unfold timedelta_hours.
  destruct ((-999999999 <=? hours / 24) && (hours / 24 <=? 999999999));
    [ | now right].
  unfold datetime_sub.
  destruct (representable (now - hours * 3600000000)); [now left | now right].
Qed.

Lemma history_query_run hours w :
  history_readable (issue_history (self w)) ->
  get_issue_history hours w
  = (match match timedelta_hours hours with
           | Ok delta => datetime_sub (next_now w) delta
           | Raise x => Raise x
           end with
     | Ok _ =>
         Ok (filter (raised_within (next_now w) hours)
               (issue_history (self w)))
     | Raise x => Raise x
     end,
     {| clock := clock w; reads := S (reads w); self := self w |}).
Proof.
  intros Hr. unfold get_issue_history, bind, datetime_now, get_self, lift.
  cbn [self]. fold (next_now w).
  destruct (look_back_cases (next_now w) hours) as [E | E]; rewrite E.
  - destruct (timedelta_hours hours) as [delta | x]; [ | discriminate E].
    rewrite E.
    rewrite (comprehension_filter _ (raised_within (next_now w) hours));
      [reflexivity | ].
    eapply Forall_impl; [ | exact Hr].
    intros entry [t Ht]. unfold raised_within.
    rewrite Ht. cbn [fromisoformat]. f_equal.
    apply eq_true_iff_eq. rewrite !Z.leb_le. lia.
  - destruct (timedelta_hours hours) as [delta | x].
    + now rewrite E.
    + now inversion E.
Qed.

Lemma history_query_frame hours w :
  snd (get_issue_history hours w)
  = {| clock := clock w; reads := S (reads w); self := self w |}.
Proof.
  unfold get_issue_history, bind, datetime_now, get_self, lift.
  destruct (timedelta_hours hours) as [delta | x]; [ | reflexivity].
  destruct (datetime_sub _ delta) as [cutoff | x]; [ | reflexivity].
  cbn [self]. now destruct (comprehension _ _).
Qed.

(** * The claims *)

(** ** Unparsable timestamps *)

(** C1, as stated, fails: five sad observations followed by one whose
    timestamp is no timestamp.  Without the last one the call returns the
    sustained-negative issue; with it the call raises [ValueError] and
    returns nothing. *)
Lemma unreadable_timestamp_aborts_counterexample :
  (exists i,
      fst (check_critical_issues five_sad None None example_world) = Ok [i])
  /\ fst (check_critical_issues five_sad_one_garbled None None example_world)
     = Raise (ValueError "half past nine")
  /\ ~ (exists issues,
           fst (check_critical_issues five_sad_one_garbled None None
                  example_world) = Ok issues).
Proof.
  split; [ | split].
  - eexists. vm_compute. reflexivity.
  - vm_compute. reflexivity.
  - intros [issues H]. vm_compute in H. discriminate H.
Qed.

(** C1, amended. Every call of [check_critical_issues] whose observation
    sequence contains an observation with an unreadable timestamp raises
    [ValueError]: no issue is returned, and the detector, its history
    included, is left as it was. *)
Theorem unreadable_timestamp_raises data audio li w :
  Exists unreadable data ->
  exists s w',
    check_critical_issues data audio li w = (Raise (ValueError s), w')
    /\ self w' = self w.
Proof.
  intros Hu. destruct (check_unreadable data audio li w Hu) as (s & w' & H).
  exists s, w'. split; [exact H | ].
  destruct (check_raise_inv _ _ _ _ _ _ H) as (k & _ & _ & Hs). exact Hs.
Qed.

Lemma unreadable_timestamp_raises_witness :
  Exists unreadable five_sad_one_garbled
  /\ exists s w',
       check_critical_issues five_sad_one_garbled None None example_world
       = (Raise (ValueError s), w')
       /\ self w' = self example_world.
Proof.
  assert (Hu : Exists unreadable five_sad_one_garbled).
  { apply Exists_exists. exists garbled_reading. split.
    - unfold five_sad_one_garbled. apply in_or_app. right. now left.
    - now exists "half past nine"%string. }
  split; [exact Hu | ].
  exact (unreadable_timestamp_raises five_sad_one_garbled None None
           example_world Hu).
Defined.

(** ** Neutral observations *)

(** C2, as stated, fails: five neutral observations of confidence 1.0 and a
    last interaction 31 minutes in the past make the call return the
    communication-breakdown issue. *)
Lemma neutral_old_interaction_counterexample :
  Forall neutral_reading five_calm
  /\ (exists i,
         fst (check_critical_issues five_calm None (Some (t0 - 31 * minute))
                example_world) = Ok [i]
         /\ Issue.type i = "communication_breakdown"%string)
  /\ fst (check_critical_issues five_calm None (Some (t0 - 31 * minute))
            example_world) <> Ok [].
Proof.
  split; [ | split].
  - repeat constructor.
  - eexists. split; vm_compute; reflexivity.
  - vm_compute. discriminate.
Qed.

(** C2, amended. For every sequence of observations with readable
    timestamps, label neutral and confidence 1.0, [check_critical_issues]
    returns the empty list when [last_interaction] is absent or lies less
    than 30 minutes before the instants the clock shows during the call; when
    it lies 30 minutes or more before them, the call returns exactly one
    issue, of type communication_breakdown and severity high. *)
Theorem neutral_observations_check data audio li w :
  configured w -> Forall readable data -> Forall neutral_reading data ->
  (match li with
   | None => True
   | Some t =>
       forall k, (k <= 3)%nat -> clock w (reads w + k) - t < 30 * 60000000
   end ->
   fst (check_critical_issues data audio li w) = Ok [])
  /\ (forall t,
        li = Some t ->
        (forall k, (k <= 3)%nat ->
                   30 * 60000000 <= clock w (reads w + k) - t) ->
        exists i,
          fst (check_critical_issues data audio li w) = Ok [i]
          /\ Issue.type i = "communication_breakdown"%string
          /\ Issue.severity i = "high"%string).
Proof.
  intros Hc Hr Hn.
  destruct (check_shape data audio li w Hc Hr)
    as (issues & w' & front & br & k & Hrun & Hi & _ & Hq & Hk & Hb & Hkind).
  rewrite (Hq Hn) in Hi. rewrite Hrun. cbn [fst]. split.
  - intros Hli. destruct li as [t | ].
    + destruct br as [i | ]; [ | now subst issues].
      exfalso. assert (Hf : Some i <> None) by discriminate.
      apply Hb in Hf. specialize (Hli k Hk). lia.
    + now subst issues br.
  - intros t -> Hold. destruct br as [i | ].
    + exists i. subst issues. split; [reflexivity | now apply Hkind].
    + exfalso. apply Hb; [now apply Hold | reflexivity].
Qed.

Lemma neutral_observations_check_witness :
  configured example_world /\ Forall readable five_calm
  /\ Forall neutral_reading five_calm
  /\ fst (check_critical_issues five_calm None (Some (t0 - 29 * minute))
            example_world) = Ok [].
Proof.
  assert (Hc : configured example_world) by reflexivity.
  assert (Hr : Forall readable five_calm)
    by (repeat constructor; discriminate).
  assert (Hn : Forall neutral_reading five_calm) by (repeat constructor).
  split; [exact Hc | split; [exact Hr | split; [exact Hn | ]]].
  apply (neutral_observations_check five_calm None (Some (t0 - 29 * minute))
           example_world Hc Hr Hn).
  intros k Hk. cbn [example_world clock reads]. unfold minute. lia.
Defined.

(** ** The sustained-negative rule *)

(** C3, as stated, fails: three observations in the window, all of them sad
    with confidence 0.8, meet the stated condition, and the rule returns no
    issue, because it first asks for five observations in the sequence. *)
Lemma sustained_negative_three_counterexample :
  let recent := filter (within (next_now example_world) 15) three_sad in
  ((3 <= List.length recent)%nat
   /\ (7 * List.length recent <= 10 * List.length (filter negative recent))%nat)
  /\ fst (_check_sustained_negative_emotion three_sad example_world) = Ok None.
Proof. vm_compute. repeat split; lia. Qed.

(** C3, amended. On observations with readable timestamps, the
    sustained-negative rule returns an issue if and only if the sequence has
    at least 5 observations, at least 3 of them were taken at most 15
    minutes before the instant the rule reads from the clock, and among
    those in the window the ones with a label among sad, angry and fearful
    and a confidence of at least 0.7 are at least 0.7 times as many as the
    window holds.  The issue has type sustained_negative_emotion and
    severity high, and its details carry the negative percentage, a number
    between 0 and 100. *)
Theorem sustained_negative_fires_iff data w :
  configured w -> Forall readable data ->
  let recent := filter (within (next_now w) 15) data in
  let bad := filter negative recent in
  exists r,
    fst (_check_sustained_negative_emotion data w) = Ok r
    /\ (r <> None <->
        (5 <= List.length data /\ 3 <= List.length recent
         /\ 7 * List.length recent <= 10 * List.length bad)%nat)
    /\ (forall i, r = Some i ->
        Issue.type i = "sustained_negative_emotion"%string
        /\ Issue.severity i = "high"%string
        /\ exists q,
             dict_get "negative_percentage" (Issue.details i) = Some (VNum q)
             /\ (0 <= q)%Q /\ (q <= 100)%Q).
Proof.
  intros Hc Hr recent bad.
  destruct (sustained_fires data w Hc Hr) as (r & Hrun & Hiff & Hd).
  fold recent in Hiff, Hd. fold bad in Hiff, Hd.
  exists r. split; [exact Hrun | split; [exact Hiff | ]].
  intros i Hi.
  destruct (fires_kind _ w r _ _ Hrun (sustained_kind data w) i Hi) as [Ht Hs].
  split; [exact Ht | split; [exact Hs | ]].
  eexists. split; [apply Hd, Hi | ].
  assert (Hfire : r <> None) by (rewrite Hi; discriminate).
  apply Hiff in Hfire. destruct Hfire as (_ & Hw & _).
  assert (Hb : (List.length bad <= List.length recent)%nat)
    by apply filter_length_le.
  apply percentage_bounds; unfold len; lia.
Qed.

Lemma sustained_negative_fires_iff_witness :
  configured example_world /\ Forall readable five_sad
  /\ exists i,
       fst (_check_sustained_negative_emotion five_sad example_world)
       = Ok (Some i)
       /\ Issue.type i = "sustained_negative_emotion"%string
       /\ Issue.severity i = "high"%string
       /\ exists q,
            dict_get "negative_percentage" (Issue.details i) = Some (VNum q)
            /\ (0 <= q)%Q /\ (q <= 100)%Q.
Proof.
  assert (Hc : configured example_world) by reflexivity.
  assert (Hr : Forall readable five_sad)
    by (repeat constructor; discriminate).
  split; [exact Hc | split; [exact Hr | ]].
  destruct (sustained_negative_fires_iff five_sad example_world Hc Hr)
    as (r & Hrun & Hiff & Hd).
  destruct r as [i | ].
  - exists i. split; [exact Hrun | ]. now apply Hd.
  - exfalso. apply Hiff; [vm_compute; repeat split; lia | reflexivity].
Defined.

(** ** The extreme-emotion rule *)

(** C4. On observations with readable timestamps, the extreme-emotion rule
    returns an issue if and only if at least two observations taken at most
    5 minutes before the instant the rule reads from the clock have a label
    among angry and fearful and a confidence of at least 0.9; the issue has
    type extreme_emotion and severity high.  In particular two observations
    in the window, labelled angry with confidence 0.95, make the rule return
    its issue, and with confidence 0.85 it returns none. *)
Theorem extreme_emotion_fires_iff data w :
  configured w -> Forall readable data ->
  (exists r,
      fst (_check_extreme_emotion data w) = Ok r
      /\ (r <> None <->
          (2 <= List.length
                  (filter (fun e => within (next_now w) 5 e && extreme e)
                          data))%nat)
      /\ (forall i, r = Some i ->
          Issue.type i = "extreme_emotion"%string
          /\ Issue.severity i = "high"%string))
  /\ (forall t1 t2,
        next_now w - t1 <= 5 * 60000000 ->
        next_now w - t2 <= 5 * 60000000 ->
        (exists i,
            fst (_check_extreme_emotion
                   [observation t1 "angry" 0.95%float;
                    observation t2 "angry" 0.95%float] w) = Ok (Some i)
            /\ Issue.type i = "extreme_emotion"%string
            /\ Issue.severity i = "high"%string)
        /\ fst (_check_extreme_emotion
                  [observation t1 "angry" 0.85%float;
                   observation t2 "angry" 0.85%float] w) = Ok None).
Proof.
  intros Hc Hr. split.
  - destruct (extreme_fires data w Hc Hr) as (r & Hrun & Hiff).
    exists r. rewrite filter_filter in Hiff. repeat split; try tauto.
    + eapply fires_kind; [exact Hrun | apply extreme_kind | eassumption].
    + eapply fires_kind; [exact Hrun | apply extreme_kind | eassumption].
  - intros t1 t2 H1 H2.
    apply Z.leb_le in H1, H2.
    assert (Hok : forall c, Forall readable
                    [observation t1 "angry" c; observation t2 "angry" c]).
    { intros c. repeat constructor; discriminate. }
    split.
    + destruct (extreme_fires _ w Hc (Hok 0.95%float)) as (r & Hrun & Hiff).
      cbn [filter] in Hiff.
      rewrite !within_observation, H1, H2 in Hiff. cbn [filter] in Hiff.
      rewrite !extreme_observation in Hiff.
      destruct r as [i | ].
      * exists i. split; [exact Hrun | ].
        eapply fires_kind; [exact Hrun | apply extreme_kind | reflexivity].
      * exfalso. apply Hiff; [cbn; lia | reflexivity].
    + destruct (extreme_fires _ w Hc (Hok 0.85%float)) as (r & Hrun & Hiff).
      cbn [filter] in Hiff.
      rewrite !within_observation, H1, H2 in Hiff. cbn [filter] in Hiff.
      rewrite !extreme_observation in Hiff.
      destruct r as [i | ]; [ | exact Hrun].
      exfalso. assert (Some i <> None) as Hi by discriminate.
      apply Hiff in Hi. cbn in Hi. lia.
Qed.

Lemma extreme_emotion_fires_iff_witness :
  configured example_world /\ Forall readable two_angry
  /\ exists r,
       fst (_check_extreme_emotion two_angry example_world) = Ok r
       /\ (r <> None <->
           (2 <= List.length
                   (filter (fun e => within (next_now example_world) 5 e
                                     && extreme e) two_angry))%nat)
       /\ (forall i, r = Some i ->
           Issue.type i = "extreme_emotion"%string
           /\ Issue.severity i = "high"%string).
Proof.
  assert (Hc : configured example_world) by reflexivity.
  assert (Hr : Forall readable two_angry)
    by (repeat constructor; discriminate).
  split; [exact Hc | split; [exact Hr | ]].
  exact (proj1 (extreme_emotion_fires_iff two_angry example_world Hc Hr)).
Defined.

(** ** The rapid-swings rule *)

(** C5, as stated, fails: of seventeen observations in the window that
    alternate between no label and sad, every adjacent pair has distinct
    labels, sixteen pairs in all, and the rule returns no issue.  Its loop
    compares a label with the one before only when the one before is
    present and not empty, and so counts the eight pairs that start with
    sad. *)
Lemma rapid_swings_unlabelled_counterexample :
  Forall readable half_unlabelled
  /\ (3 <= List.length
             (filter (within (next_now example_world) 5) half_unlabelled))%nat
  /\ (3 * 5 <= adjacent_changes
                 (map Emotion.dominant_emotion
                    (filter (within (next_now example_world) 5)
                       half_unlabelled)))%nat
  /\ count_changes None 0 half_unlabelled = 8
  /\ fst (_check_rapid_emotion_swings half_unlabelled example_world) = Ok None.
Proof.
  split; [repeat constructor; discriminate | ].
  vm_compute. repeat split; lia.
Qed.

(** C5, amended. On observations with readable timestamps, the rapid-swings
    rule returns an issue if and only if at least 3 observations were taken
    at most 5 minutes before the instant the rule reads from the clock and,
    walking those in order, at least 3 * 5 = 15 adjacent pairs have a first
    label that is present and not empty and a second label that differs
    from it; the issue has type rapid_emotion_swings and severity medium.
    When every observation in the window has a present, non-empty label,
    these pairs are the adjacent pairs of distinct labels. *)
Theorem rapid_swings_fires_iff data w :
  configured w -> Forall readable data ->
  let recent := filter (within (next_now w) 5) data in
  let labels := map Emotion.dominant_emotion recent in
  exists r,
    fst (_check_rapid_emotion_swings data w) = Ok r
    /\ (r <> None <->
        (3 <= List.length recent /\ 3 * 5 <= changes_after_label labels)%nat)
    /\ (Forall labelled recent ->
        changes_after_label labels = adjacent_changes labels)
    /\ (forall i, r = Some i ->
        Issue.type i = "rapid_emotion_swings"%string
        /\ Issue.severity i = "medium"%string).
Proof.
  intros Hc Hr recent labels.
  destruct (swings_fires data w Hc Hr) as (r & Hrun & Hiff).
  fold recent in Hiff.
  rewrite (count_changes_start recent) in Hiff. fold labels in Hiff.
  exists r. split; [exact Hrun | split; [ | split]].
  - rewrite Hiff.
    pose proof (changes_after_label_bound labels) as Hb.
    unfold labels in Hb at 2. rewrite length_map in Hb.
    pose proof (filter_length_le (within (next_now w) 5) data) as Hf.
    fold recent in Hf. lia.
  - intros Hl. apply changes_after_label_adjacent.
    unfold labels. apply Forall_map. exact Hl.
  - apply (fires_kind _ w r _ _ Hrun (swings_kind data w)).
Qed.

Lemma rapid_swings_fires_iff_witness :
  configured example_world /\ Forall readable sixteen_swings
  /\ exists i,
       fst (_check_rapid_emotion_swings sixteen_swings example_world)
       = Ok (Some i)
       /\ Issue.type i = "rapid_emotion_swings"%string
       /\ Issue.severity i = "medium"%string.
Proof.
  assert (Hc : configured example_world) by reflexivity.
  assert (Hr : Forall readable sixteen_swings)
    by (repeat constructor; discriminate).
  split; [exact Hc | split; [exact Hr | ]].
  destruct (rapid_swings_fires_iff sixteen_swings example_world Hc Hr)
    as (r & Hrun & Hiff & _ & Hk).
  destruct r as [i | ].
  - exists i. split; [exact Hrun | ]. now apply Hk.
  - exfalso. apply Hiff; [vm_compute; split; lia | reflexivity].
Defined.

(** ** The communication-breakdown rule *)

(** C6. When [last_interaction] is absent, [check_critical_issues] returns
    no communication_breakdown issue.  When it is provided, the returned
    list holds a communication_breakdown issue if and only if at least 30
    minutes lie between it and the instant the communication rule reads
    from the clock, which the call reads after at most three earlier
    readings; every such issue has severity high.  The rule itself returns
    nothing without [last_interaction], fires if and only if the elapsed
    time is at least 30 minutes, and fires at exactly 30 minutes. *)
Theorem communication_breakdown_iff data audio li w :
  configured w -> Forall readable data ->
  (exists issues k,
      fst (check_critical_issues data audio li w) = Ok issues
      /\ (k <= 3)%nat
      /\ match li with
         | None => ~ raised "communication_breakdown" issues
         | Some t =>
             raised "communication_breakdown" issues
             <-> 30 * 60000000 <= clock w (reads w + k) - t
         end
      /\ (forall i, In i issues ->
          Issue.type i = "communication_breakdown"%string ->
          Issue.severity i = "high"%string))
  /\ fst (_check_communication_breakdown None w) = Ok None
  /\ (forall t,
        exists r,
          fst (_check_communication_breakdown (Some t) w) = Ok r
          /\ (r <> None <-> 30 * 60000000 <= next_now w - t)
          /\ (next_now w - t = 30 * 60000000 -> r <> None)
          /\ (forall i, r = Some i ->
              Issue.type i = "communication_breakdown"%string
              /\ Issue.severity i = "high"%string)).
Proof.
  intros Hc Hr. split; [ | split].
  - destruct (check_shape data audio li w Hc Hr)
      as (issues & w' & front & br & k & Hrun & Hi & Hfront & _ & Hk & Hb
          & Hkind).
    exists issues, k. rewrite Hrun. cbn [fst].
    assert (Hraised : raised "communication_breakdown" issues <-> br <> None).
    { unfold raised. split.
      - intros (i & Hin & Ht). subst issues.
        apply in_append_found in Hin as [Hin | ->]; [ | discriminate].
        now destruct (Hfront i Hin).
      - destruct br as [i | ]; [intros _ | easy].
        exists i. subst issues. split; [ | now apply Hkind].
        apply in_append_found. now right. }
    split; [reflexivity | split; [exact Hk | split]].
    + destruct li as [t | ].
      * now rewrite Hraised.
      * rewrite Hraised. subst br. auto.
    + intros i Hin Ht. subst issues.
      apply in_append_found in Hin as [Hin | ->].
      * now destruct (Hfront i Hin).
      * now apply Hkind.
  - reflexivity.
  - intros t. destruct (breakdown_fires t w Hc) as (r & Hrun & Hiff).
    exists r. split; [exact Hrun | split; [exact Hiff | split]].
    + intros Heq. apply Hiff. lia.
    + apply (fires_kind _ w r _ _ Hrun (breakdown_kind (Some t) w)).
Qed.

Lemma communication_breakdown_iff_witness :
  configured example_world /\ Forall readable five_calm
  /\ exists r,
       fst (_check_communication_breakdown (Some (t0 - 30 * minute))
              example_world) = Ok r
       /\ r <> None.
Proof.
  assert (Hc : configured example_world) by reflexivity.
  assert (Hr : Forall readable five_calm)
    by (repeat constructor; discriminate).
  split; [exact Hc | split; [exact Hr | ]].
  destruct (communication_breakdown_iff five_calm None None example_world
              Hc Hr) as (_ & _ & Hrule).
  destruct (Hrule (t0 - 30 * minute)) as (r & Hrun & _ & Hedge & _).
  exists r. split; [exact Hrun | ]. apply Hedge. reflexivity.
Defined.

(** ** The history is append-only *)

(** C7. The history only grows at its end.  A call of
    [check_critical_issues] leaves the history it found as a prefix and
    appends one entry per issue it returns, in the order of the returned
    list, each with the type, severity and details of its issue; a call that
    raises appends nothing.  What the call returns does not depend on the
    history it finds, so an issue is raised and logged again however often
    it was logged before.  [get_issue_history] and [generate_report] leave
    the detector as it was. *)
Theorem issue_history_append_only data audio li w :
  (exists entries,
      issue_history (self (snd (check_critical_issues data audio li w)))
      = issue_history (self w) ++ entries
      /\ match fst (check_critical_issues data audio li w) with
         | Ok issues => Forall2 logged_as entries issues
         | Raise _ => entries = []
         end)
  /\ (forall h,
        fst (check_critical_issues data audio li (with_history h w))
        = fst (check_critical_issues data audio li w))
  /\ (forall hours, self (snd (get_issue_history hours w)) = self w)
  /\ (forall strftime json_dumps issues,
        self (snd (generate_report strftime json_dumps issues w)) = self w).
Proof.
  split; [ | split; [ | split]].
  - destruct (check_appends data audio li w) as (entries & Hh & _ & _ & Hf).
    now exists entries.
  - intros h. apply blind_check, same_but_history_with.
  - intros hours. now rewrite history_query_frame.
  - intros strftime json_dumps issues. unfold generate_report.
    now destruct issues.
Qed.

(** ** The history query *)

(** C8, as stated, fails: a look-back of 20000000 hours, some 2281 years,
    reaches further than the first instant a datetime can hold, and the
    query raises [OverflowError] where the claim has it return entries. *)
Lemma issue_history_query_overflow_counterexample :
  history_readable (issue_history (self logged_world))
  /\ representable (next_now logged_world) = true
  /\ fst (get_issue_history 20000000 logged_world) = Raise OverflowError.
Proof.
  split; [ | split; vm_compute; reflexivity].
  repeat constructor. eexists. reflexivity.
Qed.

(** C8, amended. On a history whose entries carry readable timestamps, as
    every history built by [check_critical_issues] does, and for a look-back
    of [hours] hours that leads from the instant the query reads from the
    clock to an instant a datetime can hold, [get_issue_history] returns
    exactly the entries raised at most [hours] hours before the instant it
    reads, in the order they have in the history; for any other look-back
    it raises [OverflowError].  In both cases it leaves the detector as it
    was. *)
Theorem issue_history_query hours w :
  history_readable (issue_history (self w)) ->
  representable (next_now w) = true ->
  (representable (next_now w - hours * 3600000000) = true ->
   exists result w',
     get_issue_history hours w = (Ok result, w')
     /\ result
        = filter (raised_within (next_now w) hours) (issue_history (self w))
     /\ subsequence result (issue_history (self w))
     /\ (forall entry,
           In entry result
           <-> In entry (issue_history (self w))
               /\ raised_within (next_now w) hours entry = true)
     /\ self w' = self w)
  /\ (representable (next_now w - hours * 3600000000) = false ->
      exists w',
        get_issue_history hours w = (Raise OverflowError, w')
        /\ self w' = self w).
Proof.
  intros Hr Hn. rewrite (history_query_run hours w Hr). split; intros Hc.
  - destruct (look_back_ok _ _ Hn Hc) as [-> ->].
    eexists _, _. split; [reflexivity | ].
    split; [reflexivity | split; [apply filter_subsequence | split]].
    + intros entry. apply filter_In.
    + reflexivity.
  - rewrite (look_back_overflow _ _ Hc).
    eexists. split; reflexivity.
Qed.

Lemma issue_history_query_witness :
  history_readable (issue_history (self logged_world))
  /\ representable (next_now logged_world) = true
  /\ exists result w',
       get_issue_history 24 logged_world = (Ok result, w')
       /\ result = issue_history (self logged_world)
       /\ List.length result = 1%nat.
Proof.
  assert (Hr : history_readable (issue_history (self logged_world))).
  { repeat constructor. eexists. reflexivity. }
  assert (Hn : representable (next_now logged_world) = true)
    by (vm_compute; reflexivity).
  split; [exact Hr | split; [exact Hn | ]].
  assert (Hc : representable (next_now logged_world - 24 * 3600000000) = true)
    by (vm_compute; reflexivity).
  destruct (proj1 (issue_history_query 24 logged_world Hr Hn) Hc)
    as (result & w' & Hrun & Hres & _).
  exists result, w'. split; [exact Hrun | ].
  rewrite Hres. split; vm_compute; reflexivity.
Defined.

(** ** The report *)

(** C9. Two calls of [generate_report] with the same issues, at whatever
    times and in whatever state of the detector, return the same text but
    for the leading line, the only part that carries the current time: for
    an empty list both return the fixed sentence, otherwise each returns
    its leading line followed by the same body, and the body, built from the
    number, title-cased type, upper-cased severity, serialised details and
    recommendation of each issue, is a function of the issues alone. *)
Theorem report_twice strftime json_dumps issues w1 w2 :
  match issues with
  | [] =>
      fst (generate_report strftime json_dumps issues w1)
      = Ok "No critical issues detected. All systems normal."%string
      /\ fst (generate_report strftime json_dumps issues w2)
         = fst (generate_report strftime json_dumps issues w1)
  | _ :: _ =>
      fst (generate_report strftime json_dumps issues w1)
      = Ok (leading_line strftime (next_now w1)
            ++ report_body json_dumps issues)%string
      /\ fst (generate_report strftime json_dumps issues w2)
         = Ok (leading_line strftime (next_now w2)
               ++ report_body json_dumps issues)%string
  end.
Proof.
  assert (H : forall w issue rest,
             fst (generate_report strftime json_dumps (issue :: rest) w)
             = Ok (leading_line strftime (next_now w)
                   ++ report_body json_dumps (issue :: rest))%string).
  { intros w issue rest.
    unfold generate_report, bind, datetime_now, ret. cbn [fst].
    rewrite report_loop_blocks. unfold leading_line, report_body, next_now.
    now rewrite !append_assoc. }
  destruct issues as [ | issue rest]; [now split | ].
  split; apply H.
Qed.

(** ** The audio data *)

(** C10. Two calls of [check_critical_issues] that differ only in
    [audio_data] return the same issues and leave the same world, the
    history included. *)
Theorem audio_data_ignored data audio1 audio2 li w :
  check_critical_issues data audio1 li w
  = check_critical_issues data audio2 li w.
Proof. reflexivity. Qed.

(** * The examples of the specification *)

(** Five sad observations of confidence 0.8 in the window: exactly one
    issue, sustained_negative_emotion, high, with negative percentage 100. *)
Example five_sad_checked :
  exists i q,
    fst (check_critical_issues five_sad None None example_world) = Ok [i]
    /\ Issue.type i = "sustained_negative_emotion"%string
    /\ Issue.severity i = "high"%string
    /\ dict_get "negative_percentage" (Issue.details i) = Some (VNum q)
    /\ (q == 100)%Q.
Proof. eexists _, _. repeat split; vm_compute; reflexivity. Qed.

(** Four observations alternating between happy and sad: three changes, no
    issue. *)
Example four_swings_checked :
  fst (check_critical_issues
         [observation t0 "happy" 0.6%float; observation t0 "sad" 0.6%float;
          observation t0 "happy" 0.6%float; observation t0 "sad" 0.6%float]
         None None example_world) = Ok [].
Proof. vm_compute. reflexivity. Qed.

(** Two angry observations of confidence 0.95: exactly one issue,
    extreme_emotion; of confidence 0.85: none. *)
Example two_angry_checked :
  (exists i,
      fst (check_critical_issues two_angry None None example_world) = Ok [i]
      /\ Issue.type i = "extreme_emotion"%string
      /\ Issue.severity i = "high"%string)
  /\ fst (check_critical_issues
            [observation t0 "angry" 0.85%float;
             observation t0 "angry" 0.85%float]
            None None example_world) = Ok [].
Proof. split; [eexists; repeat split | ]; vm_compute; reflexivity. Qed.

(** A last interaction 31 minutes before the rule reads the clock, and one
    exactly 30 minutes before, raise communication_breakdown; one 29 minutes
    before does not. *)
Example last_interaction_checked :
  (exists i,
      fst (check_critical_issues [] None (Some (t0 - 31 * minute))
             example_world) = Ok [i]
      /\ Issue.type i = "communication_breakdown"%string)
  /\ (exists i,
         fst (check_critical_issues [] None (Some (t0 - 30 * minute))
                example_world) = Ok [i]
         /\ Issue.type i = "communication_breakdown"%string)
  /\ fst (check_critical_issues [] None (Some (t0 - 29 * minute))
            example_world) = Ok [].
Proof.
  split; [ | split]; [eexists; split | eexists; split | ];
    vm_compute; reflexivity.
Qed.

(** The report of no issues is the fixed sentence. *)
Example empty_report strftime json_dumps :
  fst (generate_report strftime json_dumps [] example_world)
  = Ok "No critical issues detected. All systems normal."%string.
Proof. reflexivity. Qed.

(** * Further properties of the detector *)

(** ** The order of the returned issues *)

Lemma found_kinds s sw ex br :
  (forall i, s = Some i ->
             Issue.type i = "sustained_negative_emotion"%string) ->
  (forall i, sw = Some i -> Issue.type i = "rapid_emotion_swings"%string) ->
  (forall i, ex = Some i -> Issue.type i = "extreme_emotion"%string) ->
  (forall i, br = Some i ->
             Issue.type i = "communication_breakdown"%string) ->
  subsequence
    (map Issue.type
       (append_found (append_found (append_found (append_found [] s) sw) ex)
          br))
    issue_kinds.
Proof.
  intros Hs Hsw Hex Hbr.
  destruct s as [i1 | ], sw as [i2 | ], ex as [i3 | ], br as [i4 | ];
    cbn [append_found app map];
    rewrite ?(Hs _ eq_refl), ?(Hsw _ eq_refl), ?(Hex _ eq_refl),
      ?(Hbr _ eq_refl);
    unfold issue_kinds; repeat constructor.
Qed.

(** X1. Whatever it is given, a call of [check_critical_issues] that returns
    lists its issues in the order sustained_negative_emotion,
    rapid_emotion_swings, extreme_emotion, communication_breakdown, with at
    most one issue of each type, hence at most four. *)
Theorem check_issue_order data audio li w issues w' :
  check_critical_issues data audio li w = (Ok issues, w') ->
  subsequence (map Issue.type issues) issue_kinds
  /\ (List.length issues <= 4)%nat.
Proof.
  intros H.
  destruct (check_ok_inv _ _ _ _ _ _ H)
    as (s & sw & ex & br & w1 & w2 & w3 & w4 & H1 & H2 & H3 & H4 & Hi & _).
  assert (Hsub : subsequence (map Issue.type issues) issue_kinds).
  { subst issues. apply found_kinds.
    - intros i ->. now apply sustained_kind in H1.
    - intros i ->. now apply swings_kind in H2.
    - intros i ->. now apply extreme_kind in H3.
    - intros i ->. destruct li as [t | ]; [ | now destruct H4].
      now apply breakdown_kind in H4. }
  split; [exact Hsub | ].
  subst issues.
  destruct s, sw, ex, br; cbn; lia.
Qed.

Lemma check_issue_order_witness :
  exists issues w',
    check_critical_issues five_sad None (Some (t0 - 31 * minute))
      example_world = (Ok issues, w')
    /\ subsequence (map Issue.type issues) issue_kinds
    /\ List.length issues = 2%nat.
Proof.
  destruct (check_critical_issues five_sad None (Some (t0 - 31 * minute))
              example_world) as [o w'] eqn:E.
  assert (Ho : exists issues, o = Ok issues /\ List.length issues = 2%nat).
  { apply (f_equal fst) in E. cbn [fst] in E. rewrite <- E.
    vm_compute. eexists. split; reflexivity. }
  destruct Ho as (issues & -> & Hlen).
  exists issues, w'. split; [reflexivity | ].
  split; [ | exact Hlen].
  exact (proj1 (check_issue_order _ _ _ _ _ _ E)).
Defined.

(** ** Short and empty sequences *)

Lemma sustained_short data w :
  (List.length data < 5)%nat ->
  _check_sustained_negative_emotion data w = (Ok None, w).
Proof.
  intros H. unfold _check_sustained_negative_emotion, len.
  destruct (Z.ltb_spec (Z.of_nat (List.length data)) 5); [reflexivity | lia].
Qed.

Lemma swings_short data w :
  (List.length data < 5)%nat ->
  _check_rapid_emotion_swings data w = (Ok None, w).
Proof.
  intros H. unfold _check_rapid_emotion_swings, len.
  destruct (Z.ltb_spec (Z.of_nat (List.length data)) 5); [reflexivity | lia].
Qed.

(** X2. Of a sequence of fewer than five observations, however negative or
    changing, a call of [check_critical_issues] that returns reports at most
    an extreme_emotion issue and a communication_breakdown issue: the
    sustained-negative and the rapid-swings rule give up before they look at
    the observations. *)
Theorem check_short_sequence data audio li w issues w' :
  (List.length data < 5)%nat ->
  check_critical_issues data audio li w = (Ok issues, w') ->
  subsequence (map Issue.type issues)
    ["extreme_emotion"; "communication_breakdown"]%string.
Proof.
  intros Hshort H.
  destruct (check_ok_inv _ _ _ _ _ _ H)
    as (s & sw & ex & br & w1 & w2 & w3 & w4 & H1 & H2 & H3 & H4 & Hi & _).
  rewrite (sustained_short data w Hshort) in H1. inversion H1. subst s w1.
  rewrite (swings_short data w Hshort) in H2. inversion H2. subst sw w2.
  assert (Hex : forall i, ex = Some i ->
                          Issue.type i = "extreme_emotion"%string).
  { intros i ->. now apply extreme_kind in H3. }
  assert (Hbr : forall i, br = Some i ->
                          Issue.type i = "communication_breakdown"%string).
  { intros i ->. destruct li as [t | ]; [ | now destruct H4].
    now apply breakdown_kind in H4. }
  subst issues.
  destruct ex as [i3 | ], br as [i4 | ]; cbn [append_found app map];
    rewrite ?(Hex _ eq_refl), ?(Hbr _ eq_refl); repeat constructor.
Qed.

Lemma check_short_sequence_witness :
  (List.length three_sad < 5)%nat
  /\ exists w',
       check_critical_issues three_sad None None example_world = (Ok [], w').
Proof.
  assert (Hshort : (List.length three_sad < 5)%nat) by (cbn; lia).
  split; [exact Hshort | ].
  destruct (check_critical_issues three_sad None None example_world)
    as [[issues | x] w'] eqn:E.
  - pose proof (check_short_sequence _ _ _ _ _ _ Hshort E) as Hsub.
    exists w'. apply (f_equal fst) in E. cbn [fst] in E.
    vm_compute in E. inversion E. reflexivity.
  - apply (f_equal fst) in E. vm_compute in E. discriminate E.
Defined.

(** X3. On the empty sequence [check_critical_issues] never raises,
    whatever the thresholds.  Without [last_interaction] it returns the
    empty list and leaves the world as it was: no clock reading, no entry in
    the history.  With [last_interaction] it returns at most one issue, of
    type communication_breakdown. *)
Theorem check_empty_sequence audio li w :
  check_critical_issues [] audio None w = (Ok [], w)
  /\ exists issues w',
       check_critical_issues [] audio li w = (Ok issues, w')
       /\ (List.length issues <= 1)%nat
       /\ (forall i, In i issues ->
           Issue.type i = "communication_breakdown"%string).
Proof.
  split; [reflexivity | ].
  destruct li as [t | ]; [ | exists [], w; cbn; repeat split; [lia | tauto]].
  unfold check_critical_issues.
  rewrite (bind_run _ _ _ None w) by reflexivity.
  rewrite (bind_run _ _ _ None w) by reflexivity.
  rewrite (bind_run _ _ _ None w) by reflexivity.
  cbn [append_found].
  destruct (_check_communication_breakdown (Some t) w) as [[br | x] w4] eqn:E.
  - unfold bind at 1. unfold bind at 1. rewrite E. unfold ret at 1.
    destruct (log_issues_run (append_found [] br) w4)
      as (entries & w' & Hl & _).
    unfold bind, ret. rewrite Hl.
    exists (append_found [] br), w'. split; [reflexivity | ].
    destruct br as [i | ]; cbn; split; try lia; try tauto.
    intros j [<- | []]. now apply breakdown_kind in E.
  - exfalso. revert E. unfold _check_communication_breakdown.
    run_method; discriminate.
Qed.

(** ** Missing keys *)

Lemma filter_all {A} (p : A -> bool) l :
  Forall (fun e => p e = true) l -> filter p l = l.
Proof.
  induction 1 as [ | e l He _ IH]; cbn; [reflexivity | ].
  now rewrite He, IH.
Qed.

Lemma untimed_readable data : Forall untimed data -> Forall readable data.
Proof.
  apply Forall_impl. unfold untimed, readable. intros e -> s. discriminate.
Qed.

Lemma untimed_window now m data :
  0 <= m -> Forall untimed data -> filter (within now m) data = data.
Proof.
  intros Hm Hu. apply filter_all. eapply Forall_impl; [ | exact Hu].
  unfold untimed, within, instant. intros e ->. apply Z.leb_le. lia.
Qed.

(** X4. Observations without a timestamp never leave the window: they count
    as taken at the instant the rule reads the clock.  On a sequence of such
    observations the sustained-negative rule fires if and only if there are
    at least 5 observations of which at least 0.7 times as many are
    negative, and the extreme-emotion rule if and only if at least 2 are
    extreme, at whatever time the call is made. *)
Theorem untimed_observations_never_age data w :
  configured w -> Forall untimed data ->
  (exists r,
      fst (_check_sustained_negative_emotion data w) = Ok r
      /\ (r <> None <->
          (5 <= List.length data
           /\ 7 * List.length data <= 10 * List.length (filter negative data))%nat))
  /\ (exists r,
         fst (_check_extreme_emotion data w) = Ok r
         /\ (r <> None <-> (2 <= List.length (filter extreme data))%nat)).
Proof.
  intros Hc Hu. pose proof (untimed_readable data Hu) as Hr. split.
  - destruct (sustained_fires data w Hc Hr) as (r & Hrun & Hiff & _).
    rewrite (untimed_window _ 15 data) in Hiff by (auto; lia).
    exists r. split; [exact Hrun | ]. rewrite Hiff. lia.
  - destruct (extreme_fires data w Hc Hr) as (r & Hrun & Hiff).
    rewrite (untimed_window _ 5 data) in Hiff by (auto; lia).
    now exists r.
Qed.

Lemma untimed_observations_never_age_witness :
  configured example_world
  /\ Forall untimed
       [untimed_sad; untimed_sad; untimed_sad; untimed_sad; untimed_sad]
  /\ exists r,
       fst (_check_sustained_negative_emotion
              [untimed_sad; untimed_sad; untimed_sad; untimed_sad;
               untimed_sad] example_world) = Ok r
       /\ r <> None.
Proof.
  assert (Hc : configured example_world) by reflexivity.
  assert (Hu : Forall untimed
                 [untimed_sad; untimed_sad; untimed_sad; untimed_sad;
                  untimed_sad]) by (repeat constructor).
  split; [exact Hc | split; [exact Hu | ]].
  destruct (untimed_observations_never_age _ example_world Hc Hu)
    as [(r & Hrun & Hiff) _].
  exists r. split; [exact Hrun | ]. apply Hiff. vm_compute. split; lia.
Defined.

Lemma incomplete_is_quiet e :
  incomplete e -> negative e = false /\ extreme e = false.
Proof.
  unfold incomplete, negative, extreme, confidence_reaches, member.
  intros [-> | ->].
  - split; apply andb_false_r.
  - split; reflexivity.
Qed.

(** X5. A missing confidence counts as 0 and a missing label matches no
    emotion, so observations that lack either are neither negative nor
    extreme: on a sequence of such observations, with readable timestamps,
    neither the sustained-negative nor the extreme-emotion rule fires. *)
Theorem incomplete_observations_never_fire data w :
  configured w -> Forall readable data -> Forall incomplete data ->
  fst (_check_sustained_negative_emotion data w) = Ok None
  /\ fst (_check_extreme_emotion data w) = Ok None.
Proof.
  intros Hc Hr Hi.
  assert (Hq : forall m,
             Forall incomplete (filter (within (next_now w) m) data))
    by (intros m; now apply Forall_filter).
  split.
  - destruct (sustained_fires data w Hc Hr) as (r & -> & Hiff & _).
    destruct r as [i | ]; [exfalso | reflexivity].
    assert (Hf : Some i <> None) by discriminate.
    apply Hiff in Hf. destruct Hf as (_ & Hw & Hb).
    rewrite (filter_none negative) in Hb; [cbn [List.length] in Hb; lia | ].
    eapply Forall_impl; [ | apply (Hq 15)].
    intros e He. now apply incomplete_is_quiet.
  - destruct (extreme_fires data w Hc Hr) as (r & -> & Hiff).
    destruct r as [i | ]; [exfalso | reflexivity].
    assert (Hf : Some i <> None) by discriminate.
    apply Hiff in Hf.
    rewrite (filter_none extreme) in Hf; [cbn [List.length] in Hf; lia | ].
    eapply Forall_impl; [ | apply (Hq 5)].
    intros e He. now apply incomplete_is_quiet.
Qed.

Lemma incomplete_observations_never_fire_witness :
  configured example_world
  /\ Forall readable
       [bare_reading; bare_reading; bare_reading; bare_reading; bare_reading]
  /\ Forall incomplete
       [bare_reading; bare_reading; bare_reading; bare_reading; bare_reading]
  /\ fst (_check_extreme_emotion
            [bare_reading; bare_reading; bare_reading; bare_reading;
             bare_reading] example_world) = Ok None.
Proof.
  assert (Hc : configured example_world) by reflexivity.
  assert (Hr : Forall readable
                 [bare_reading; bare_reading; bare_reading; bare_reading;
                  bare_reading]) by (repeat constructor; discriminate).
  assert (Hi : Forall incomplete
                 [bare_reading; bare_reading; bare_reading; bare_reading;
                  bare_reading]) by (repeat constructor; now left).
  split; [exact Hc | split; [exact Hr | split; [exact Hi | ]]].
  exact (proj2 (incomplete_observations_never_fire _ example_world Hc Hr Hi)).
Defined.

(** ** What the extreme-emotion issue reports *)

Lemma last_item_app {A} (l : list A) e :
  last_item l = Ok e -> exists front, l = front ++ [e].
Proof.
  induction l as [ | a l IH]; [discriminate | ].
  destruct l as [ | b l].
  - cbn. intros H. inversion H. now exists [].
  - intros H. destruct (IH H) as [front ->]. now exists (a :: front).
Qed.

(** X6. When the extreme-emotion rule fires, the occurrences it reports are
    the number of extreme observations in the window, at least 2, and the
    emotion and confidence it reports are those of the last observation in
    the window, whether that observation is extreme or not. *)
Theorem extreme_emotion_details data w i :
  configured w -> Forall readable data ->
  fst (_check_extreme_emotion data w) = Ok (Some i) ->
  exists front newest,
    filter (within (next_now w) 5) data = front ++ [newest]
    /\ dict_get "emotion" (Issue.details i) = Some (label_value newest)
    /\ dict_get "confidence" (Issue.details i)
       = Some (confidence_value newest)
    /\ dict_get "occurrences" (Issue.details i)
       = Some (VInt (len (filter extreme
                            (filter (within (next_now w) 5) data))))
    /\ 2 <= len (filter extreme (filter (within (next_now w) 5) data)).
Proof.
  intros Hc Hr. unfold _check_extreme_emotion, next_now.
  destruct data as [ | e0 data0] eqn:Ed; [discriminate | ].
  rewrite <- Ed in *. clear Ed.
  unfold bind, get_self, datetime_now, lift, ret. rewrite Hc.
  cbn [init critical_thresholds extreme_emotion emotion duration_minutes
       confidence_threshold].
  rewrite (window_readable _ _ _ Hr).
  fold extreme. unfold count.
  set (recent := filter (within (clock w (reads w)) 5) data).
  destruct recent as [ | e1 recent1] eqn:Er; [discriminate | ].
  rewrite <- Er.
  destruct (Z.leb_spec 2 (Z.of_nat (List.length (filter extreme recent))))
    as [Hn | Hn]; [ | discriminate].
  destruct (last_item recent) as [newest | x] eqn:El; [ | discriminate].
  cbn [fst]. intros H. inversion H. subst i. clear H.
  destruct (last_item_app _ _ El) as [front Hfront].
  exists front, newest. cbn [Issue.details]. unfold len.
  repeat split; [exact Hfront | exact Hn].
Qed.

Lemma extreme_emotion_details_witness :
  configured example_world /\ Forall readable angry_then_happy
  /\ exists i,
       fst (_check_extreme_emotion angry_then_happy example_world)
       = Ok (Some i)
       /\ dict_get "emotion" (Issue.details i) = Some (VStr "happy")
       /\ dict_get "occurrences" (Issue.details i) = Some (VInt 2).
Proof.
  assert (Hc : configured example_world) by reflexivity.
  assert (Hr : Forall readable angry_then_happy)
    by (repeat constructor; discriminate).
  split; [exact Hc | split; [exact Hr | ]].
  destruct (_check_extreme_emotion angry_then_happy example_world)
    as [o w'] eqn:E.
  assert (Ho : exists i, o = Ok (Some i)).
  { apply (f_equal fst) in E. cbn [fst] in E. rewrite <- E.
    vm_compute. eexists. reflexivity. }
  destruct Ho as [i ->]. exists i. split; [reflexivity | ].
  assert (Hrun : fst (_check_extreme_emotion angry_then_happy example_world)
                 = Ok (Some i)) by now rewrite E.
  destruct (extreme_emotion_details _ _ i Hc Hr Hrun)
    as (front & newest & Hw & He & _ & Ho & _).
  rewrite He, Ho. clear He Ho Hrun E.
  vm_compute in Hw.
  destruct front as [ | a [ | b [ | c front]]]; try discriminate Hw.
  - inversion Hw. subst. split; reflexivity.
  - destruct front; discriminate Hw.
Defined.

(** ** How many observations the rapid-swings rule needs *)

Lemma count_changes_le prev acc l :
  count_changes prev acc l <= acc + Z.of_nat (List.length l).
Proof.
  revert prev acc. induction l as [ | e l IH]; intros prev acc.
  - cbn. lia.
  - cbn [count_changes List.length].
    match goal with
    | |- count_changes _ ?a _ <= _ => specialize (IH (Emotion.dominant_emotion e) a)
    end.
    destruct (truthy prev && differs (Emotion.dominant_emotion e) prev); lia.
Qed.

Lemma count_changes_start_le l :
  count_changes None 0 l <= Z.of_nat (Nat.pred (List.length l)).
Proof.
  destruct l as [ | e l]; [cbn; lia | ].
  cbn [count_changes truthy andb List.length Nat.pred].
  pose proof (count_changes_le (Emotion.dominant_emotion e) 0 l). lia.
Qed.

(** X7. The rapid-swings rule never fires on fewer than 16 observations in
    its 5-minute window, whatever their labels: 15 changes of label need 16
    observations.  When it fires, the number of swings it reports is at
    least 15 and less than the number of observations in the window. *)
Theorem rapid_swings_needs_sixteen data w :
  configured w -> Forall readable data ->
  exists r,
    fst (_check_rapid_emotion_swings data w) = Ok r
    /\ ((List.length (filter (within (next_now w) 5) data) < 16)%nat ->
        r = None)
    /\ (forall i, r = Some i ->
        exists n,
          dict_get "swings_detected" (Issue.details i) = Some (VInt n)
          /\ 15 <= n < len (filter (within (next_now w) 5) data)).
Proof.
  intros Hc Hr. unfold _check_rapid_emotion_swings, len at 1.
  pose proof (count_changes_start_le (filter (within (next_now w) 5) data))
    as Hb.
  destruct (Z.ltb_spec (Z.of_nat (List.length data)) 5) as [Hd | Hd].
  - exists None. cbn. split; [reflexivity | ]. split; [easy | discriminate].
  - unfold bind, get_self, datetime_now, lift, ret. rewrite Hc.
    cbn [init critical_thresholds rapid_emotion_swings swings_per_minute
         time_window_minutes].
    rewrite (window_readable _ _ _ Hr). fold (next_now w).
    set (recent := filter (within (next_now w) 5) data) in *.
    unfold len at 1.
    destruct (Z.ltb_spec (Z.of_nat (List.length recent)) 3) as [Hw | Hw].
    + exists None. cbn. split; [reflexivity | ]. split; [easy | discriminate].
    + change (3 * 5) with 15.
      destruct (Z.leb_spec 15 (count_changes None 0 recent)) as [Hn | Hn].
      * eexists. cbn [fst]. split; [reflexivity | ]. split.
        -- intros Hlt. exfalso. lia.
        -- intros i Hi. inversion Hi. cbn [Issue.details].
           eexists. split; [reflexivity | ]. unfold len. lia.
      * exists None. cbn [fst]. split; [reflexivity | ].
        split; [easy | discriminate].
Qed.

Lemma rapid_swings_needs_sixteen_witness :
  configured example_world /\ Forall readable sixteen_swings
  /\ exists i n,
       fst (_check_rapid_emotion_swings sixteen_swings example_world)
       = Ok (Some i)
       /\ dict_get "swings_detected" (Issue.details i) = Some (VInt n)
       /\ 15 <= n < 16.
Proof.
  assert (Hc : configured example_world) by reflexivity.
  assert (Hr : Forall readable sixteen_swings)
    by (repeat constructor; discriminate).
  split; [exact Hc | split; [exact Hr | ]].
  destruct (rapid_swings_needs_sixteen sixteen_swings example_world Hc Hr)
    as (r & Hrun & _ & Hd).
  destruct r as [i | ].
  - destruct (Hd i eq_refl) as (n & Hn & Hb).
    exists i, n. split; [exact Hrun | split; [exact Hn | ]].
    vm_compute in Hb. vm_compute. exact Hb.
  - exfalso. vm_compute in Hrun. discriminate Hrun.
Defined.

(** ** The history over time *)

Lemma filter_subsequence_impl {A} (p q : A -> bool) l :
  (forall e, p e = true -> q e = true) ->
  subsequence (filter p l) (filter q l).
Proof.
  intros Hpq. induction l as [ | a l IH]; cbn; [constructor | ].
  destruct (p a) eqn:Ep.
  - rewrite (Hpq a Ep). now constructor.
  - destruct (q a); [now constructor | exact IH].
Qed.

(** X8. Looking further back never loses an entry: at the same instant, and
    for two look-backs that both lead to an instant a datetime can hold,
    what [get_issue_history] returns for a number of hours is contained, in
    order, in what it returns for any greater number. *)
Theorem issue_history_query_monotone hours1 hours2 w :
  history_readable (issue_history (self w)) ->
  representable (next_now w) = true ->
  representable (next_now w - hours1 * 3600000000) = true ->
  representable (next_now w - hours2 * 3600000000) = true ->
  hours1 <= hours2 ->
  exists result1 result2,
    fst (get_issue_history hours1 w) = Ok result1
    /\ fst (get_issue_history hours2 w) = Ok result2
    /\ subsequence result1 result2.
Proof.
  intros Hr Hn H1 H2 Hle. rewrite !history_query_run by exact Hr. cbn [fst].
  destruct (look_back_ok _ _ Hn H1) as [-> ->].
  destruct (look_back_ok _ _ Hn H2) as [-> ->].
  eexists _, _. split; [reflexivity | split; [reflexivity | ]].
  apply filter_subsequence_impl. intros entry. unfold raised_within.
  destruct (Logged.timestamp entry) as [t | s]; [ | discriminate].
  rewrite !Z.leb_le. lia.
Qed.

Lemma issue_history_query_monotone_witness :
  history_readable (issue_history (self logged_world))
  /\ representable (next_now logged_world) = true
  /\ representable (next_now logged_world - 0 * 3600000000) = true
  /\ representable (next_now logged_world - 24 * 3600000000) = true
  /\ 0 <= 24
  /\ exists result1 result2,
       fst (get_issue_history 0 logged_world) = Ok result1
       /\ fst (get_issue_history 24 logged_world) = Ok result2
       /\ subsequence result1 result2.
Proof.
  assert (Hr : history_readable (issue_history (self logged_world))).
  { repeat constructor. eexists. reflexivity. }
  assert (Hn : representable (next_now logged_world) = true)
    by (vm_compute; reflexivity).
  assert (H1 : representable (next_now logged_world - 0 * 3600000000) = true)
    by (vm_compute; reflexivity).
  assert (H2 : representable (next_now logged_world - 24 * 3600000000) = true)
    by (vm_compute; reflexivity).
  split; [exact Hr | split; [exact Hn | split; [exact H1 | ]]].
  split; [exact H2 | split; [lia | ]].
  apply (issue_history_query_monotone 0 24 logged_world Hr Hn H1 H2). lia.
Defined.

Lemma log_issues_stamps issues w :
  exists entries w',
    log_issues issues w = (Ok tt, w')
    /\ clock w' = clock w
    /\ reads w' = (reads w + List.length issues)%nat
    /\ issue_history (self w') = issue_history (self w) ++ entries
    /\ Forall2 logged_as entries issues
    /\ Forall (fun entry =>
                 exists n, (reads w <= n < reads w')%nat
                           /\ raised_at entry = Some (clock w n)) entries
    /\ (nondecreasing (clock w) -> chronological entries).
Proof.
  revert w. induction issues as [ | issue rest IH]; intros w.
  - exists [], w. cbn [log_issues ret]. rewrite app_nil_r.
    repeat split; try constructor. cbn. lia.
  - cbn [log_issues]. unfold bind at 1 2, datetime_now, issue_history_append.
    match goal with
    | |- context [log_issues rest ?w1] =>
        destruct (IH w1)
          as (entries & w' & Hrun & Hc & Hn & Hh & Hf & Hs & Hch)
    end.
    cbn [self clock reads issue_history critical_thresholds] in *.
    eexists (_ :: entries), w'. split; [exact Hrun | ].
    rewrite Hh, <- app_assoc. cbn [app List.length].
    split; [exact Hc | split; [lia | split; [reflexivity | ]]].
    split; [ | split].
    + constructor; [ | exact Hf]. now unfold logged_as.
    + constructor.
      * exists (reads w). split; [lia | reflexivity].
      * eapply Forall_impl; [ | exact Hs].
        intros entry (n & Hn' & Hr). exists n. split; [lia | exact Hr].
    + intros Hmono. cbn [chronological]. split; [ | now apply Hch].
      exists (clock w (reads w)). split; [reflexivity | ].
      eapply Forall_impl; [ | exact Hs].
      intros entry (n & Hn' & Hr). exists (clock w n).
      split; [exact Hr | apply Hmono; lia].
Qed.

Lemma check_stamps data audio li w issues w' :
  check_critical_issues data audio li w = (Ok issues, w') ->
  exists entries,
    clock w' = clock w
    /\ (reads w <= reads w')%nat
    /\ issue_history (self w') = issue_history (self w) ++ entries
    /\ Forall2 logged_as entries issues
    /\ Forall (fun entry =>
                 exists n, (reads w <= n < reads w')%nat
                           /\ raised_at entry = Some (clock w n)) entries
    /\ (nondecreasing (clock w) -> chronological entries).
Proof.
  intros H.
  destruct (check_ok_inv _ _ _ _ _ _ H)
    as (s & sw & ex & br & w1 & w2 & w3 & w4 & H1 & H2 & H3 & H4 & _ & H5).
  destruct (rules_frame _ _ _ _ _ _ _ _ H1 H2 H3) as (k & _ & Lc & Ln & Ls).
  assert (L4 : clock w4 = clock w /\ (reads w <= reads w4)%nat
               /\ self w4 = self w).
  { destruct li as [t | ].
    - destruct (breakdown_frame (Some t) w3) as (k4 & _ & Lc4 & Ln4 & Ls4).
      rewrite H4 in Lc4, Ln4, Ls4. cbn [snd] in *.
      rewrite Lc4, Ln4, Ls4, Lc, Ln, Ls. repeat split. lia.
    - destruct H4 as [_ ->]. rewrite Lc, Ln, Ls. repeat split. lia. }
  destruct L4 as (Lc4 & Ln4 & Ls4).
  destruct (log_issues_stamps issues w4)
    as (entries & w'' & Hrun & Hc & Hn & Hh & Hf & Hs & Hch).
  rewrite H5 in Hrun. inversion Hrun. subst w''.
  exists entries. rewrite Hc, Hh, Lc4, Ls4 in *.
  split; [reflexivity | split; [lia | split; [reflexivity | ]]].
  split; [exact Hf | split; [ | exact Hch]].
  eapply Forall_impl; [ | exact Hs].
  intros entry (n & Hn' & Hr). exists n. split; [lia | exact Hr].
Qed.

Lemma filter_app_all {A} (p : A -> bool) l k :
  Forall (fun e => p e = true) k -> filter p (l ++ k) = filter p l ++ k.
Proof. intros H. now rewrite filter_app, (filter_all p k). Qed.

(** X9. What [check_critical_issues] has just logged, [get_issue_history]
    finds: a query made after the call, no more than [hours] hours after
    the clock readings of the call and with a look-back that leads to an
    instant a datetime can hold, returns one entry per issue the call
    returned, in the same order, at the end of its result, after whatever it
    keeps of the older history. *)
Theorem check_then_query data audio li w issues w' hours :
  history_readable (issue_history (self w)) ->
  check_critical_issues data audio li w = (Ok issues, w') ->
  (forall n, (reads w <= n < reads w')%nat ->
             next_now w' - clock w n <= hours * 3600000000) ->
  representable (next_now w') = true ->
  representable (next_now w' - hours * 3600000000) = true ->
  exists kept entries,
    fst (get_issue_history hours w') = Ok (kept ++ entries)
    /\ subsequence kept (issue_history (self w))
    /\ Forall2 logged_as entries issues.
Proof.
  intros Hr H Hsoon Hnow Hcut.
  destruct (check_stamps _ _ _ _ _ _ H)
    as (entries & Hc & Hn & Hh & Hf & Hs & _).
  assert (Hr' : history_readable (issue_history (self w'))).
  { rewrite Hh. apply Forall_app. split; [exact Hr | ].
    eapply Forall_impl; [ | exact Hs].
    intros entry (n & _ & Hat). unfold raised_at in Hat.
    destruct (Logged.timestamp entry) as [t | s]; [now exists t | discriminate]. }
  rewrite (history_query_run hours w' Hr').
  destruct (look_back_ok _ _ Hnow Hcut) as [-> ->].
  cbn [fst]. rewrite Hh.
  rewrite filter_app_all.
  - eexists _, entries. split; [reflexivity | ].
    split; [apply filter_subsequence | exact Hf].
  - eapply Forall_impl; [ | exact Hs].
    intros entry (n & Hn' & Hat). unfold raised_within, raised_at in *.
    destruct (Logged.timestamp entry) as [t | s]; [ | discriminate].
    inversion Hat. subst t. apply Z.leb_le. now apply Hsoon.
Qed.

Lemma check_then_query_witness :
  history_readable (issue_history (self example_world))
  /\ exists issues w' kept entries,
       check_critical_issues five_sad None None example_world
       = (Ok issues, w')
       /\ representable (next_now w') = true
       /\ representable (next_now w' - 24 * 3600000000) = true
       /\ fst (get_issue_history 24 w') = Ok (kept ++ entries)
       /\ Forall2 logged_as entries issues
       /\ List.length issues = 1%nat.
Proof.
  assert (Hr : history_readable (issue_history (self example_world)))
    by constructor.
  split; [exact Hr | ].
  destruct (check_critical_issues five_sad None None example_world)
    as [o w'] eqn:E.
  assert (Ho : exists issues, o = Ok issues /\ List.length issues = 1%nat).
  { apply (f_equal fst) in E. cbn [fst] in E. rewrite <- E.
    vm_compute. eexists. split; reflexivity. }
  destruct Ho as (issues & -> & Hlen).
  assert (Hw : w' = logged_world).
  { apply (f_equal snd) in E. cbn [snd] in E. now rewrite <- E. }
  assert (Hsoon : forall n, (reads example_world <= n < reads w')%nat ->
                            next_now w' - clock example_world n
                            <= 24 * 3600000000).
  { destruct (check_stamps _ _ _ _ _ _ E) as (entries & Hc & Hn & _).
    intros n Hb. unfold next_now. rewrite Hc.
    cbn [example_world clock reads] in *.
    assert (Hw8 : (reads w' <= 8)%nat).
    { rewrite Hw. vm_compute. repeat constructor. }
    lia. }
  assert (Hnow : representable (next_now w') = true)
    by (rewrite Hw; vm_compute; reflexivity).
  assert (Hcut : representable (next_now w' - 24 * 3600000000) = true)
    by (rewrite Hw; vm_compute; reflexivity).
  destruct (check_then_query _ _ _ _ _ _ 24 Hr E Hsoon Hnow Hcut)
    as (kept & entries & Hq & _ & Hf).
  exists issues, w', kept, entries. auto 10.
Defined.

Lemma not_after_le t t' h : t <= t' -> not_after t h -> not_after t' h.
Proof.
  intros Hle. apply Forall_impl. intros entry (u & Hu & Hut).
  exists u. split; [exact Hu | lia].
Qed.

Lemma chronological_app h k t :
  chronological h -> not_after t h -> chronological k ->
  Forall (fun entry => exists t', raised_at entry = Some t' /\ t <= t') k ->
  chronological (h ++ k).
Proof.
  intros Hh Hn Hk Hlater. induction h as [ | a h IH]; [exact Hk | ].
  cbn [app chronological] in *. destruct Hh as [(u & Hu & Hrest) Hh].
  inversion Hn as [ | a' h' (u' & Hu' & Hle) Hn']. subst a' h'.
  rewrite Hu in Hu'. inversion Hu'. subst u'.
  split; [ | now apply IH].
  exists u. split; [exact Hu | ]. apply Forall_app. split; [exact Hrest | ].
  eapply Forall_impl; [ | exact Hlater].
  intros entry (t' & Ht' & Htt'). exists t'. split; [exact Ht' | lia].
Qed.

Lemma subsequence_Forall {A} (P : A -> Prop) k l :
  subsequence k l -> Forall P l -> Forall P k.
Proof.
  induction 1 as [ | x k l _ IH | x k l _ IH]; intros Hl.
  - constructor.
  - inversion Hl. constructor; auto.
  - inversion Hl. auto.
Qed.

Lemma chronological_subsequence k l :
  subsequence k l -> chronological l -> chronological k.
Proof.
  induction 1 as [ | x k l Hs IH | x k l Hs IH]; cbn [chronological].
  - trivial.
  - intros [(t & Ht & Hrest) Hl]. split; [ | now apply IH].
    exists t. split; [exact Ht | ]. now apply (subsequence_Forall _ k l).
  - intros [_ Hl]. now apply IH.
Qed.

Lemma chronological_readable h : chronological h -> history_readable h.
Proof.
  induction h as [ | a h IH]; [constructor | ].
  cbn [chronological]. intros [(t & Ht & _) Hh].
  constructor; [ | now apply IH].
  unfold raised_at in Ht.
  destruct (Logged.timestamp a) as [u | s]; [now exists u | discriminate].
Qed.

Lemma timely_later k w w' : later k w w' -> timely w -> timely w'.
Proof.
  intros (Hc & Hn & Hs) (Hmono & Hch & Hna). unfold timely, next_now.
  rewrite Hc, Hn, Hs. split; [exact Hmono | split; [exact Hch | ]].
  eapply not_after_le; [ | exact Hna]. apply Hmono. lia.
Qed.

(** X10. With a clock that never goes back, the history stays in the order
    of time.  If the history is chronological and holds nothing raised after
    the instant the clock shows next, this is still so after a call of
    [check_critical_issues], whatever its arguments and whether it returns
    or raises, and after a call of [get_issue_history], whether it returns
    or raises; and whatever [get_issue_history] returns is chronological. *)
Theorem history_stays_chronological data audio li hours w :
  timely w ->
  timely (snd (check_critical_issues data audio li w))
  /\ timely (snd (get_issue_history hours w))
  /\ (forall result,
        fst (get_issue_history hours w) = Ok result -> chronological result).
Proof.
  intros Ht. pose proof Ht as (Hmono & Hch & Hna). split; [ | split].
  - destruct (check_critical_issues data audio li w) as [[issues | x] w'] eqn:E;
      cbn [snd].
    + destruct (check_stamps _ _ _ _ _ _ E)
        as (entries & Hc & Hn & Hh & _ & Hs & Hnew).
      unfold timely, next_now. rewrite Hc, Hh.
      split; [exact Hmono | split].
      * apply (chronological_app _ _ (next_now w)); auto.
        eapply Forall_impl; [ | exact Hs].
        intros entry (n & Hn' & Hat). exists (clock w n).
        split; [exact Hat | apply Hmono; lia].
      * apply Forall_app. split.
        -- eapply not_after_le; [ | exact Hna]. now apply Hmono.
        -- eapply Forall_impl; [ | exact Hs].
           intros entry (n & Hn' & Hat). exists (clock w n).
           split; [exact Hat | apply Hmono; lia].
    + destruct (check_raise_inv _ _ _ _ _ _ E) as (k & L).
      now apply (timely_later k w).
  - rewrite history_query_frame.
    apply (timely_later 1 w); [apply later_now | exact Ht].
  - intros result.
    rewrite (history_query_run hours w) by now apply chronological_readable.
    cbn [fst].
    destruct (match timedelta_hours hours with
              | Ok delta => datetime_sub (next_now w) delta
              | Raise x => Raise x
              end) as [cutoff | x]; [ | discriminate].
    intros Hres. inversion Hres.
    eapply chronological_subsequence; [apply filter_subsequence | exact Hch].
Qed.

Lemma history_stays_chronological_witness :
  timely example_world
  /\ timely (snd (check_critical_issues five_sad None
                    (Some (t0 - 31 * minute)) example_world)).
Proof.
  assert (Ht : timely example_world).
  { unfold timely. split; [ | split; [exact I | constructor]].
    intros n m Hnm. cbn [example_world clock]. lia. }
  split; [exact Ht | ].
  exact (proj1 (history_stays_chronological five_sad None
                  (Some (t0 - 31 * minute)) 24 example_world Ht)).
Defined.

(** * Properties of the conversational agent *)

(** ** Comparisons of binary64 numbers *)

Lemma SFltb_trans a b c :
  SFltb a b = true -> SFltb b c = true -> SFltb a c = true.
Proof.
  unfold SFltb.
  destruct a as [sa | sa | | sa ma ea], b as [sb | sb | | sb mb eb],
      c as [sc | sc | | sc mc ec]; cbn;
    repeat match goal with s : bool |- _ => destruct s end; cbn;
    try discriminate; try reflexivity.
  all: change (Pos.compare_cont Eq ?x ?y) with (Pos.compare x y).
  all: destruct (Z.compare_spec ea eb), (Z.compare_spec eb ec),
         (Z.compare_spec ea ec); try discriminate; try reflexivity; try lia.
  all: subst.
  all: destruct (Pos.compare_spec ma mb), (Pos.compare_spec mb mc),
         (Pos.compare_spec ma mc); cbn; try discriminate; try reflexivity;
         try lia.
Qed.

Lemma float_ltb_trans (a b c : float) :
  PrimFloat.ltb a b = true -> PrimFloat.ltb b c = true ->
  PrimFloat.ltb a c = true.
Proof. rewrite !ltb_spec. apply SFltb_trans. Qed.

(** ** The level of intervention *)

Lemma level_simplified (confidence : float) (primary : string) :
  (if PrimFloat.ltb 0.7%float confidence
      && among primary ["sad"; "angry"; "fearful"]%string
   then "supportive"
   else if PrimFloat.ltb 0.8%float confidence
           && among primary ["sad"; "angry"]%string
   then "critical"
   else "normal")%string
  = (if PrimFloat.ltb 0.7%float confidence && negative_name primary
     then "supportive" else "normal")%string.
Proof.
  unfold negative_name.
  destruct (PrimFloat.ltb 0.7%float confidence
            && among primary ["sad"; "angry"; "fearful"]%string) eqn:E1;
    [reflexivity | ].
  destruct (PrimFloat.ltb 0.8%float confidence
            && among primary ["sad"; "angry"]%string) eqn:E2;
    [exfalso | reflexivity].
  apply andb_true_iff in E2 as [Hc Hp].
  apply andb_false_iff in E1 as [E1 | E1].
  - rewrite (float_ltb_trans 0.7%float 0.8%float confidence) in E1;
      [discriminate | reflexivity | exact Hc].
  - unfold among in *. cbn [existsb] in *.
    destruct (String.eqb primary "sad"), (String.eqb primary "angry");
      cbn in *; discriminate.
Qed.

Lemma idle_ret {A} (a : A) : idle (Conversation.ret a).
Proof. intros w r w' H. inversion H. auto. Qed.

Lemma idle_lift {A} (o : Conversation.result A) : idle (Conversation.lift o).
Proof. intros w r w' H. inversion H. auto. Qed.

Lemma idle_get_self : idle Conversation.get_self.
Proof. intros w r w' H. inversion H. auto. Qed.

Lemma idle_choice seq : idle (Conversation.random_choice seq).
Proof.
  intros w r w' H. unfold Conversation.random_choice in H.
  destruct seq; inversion H; auto.
Qed.

Lemma idle_bind {A B} (c : Conversation.M A) (k : A -> Conversation.M B) :
  idle c -> (forall a, idle (k a)) -> idle (Conversation.bind c k).
Proof.
  intros Hc Hk w r w' H. unfold Conversation.bind in H.
  destruct (c w) as [[a | e] w1] eqn:E.
  - destruct (Hc _ _ _ E) as (Hs & Hcl & Hr).
    destruct (Hk a _ _ _ H) as (Hs' & Hcl' & Hr').
    rewrite Hs', Hcl', Hr'. auto.
  - inversion H. subst. now apply (Hc _ _ _ E).
Qed.

Ltac idle_step :=
  first [ apply idle_ret | apply idle_lift | apply idle_get_self
        | apply idle_choice
        | apply idle_bind; [ | intros ?]
        | match goal with
          | |- idle (if ?b then _ else _) => destruct b
          | |- idle (match ?x with _ => _ end) => destruct x
          end ].

Lemma idle_proactive primary :
  idle (Conversation.proactive_response primary).
Proof. unfold Conversation.proactive_response. repeat idle_step. Qed.

(** ** The steps of [generate_response] *)

Lemma choice_member seq w r w' :
  Conversation.random_choice seq w = (Conversation.Returns r, w') -> In r seq.
Proof.
  unfold Conversation.random_choice. destruct seq as [ | first rest];
    [discriminate | ].
  intros H.
  assert (Hr : r = nth (Conversation.random w (Conversation.draws w)
                        mod List.length (first :: rest)) (first :: rest) first)
    by congruence.
  rewrite Hr. apply nth_In. apply Nat.mod_upper_bound. discriminate.
Qed.

Lemma idle_reply primary user :
  idle (match user with
        | Some text =>
            if given user
            then Conversation.ret (Conversation._respond_to_input text primary)
            else Conversation.proactive_response primary
        | None => Conversation.proactive_response primary
        end).
Proof.
  destruct user as [text | ]; [destruct (given (Some text)) | ];
    first [apply idle_ret | apply idle_proactive].
Qed.

(** Where the sentence before the intervention comes from. *)
Lemma reply_origin primary user w base w2 :
  (match user with
   | Some text =>
       if given user
       then Conversation.ret (Conversation._respond_to_input text primary)
       else Conversation.proactive_response primary
   | None => Conversation.proactive_response primary
   end) w = (Conversation.Returns base, w2) ->
  match user with
  | Some text =>
      text <> ""%string /\ base = Conversation._respond_to_input text primary
      \/ text = ""%string
         /\ Conversation.proactive_response primary w
            = (Conversation.Returns base, w2)
  | None =>
      Conversation.proactive_response primary w
      = (Conversation.Returns base, w2)
  end.
Proof.
  destruct user as [text | ]; [ | auto].
  unfold given, truthy. destruct (String.eqb_spec text ""); cbn [negb].
  - intros H. now right.
  - unfold Conversation.ret. intros H. inversion H. now left.
Qed.

Lemma proactive_origin primary w base w2 :
  Conversation.proactive_response primary w = (Conversation.Returns base, w2) ->
  exists seq,
    Conversation.lookup
      (if Conversation.has_key primary
            (Conversation.response_templates (Conversation.self w))
       then primary else "neutral"%string)
      (Conversation.response_templates (Conversation.self w))
    = Conversation.Returns seq
    /\ In base seq.
Proof.
  unfold Conversation.proactive_response, Conversation.bind,
    Conversation.get_self, Conversation.lift.
  destruct (Conversation.has_key primary _);
    match goal with
    | |- context [Conversation.lookup ?k ?d] =>
        destruct (Conversation.lookup k d) as [seq | e]; [ | discriminate]
    end;
    intros H; exists seq; split; try reflexivity;
    eapply choice_member; exact H.
Qed.

Lemma generate_response_shape emotion confidence audio user w :
  let primary := Conversation.primary_of emotion audio in
  let supportive := PrimFloat.ltb 0.7%float confidence && negative_name primary in
  let level := (if supportive then "supportive" else "normal")%string in
  let r := fst (Conversation.generate_response emotion confidence audio user w) in
  let w' := snd (Conversation.generate_response emotion confidence audio user w) in
  Conversation.intervention_level (Conversation.self w') = level
  /\ Conversation.response_templates (Conversation.self w')
     = Conversation.response_templates (Conversation.self w)
  /\ Conversation.interventions (Conversation.self w')
     = Conversation.interventions (Conversation.self w)
  /\ Conversation.clock w' = Conversation.clock w
  /\ match r with
     | Conversation.Raises _ =>
         Conversation.conversation_history (Conversation.self w')
         = Conversation.conversation_history (Conversation.self w)
     | Conversation.Returns response =>
         Conversation.conversation_history (Conversation.self w')
         = Conversation.conversation_history (Conversation.self w)
           ++ [{| Conversation.Turn.timestamp :=
                    isoformat (Conversation.clock w (Conversation.reads w));
                  Conversation.Turn.emotion := primary;
                  Conversation.Turn.confidence := confidence;
                  Conversation.Turn.user_input := user;
                  Conversation.Turn.response := response;
                  Conversation.Turn.intervention_level := level |}]
         /\ Conversation.reads w' = S (Conversation.reads w)
         /\ exists base,
              (if supportive
               then exists seq intervention,
                      Conversation.lookup "breathing_exercise"
                        (Conversation.interventions (Conversation.self w))
                      = Conversation.Returns seq
                      /\ In intervention seq
                      /\ response = (base ++ nl ++ nl ++ intervention)%string
               else response = base)
              /\ match user with
                 | Some text =>
                     text <> ""%string
                     /\ base = Conversation._respond_to_input text primary
                     \/ text = ""%string
                        /\ exists seq,
                             Conversation.lookup
                               (if Conversation.has_key primary
                                     (Conversation.response_templates
                                        (Conversation.self w))
                                then primary else "neutral"%string)
                               (Conversation.response_templates
                                  (Conversation.self w))
                             = Conversation.Returns seq
                             /\ In base seq
                 | None =>
                     exists seq,
                       Conversation.lookup
                         (if Conversation.has_key primary
                               (Conversation.response_templates
                                  (Conversation.self w))
                          then primary else "neutral"%string)
                         (Conversation.response_templates
                            (Conversation.self w))
                       = Conversation.Returns seq
                       /\ In base seq
                 end
     end.
Proof.
  intros primary supportive level. cbv zeta.
  destruct (Conversation.generate_response emotion confidence audio user w)
    as [r w'] eqn:E.
  cbn [fst snd]. revert E.
  unfold Conversation.generate_response. rewrite level_simplified.
  fold primary. fold supportive. fold level.
  unfold Conversation.bind at 1.
  unfold Conversation.set_intervention_level at 1. cbv beta iota.
  set (w1 := Conversation.Build_world _ _ _ _ _).
  unfold Conversation.bind at 1.
  match goal with
  | |- context [match ?c w1 with _ => _ end] =>
      destruct (c w1) as [[base | e] w2] eqn:E2
  end.
  2: { destruct (idle_reply _ _ _ _ _ E2) as (Hs2 & Hc2 & _).
       intros E. inversion E. subst r w'. rewrite Hs2, Hc2. cbn. auto. }
  destruct (idle_reply _ _ _ _ _ E2) as (Hs2 & Hc2 & Hr2).
  assert (Horigin :
            match user with
            | Some text =>
                text <> ""%string
                /\ base = Conversation._respond_to_input text primary
                \/ text = ""%string
                   /\ exists seq,
                        Conversation.lookup
                          (if Conversation.has_key primary
                                (Conversation.response_templates
                                   (Conversation.self w))
                           then primary else "neutral"%string)
                          (Conversation.response_templates
                             (Conversation.self w))
                        = Conversation.Returns seq
                        /\ In base seq
            | None =>
                exists seq,
                  Conversation.lookup
                    (if Conversation.has_key primary
                          (Conversation.response_templates
                             (Conversation.self w))
                     then primary else "neutral"%string)
                    (Conversation.response_templates (Conversation.self w))
                  = Conversation.Returns seq
                  /\ In base seq
            end).
  { pose proof (reply_origin _ _ _ _ _ E2) as Ho.
    destruct user as [text | ].
    - destruct Ho as [Ho | [Ht Ho]]; [now left | right].
      split; [exact Ht | ]. apply proactive_origin in Ho. exact Ho.
    - apply proactive_origin in Ho. exact Ho. }
  clear E2.
  unfold Conversation.bind at 1. unfold Conversation.get_self at 1.
  cbv beta iota. rewrite Hs2.
  cbn [Conversation.self w1 Conversation.intervention_level
       Conversation.interventions].
  unfold Conversation.bind at 1.
  subst level. destruct supportive; cbn [String.eqb Ascii.eqb Bool.eqb andb].
  - unfold Conversation.bind at 1, Conversation.lift at 1.
    destruct (Conversation.lookup "breathing_exercise" _) as [seq | e] eqn:El.
    2: { intros E. inversion E. subst r w'. rewrite Hs2, Hc2. cbn. auto. }
    unfold Conversation.bind at 1.
    destruct (Conversation.random_choice seq w2) as [[intervention | e] w3]
      eqn:Ec.
    2: { destruct (idle_choice _ _ _ _ Ec) as (Hs3 & Hc3 & _).
         intros E. inversion E. subst r w'.
         rewrite Hs3, Hc3, Hs2, Hc2. cbn. auto. }
    destruct (idle_choice _ _ _ _ Ec) as (Hs3 & Hc3 & Hr3).
    unfold Conversation.ret at 1.
    unfold Conversation.bind, Conversation.datetime_now,
      Conversation.get_self, Conversation.conversation_history_append,
      Conversation.ret.
    cbn. rewrite Hs3, Hc3, Hr3, Hs2, Hc2, Hr2. cbn.
    intros E. inversion E. subst r w'. cbn.
    repeat split.
    exists base. split; [ | exact Horigin].
    exists seq, intervention. split; [reflexivity | split; [ | reflexivity]].
    eapply choice_member. exact Ec.
  - unfold Conversation.ret at 1.
    unfold Conversation.bind, Conversation.datetime_now,
      Conversation.get_self, Conversation.conversation_history_append,
      Conversation.ret.
    cbn. rewrite Hs2, Hc2, Hr2. cbn.
    intros E. inversion E. subst r w'. cbn.
    repeat split.
    exists base. split; [reflexivity | exact Horigin].
Qed.

(** ** A stocked agent always answers *)

Lemma lookup_has_key k d :
  Conversation.has_key k d = true ->
  exists seq, Conversation.lookup k d = Conversation.Returns seq
              /\ In (k, seq) d.
Proof.
  induction d as [ | [k' v] d IH]; [discriminate | ].
  cbn [Conversation.has_key existsb fst Conversation.lookup].
  destruct (String.eqb_spec k k') as [-> | Hk]; cbn [orb].
  - intros _. exists v. split; [reflexivity | now left].
  - intros H. destruct (IH H) as (seq & Hl & Hin).
    exists seq. split; [exact Hl | now right].
Qed.

Lemma choice_returns first rest w :
  exists r w',
    Conversation.random_choice (first :: rest) w = (Conversation.Returns r, w').
Proof. eexists _, _. reflexivity. Qed.

Lemma proactive_returns primary w :
  stocked (Conversation.self w) ->
  exists base w2,
    Conversation.proactive_response primary w = (Conversation.Returns base, w2).
Proof.
  intros [Ht _]. unfold Conversation.proactive_response, Conversation.bind,
    Conversation.get_self, Conversation.lift.
  destruct (Conversation.has_key primary _) eqn:Ek.
  - destruct (lookup_has_key _ _ Ek) as (seq & -> & Hin).
    rewrite Ht in Hin. destruct seq as [ | first rest].
    + exfalso. cbn in Hin.
      repeat (destruct Hin as [Hin | Hin]; [discriminate Hin | ]).
      exact Hin.
    + apply choice_returns.
  - rewrite Ht. cbn [Conversation.lookup Conversation.init
                     Conversation.response_templates String.eqb Ascii.eqb
                     Bool.eqb andb].
    apply choice_returns.
Qed.

Lemma generate_response_returns emotion confidence audio user w :
  stocked (Conversation.self w) ->
  exists response,
    fst (Conversation.generate_response emotion confidence audio user w)
    = Conversation.Returns response.
Proof.
  intros [Ht Hi].
  unfold Conversation.generate_response. rewrite level_simplified.
  set (primary := Conversation.primary_of emotion audio).
  unfold Conversation.bind at 1.
  unfold Conversation.set_intervention_level at 1. cbv beta iota.
  set (w1 := Conversation.Build_world _ _ _ _ _).
  assert (Hst1 : stocked (Conversation.self w1)) by (split; assumption).
  assert (Hreply : exists base w2,
             (match user with
              | Some text =>
                  if given user
                  then Conversation.ret
                         (Conversation._respond_to_input text primary)
                  else Conversation.proactive_response primary
              | None => Conversation.proactive_response primary
              end) w1 = (Conversation.Returns base, w2)).
  { destruct user as [text | ]; [destruct (given (Some text)) | ];
      try (now apply proactive_returns).
    eexists _, _. reflexivity. }
  destruct Hreply as (base & w2 & E2).
  destruct (idle_reply _ _ _ _ _ E2) as (Hs2 & Hc2 & Hr2).
  unfold Conversation.bind at 1. rewrite E2.
  unfold Conversation.bind at 1. unfold Conversation.get_self at 1.
  cbv beta iota. rewrite Hs2.
  cbn [Conversation.self w1 Conversation.intervention_level
       Conversation.interventions].
  rewrite Hi.
  unfold Conversation.bind at 1.
  destruct (PrimFloat.ltb 0.7%float confidence && negative_name primary);
    cbn [String.eqb Ascii.eqb Bool.eqb andb].
  - cbn [Conversation.lookup Conversation.init Conversation.interventions
         String.eqb Ascii.eqb Bool.eqb andb].
    unfold Conversation.bind at 1, Conversation.lift at 1.
    unfold Conversation.bind at 1.
    match goal with
    | |- context [Conversation.random_choice (?a :: ?l) w2] =>
        destruct (choice_returns a l w2) as (r & w3 & ->)
    end.
    unfold Conversation.ret at 1.
    unfold Conversation.bind, Conversation.datetime_now,
      Conversation.get_self, Conversation.conversation_history_append,
      Conversation.ret.
    cbn [fst]. eexists. reflexivity.
  - unfold Conversation.ret at 1.
    unfold Conversation.bind, Conversation.datetime_now,
      Conversation.get_self, Conversation.conversation_history_append,
      Conversation.ret.
    cbn [fst]. eexists. reflexivity.
Qed.

(** ** The level of intervention and the turn that is logged *)

(** X11. However [generate_response] is called and whether it returns or
    raises, it leaves the agent at the supportive level when the confidence
    exceeds 0.7 and the primary emotion is sad, angry or fearful, and at the
    normal level otherwise: the critical level is never set, because every
    confidence above 0.8 is above 0.7 and sad and angry are among the three
    emotions the first test accepts. *)
Theorem intervention_never_critical emotion confidence audio user w :
  let w' :=
    snd (Conversation.generate_response emotion confidence audio user w) in
  Conversation.intervention_level (Conversation.self w')
  = (if PrimFloat.ltb 0.7%float confidence
        && negative_name (Conversation.primary_of emotion audio)
     then "supportive" else "normal")%string
  /\ Conversation.intervention_level (Conversation.self w')
     <> "critical"%string.
Proof.
  cbv zeta.
  destruct (generate_response_shape emotion confidence audio user w)
    as (Hl & _).
  rewrite Hl. split; [reflexivity | ].
  destruct (_ && _); discriminate.
Qed.

(** X12. An agent with the templates of [__init__] always answers:
    [generate_response] returns, reads the clock once and appends exactly one
    turn to the history, after the turns it found; the turn records the
    primary emotion, the confidence and user input as given, the response
    that is returned and the level the agent is left at. *)
Theorem generate_response_logs_turn emotion confidence audio user w :
  stocked (Conversation.self w) ->
  exists response w' turn,
    Conversation.generate_response emotion confidence audio user w
    = (Conversation.Returns response, w')
    /\ Conversation.conversation_history (Conversation.self w')
       = Conversation.conversation_history (Conversation.self w) ++ [turn]
    /\ Conversation.Turn.timestamp turn
       = isoformat (Conversation.clock w (Conversation.reads w))
    /\ Conversation.Turn.emotion turn = Conversation.primary_of emotion audio
    /\ Conversation.Turn.confidence turn = confidence
    /\ Conversation.Turn.user_input turn = user
    /\ Conversation.Turn.response turn = response
    /\ Conversation.Turn.intervention_level turn
       = Conversation.intervention_level (Conversation.self w')
    /\ stocked (Conversation.self w').
Proof.
  intros Hst.
  destruct (generate_response_returns emotion confidence audio user w Hst)
    as (response & Hret).
  pose proof (generate_response_shape emotion confidence audio user w) as Hs.
  cbv zeta in Hs.
  destruct (Conversation.generate_response emotion confidence audio user w)
    as [r w'] eqn:E.
  cbn [fst snd] in *. subst r.
  destruct Hs as (Hl & Ht & Hi & _ & Hh & _).
  eexists response, w', _. split; [reflexivity | ].
  split; [exact Hh | ]. cbn. rewrite Hl.
  repeat split; destruct Hst as [St Si]; congruence.
Qed.

Lemma generate_response_logs_turn_witness :
  stocked (Conversation.self example_agent_world)
  /\ exists response w',
       Conversation.generate_response "Sad" 0.9%float None None
         example_agent_world = (Conversation.Returns response, w')
       /\ List.length (Conversation.conversation_history
                         (Conversation.self w')) = 1%nat.
Proof.
  assert (Hst : stocked (Conversation.self example_agent_world))
    by (split; reflexivity).
  split; [exact Hst | ].
  destruct (generate_response_logs_turn "Sad" 0.9%float None None
              example_agent_world Hst)
    as (response & w' & turn & Hrun & Hh & _).
  exists response, w'. split; [exact Hrun | ]. rewrite Hh. reflexivity.
Defined.

(** ** The primary emotion *)

Lemma among_empty names :
  ~ In ""%string names -> among "" names = false.
Proof.
  intros H. unfold among. apply not_true_is_false. intros E.
  apply existsb_exists in E as (x & Hin & Hx).
  apply String.eqb_eq in Hx. now subst x.
Qed.

Lemma primary_negative emotion audio :
  negative_name (Conversation.primary_of emotion audio)
  = negative_name (lower emotion)
    || match audio with
       | Some a => negative_name a
       | None => false
       end.
Proof.
  unfold Conversation.primary_of, negative_name.
  destruct audio as [a | ]; [ | now rewrite orb_false_r].
  unfold given, truthy.
  destruct (String.eqb_spec a "") as [-> | Hne]; cbn [negb andb].
  - now rewrite orb_false_r.
  - destruct (String.eqb_spec a (lower emotion)) as [-> | Hd]; cbn [negb].
    + now rewrite orb_diag.
    + destruct (among (lower emotion) _) eqn:Ep; cbn [orb]; [exact Ep | ].
      destruct (among a _) eqn:Ea; [exact Ea | exact Ep].
Qed.

(** X13. A negative reading on either channel makes the logged emotion
    negative: the emotion of the turn that [generate_response] logs is sad,
    angry or fearful if and only if the facial emotion, in lower case, or
    the audio emotion, as given, is.  The audio emotion is not put in lower
    case, so an audio emotion SAD does not count. *)
Theorem logged_emotion_negative emotion confidence audio user w :
  stocked (Conversation.self w) ->
  exists response w' turn,
    Conversation.generate_response emotion confidence audio user w
    = (Conversation.Returns response, w')
    /\ Conversation.conversation_history (Conversation.self w')
       = Conversation.conversation_history (Conversation.self w) ++ [turn]
    /\ (negative_name (Conversation.Turn.emotion turn) = true
        <-> negative_name (lower emotion) = true
            \/ exists a, audio = Some a /\ negative_name a = true)
    /\ (negative_name (lower emotion) = false ->
        audio = Some "SAD"%string ->
        negative_name (Conversation.Turn.emotion turn) = false).
Proof.
  intros Hst.
  destruct (generate_response_returns emotion confidence audio user w Hst)
    as (response & Hret).
  pose proof (generate_response_shape emotion confidence audio user w) as Hs.
  cbv zeta in Hs.
  destruct (Conversation.generate_response emotion confidence audio user w)
    as [r w'] eqn:E.
  cbn [fst snd] in *. subst r.
  destruct Hs as (_ & _ & _ & _ & Hh & _).
  eexists response, w', _. split; [reflexivity | ].
  split; [exact Hh | ]. cbn [Conversation.Turn.emotion].
  rewrite primary_negative. split.
  - rewrite orb_true_iff. split.
    + intros [H | H]; [now left | right].
      destruct audio as [a | ]; [now exists a | discriminate].
    + intros [H | (a & -> & H)]; [now left | now right].
  - intros Hf ->. now rewrite Hf.
Qed.

Lemma logged_emotion_negative_witness :
  stocked (Conversation.self example_agent_world)
  /\ exists response w' turn,
       Conversation.generate_response "happy" 0.9%float (Some "sad"%string)
         None example_agent_world = (Conversation.Returns response, w')
       /\ Conversation.conversation_history (Conversation.self w') = [turn]
       /\ negative_name (Conversation.Turn.emotion turn) = true.
Proof.
  assert (Hst : stocked (Conversation.self example_agent_world))
    by (split; reflexivity).
  split; [exact Hst | ].
  destruct (logged_emotion_negative "happy" 0.9%float (Some "sad"%string)
              None example_agent_world Hst)
    as (response & w' & turn & Hrun & Hh & Hiff & _).
  exists response, w', turn. split; [exact Hrun | split; [exact Hh | ]].
  apply (proj2 Hiff). right. exists "sad"%string. split; reflexivity.
Defined.

(** ** What the agent says *)

(** X14. Without user input, or with the empty string for it, an agent with
    the templates of [__init__] answers with one of the templates of the
    primary emotion, or with one of the neutral templates when the emotion
    has none, as the labels fear and surprise of the facial detector have
    none; at the supportive level two newlines and one of the breathing
    exercises follow, and nothing else ever follows. *)
Theorem proactive_answer emotion confidence audio user w :
  stocked (Conversation.self w) ->
  user = None \/ user = Some ""%string ->
  let primary := Conversation.primary_of emotion audio in
  exists response base seq,
    fst (Conversation.generate_response emotion confidence audio user w)
    = Conversation.Returns response
    /\ Conversation.lookup
         (if Conversation.has_key primary
               (Conversation.response_templates Conversation.init)
          then primary else "neutral"%string)
         (Conversation.response_templates Conversation.init)
       = Conversation.Returns seq
    /\ In base seq
    /\ (if PrimFloat.ltb 0.7%float confidence && negative_name primary
        then exists intervention,
               Conversation.lookup "breathing_exercise"
                 (Conversation.interventions Conversation.init)
               = Conversation.Returns
                   ["Let's do a breathing exercise together. Inhale slowly for 4 counts... hold for 4... exhale for 4...";
                    "Take a moment to breathe deeply. This can help calm your nervous system.";
                    "Let's practice some deep breathing. Focus on your breath."]%string
               /\ In intervention
                    ["Let's do a breathing exercise together. Inhale slowly for 4 counts... hold for 4... exhale for 4...";
                     "Take a moment to breathe deeply. This can help calm your nervous system.";
                     "Let's practice some deep breathing. Focus on your breath."]%string
               /\ response = (base ++ nl ++ nl ++ intervention)%string
        else response = base).
Proof.
  intros Hst Huser primary.
  destruct (generate_response_returns emotion confidence audio user w Hst)
    as (response & Hret).
  pose proof (generate_response_shape emotion confidence audio user w) as Hs.
  cbv zeta in Hs. rewrite Hret in Hs. fold primary in Hs.
  destruct Hs as (_ & _ & _ & _ & _ & _ & base & Hresp & Horigin).
  destruct Hst as [St Si]. rewrite St in Horigin. rewrite Si in Hresp.
  assert (Hseq : exists seq,
             Conversation.lookup
               (if Conversation.has_key primary
                     (Conversation.response_templates Conversation.init)
                then primary else "neutral"%string)
               (Conversation.response_templates Conversation.init)
             = Conversation.Returns seq /\ In base seq).
  { destruct Huser as [-> | ->]; [exact Horigin | ].
    destruct Horigin as [[Hne _] | [_ H]]; [now destruct Hne | exact H]. }
  destruct Hseq as (seq & Hl & Hin).
  exists response, base, seq.
  split; [exact Hret | split; [exact Hl | split; [exact Hin | ]]].
  destruct (PrimFloat.ltb 0.7%float confidence && negative_name primary);
    [ | exact Hresp].
  destruct Hresp as (seq' & intervention & Hl' & Hin' & ->).
  cbn in Hl'. inversion Hl'. subst seq'.
  exists intervention. split; [reflexivity | split; [exact Hin' | reflexivity]].
Qed.

Lemma proactive_answer_witness :
  stocked (Conversation.self example_agent_world)
  /\ exists response,
       fst (Conversation.generate_response "fear" 0.99%float None None
              example_agent_world) = Conversation.Returns response
       /\ In response
            ["How are you feeling today?";
             "How can I assist you today?";
             "Is there anything you'd like to talk about or any support you need?"]%string.
Proof.
  assert (Hst : stocked (Conversation.self example_agent_world))
    by (split; reflexivity).
  split; [exact Hst | ].
  destruct (proactive_answer "fear" 0.99%float None None example_agent_world
              Hst (or_introl eq_refl))
    as (response & base & seq & Hrun & Hl & Hin & Hresp).
  exists response. split; [exact Hrun | ].
  vm_compute in Hl. inversion Hl. subst seq.
  vm_compute in Hresp. now subst response.
Defined.

(** ** Answers to user input *)

Lemma to_lower_to_upper c : to_lower (to_upper c) = to_lower c.
Proof. destruct c as [[] [] [] [] [] [] [] []]; reflexivity. Qed.

Lemma to_lower_to_lower c : to_lower (to_lower c) = to_lower c.
Proof. destruct c as [[] [] [] [] [] [] [] []]; reflexivity. Qed.

Lemma lower_upper s : lower (upper s) = lower s.
Proof.
  induction s as [ | c s IH]; [reflexivity | ].
  cbn [upper lower]. now rewrite to_lower_to_upper, IH.
Qed.

Lemma lower_lower s : lower (lower s) = lower s.
Proof.
  induction s as [ | c s IH]; [reflexivity | ].
  cbn [lower]. now rewrite to_lower_to_lower, IH.
Qed.

(** X15. The answer to user input does not depend on the case of its
    letters: the input in upper case and the input in lower case get the
    answer of the input as typed. *)
Theorem respond_ignores_case text emotion :
  Conversation._respond_to_input (upper text) emotion
  = Conversation._respond_to_input text emotion
  /\ Conversation._respond_to_input (lower text) emotion
     = Conversation._respond_to_input text emotion.
Proof.
  unfold Conversation._respond_to_input.
  now rewrite lower_upper, lower_lower.
Qed.

Lemma prefix_split a s :
  String.prefix a s = true <-> exists post, s = (a ++ post)%string.
Proof.
  revert s. induction a as [ | c a IH]; intros s.
  - split; [intros _; now exists s | intros _; now destruct s].
  - destruct s as [ | d s]; cbn.
    + split; [discriminate | intros [post H]; discriminate H].
    + destruct (Ascii.ascii_dec c d) as [-> | Hcd].
      * rewrite IH. split; intros [post H]; exists post.
        -- now rewrite H.
        -- now inversion H.
      * split; [discriminate | ].
        intros [post H]. inversion H. now destruct Hcd.
Qed.

Lemma contains_split a s :
  contains a s = true <-> exists pre post, s = (pre ++ a ++ post)%string.
Proof.
  induction s as [ | d s IH]; cbn [contains].
  - rewrite orb_false_r, prefix_split. split.
    + intros [post H]. now exists ""%string, post.
    + intros (pre & post & H). destruct pre as [ | x pre]; [ | discriminate H].
      now exists post.
  - rewrite orb_true_iff, prefix_split, IH. split.
    + intros [[post H] | (pre & post & H)].
      * now exists ""%string, post.
      * exists (String d pre), post. cbn. now rewrite H.
    + intros (pre & post & H). destruct pre as [ | x pre].
      * left. now exists post.
      * right. inversion H. now exists pre, post.
Qed.

Lemma contains_trans a b s :
  contains a b = true -> contains b s = true -> contains a s = true.
Proof.
  rewrite !contains_split.
  intros (p1 & q1 & ->) (p2 & q2 & ->).
  exists (p2 ++ p1)%string, (q1 ++ q2)%string.
  now rewrite !append_assoc.
Qed.

Lemma any_in_trans words word s :
  any_in words word = true -> contains word s = true ->
  any_in words s = true.
Proof.
  unfold any_in. rewrite !existsb_exists.
  intros (k & Hin & Hk) Hs. exists k. split; [exact Hin | ].
  now apply (contains_trans k word s).
Qed.

(** X16. The keywords are looked for as substrings.  Input that contains
    any text in which fine, okay, good or well occurs, such as unwell or
    goodbye, and none of the keywords that are tried before these, is
    answered with the sentence for a user who is doing well, whatever the
    emotion. *)
Theorem respond_matches_substrings text emotion word :
  any_in ["fine"; "okay"; "good"; "well"]%string word = true ->
  contains word (lower text) = true ->
  any_in ["help"; "support"; "need"; "tired"; "exhausted"; "sleep";
          "stress"; "stressed"; "pressure"; "lonely"; "alone"; "isolated";
          "thank"; "thanks"; "appreciate"]%string (lower text) = false ->
  Conversation._respond_to_input text emotion
  = "That's good to hear! I'm glad you're doing well. Is there anything else you'd like to discuss?"%string.
Proof.
  intros Hword Hin Hnone.
  pose proof (any_in_trans _ _ _ Hword Hin) as Hglad.
  unfold Conversation._respond_to_input.
  unfold any_in in Hnone. cbn [existsb] in Hnone.
  repeat (apply orb_false_iff in Hnone; destruct Hnone as [? Hnone]).
  unfold any_in at 1 2 3 4 5. cbn [existsb].
  repeat match goal with
         | H : contains _ _ = false |- _ => rewrite H; clear H
         end.
  cbn [orb]. now rewrite Hglad.
Qed.

Lemma respond_matches_substrings_witness :
  Conversation._respond_to_input "I feel unwell" "sad"
  = "That's good to hear! I'm glad you're doing well. Is there anything else you'd like to discuss?"%string.
Proof.
  apply (respond_matches_substrings "I feel unwell" "sad" "unwell");
    reflexivity.
Defined.

Lemma any_in_app l1 l2 s : any_in (l1 ++ l2) s = any_in l1 s || any_in l2 s.
Proof. unfold any_in. apply existsb_app. Qed.

(** X17. The emotion changes the answer to user input only when the input
    holds none of the keywords: with a keyword in it the answer is the same
    for every emotion, and without one it is one of two sentences, chosen
    by whether the emotion is sad, angry or fearful. *)
Theorem respond_uses_emotion_last text :
  (any_in keywords (lower text) = true ->
   forall emotion1 emotion2,
     Conversation._respond_to_input text emotion1
     = Conversation._respond_to_input text emotion2)
  /\ (any_in keywords (lower text) = false ->
      forall emotion,
        Conversation._respond_to_input text emotion
        = (if negative_name emotion
           then "I hear you. It sounds like you're going through something challenging. Would you like to talk more about it?"
           else "Thank you for sharing. How can I best support you right now?")%string).
Proof.
  change keywords
    with (["help"; "support"; "need"]%string
          ++ ["tired"; "exhausted"; "sleep"]%string
          ++ ["stress"; "stressed"; "pressure"]%string
          ++ ["lonely"; "alone"; "isolated"]%string
          ++ ["thank"; "thanks"; "appreciate"]%string
          ++ ["fine"; "okay"; "good"; "well"]%string)%list.
  rewrite !any_in_app. unfold Conversation._respond_to_input, negative_name.
  destruct (any_in ["help"; "support"; "need"]%string (lower text));
    [split; [reflexivity | discriminate] | ].
  destruct (any_in ["tired"; "exhausted"; "sleep"]%string (lower text));
    [split; [reflexivity | discriminate] | ].
  destruct (any_in ["stress"; "stressed"; "pressure"]%string (lower text));
    [split; [reflexivity | discriminate] | ].
  destruct (any_in ["lonely"; "alone"; "isolated"]%string (lower text));
    [split; [reflexivity | discriminate] | ].
  destruct (any_in ["thank"; "thanks"; "appreciate"]%string (lower text));
    [split; [reflexivity | discriminate] | ].
  destruct (any_in ["fine"; "okay"; "good"; "well"]%string (lower text));
    [split; [reflexivity | discriminate] | ].
  split; [discriminate | reflexivity].
Qed.

Lemma respond_uses_emotion_last_witness :
  any_in keywords (lower "I need HELP") = true
  /\ Conversation._respond_to_input "I need HELP" "sad"
     = Conversation._respond_to_input "I need HELP" "happy".
Proof.
  assert (Hk : any_in keywords (lower "I need HELP") = true) by reflexivity.
  split; [exact Hk | ].
  exact (proj1 (respond_uses_emotion_last "I need HELP") Hk "sad"%string
           "happy"%string).
Defined.

Lemma same_but_input_refl {A}
  (x : Conversation.result A * Conversation.world) : same_but_input x x.
Proof. unfold same_but_input. auto. Qed.

Lemma same_but_input_bind {A B} (c : Conversation.M A)
  (k1 k2 : A -> Conversation.M B) w :
  (forall a w1, same_but_input (k1 a w1) (k2 a w1)) ->
  same_but_input (Conversation.bind c k1 w) (Conversation.bind c k2 w).
Proof.
  intros H. unfold Conversation.bind.
  destruct (c w) as [[a | e] w1]; [apply H | apply same_but_input_refl].
Qed.

(** X18. The empty string as user input is no user input: the call answers
    as the call without user input does, draws the same random numbers and
    leaves the agent at the same level; only the turn it logs records the
    empty string. *)
Theorem empty_input_is_no_input emotion confidence audio w :
  let with_empty :=
    Conversation.generate_response emotion confidence audio (Some ""%string)
      w in
  let without :=
    Conversation.generate_response emotion confidence audio None w in
  fst with_empty = fst without
  /\ Conversation.draws (snd with_empty) = Conversation.draws (snd without)
  /\ Conversation.reads (snd with_empty) = Conversation.reads (snd without)
  /\ Conversation.intervention_level (Conversation.self (snd with_empty))
     = Conversation.intervention_level (Conversation.self (snd without))
  /\ map Conversation.Turn.response
       (Conversation.conversation_history (Conversation.self (snd with_empty)))
     = map Conversation.Turn.response
         (Conversation.conversation_history (Conversation.self (snd without))).
Proof.
  cbv zeta.
  change (same_but_input
            (Conversation.generate_response emotion confidence audio
               (Some ""%string) w)
            (Conversation.generate_response emotion confidence audio None w)).
  unfold Conversation.generate_response.
  cbn [given truthy String.eqb negb].
  apply same_but_input_bind. intros _ w1.
  apply same_but_input_bind. intros base w2.
  apply same_but_input_bind. intros d w3.
  apply same_but_input_bind. intros response w4.
  apply same_but_input_bind. intros now w5.
  apply same_but_input_bind. intros d' w6.
  unfold same_but_input, Conversation.bind,
    Conversation.conversation_history_append, Conversation.ret.
  cbn. rewrite !map_app. cbn. auto.
Qed.

(** ** The summary *)

Lemma count_of_two a b l :
  a <> b -> (Conversation.count_of a l + Conversation.count_of b l <= List.length l)%nat.
Proof.
  intros Hab. unfold Conversation.count_of. induction l as [ | x l IH]; cbn; [lia | ].
  destruct (String.eqb_spec a x) as [-> | Ha],
           (String.eqb_spec b x) as [-> | Hb]; cbn; try lia.
  now destruct Hab.
Qed.

Lemma last_ten_suffix l :
  exists older,
    l = older ++ Conversation.last_ten l
    /\ (List.length (Conversation.last_ten l) <= 10)%nat
    /\ ((List.length l <= 10)%nat -> older = []).
Proof.
  unfold Conversation.last_ten.
  destruct (Nat.ltb_spec 10 (List.length l)) as [Hlong | Hshort].
  - exists (firstn (List.length l - 10) l).
    rewrite firstn_skipn, length_skipn. split; [reflexivity | ].
    split; lia.
  - exists []. auto.
Qed.

(** X19. The summary of an agent that has not answered yet holds the key
    total_interactions, with value 0, and no other key: it has no
    critical_interventions, supportive_interventions or most_common_emotion
    to read.  Once the agent has answered, the summary counts the turns,
    its critical and supportive counts are not negative and together do not
    exceed the turns, and its recent emotions are the emotions of the last
    turns, at most ten of them, all of them when there are no more than
    ten. *)
Theorem summary_keys set_of d :
  let s := Conversation.get_conversation_summary set_of d in
  let emotions :=
    map Conversation.Turn.emotion (Conversation.conversation_history d) in
  match Conversation.conversation_history d with
  | [] =>
      Conversation.summary_get "total_interactions" s
      = Some (Conversation.FInt 0)
      /\ forall k, k <> "total_interactions"%string ->
                   Conversation.summary_get k s = None
  | _ :: _ =>
      Conversation.summary_get "total_interactions" s
      = Some (Conversation.FInt (len (Conversation.conversation_history d)))
      /\ exists critical supportive recent older,
           Conversation.summary_get "critical_interventions" s
           = Some (Conversation.FInt critical)
           /\ Conversation.summary_get "supportive_interventions" s
              = Some (Conversation.FInt supportive)
           /\ Conversation.summary_get "recent_emotions" s
              = Some (Conversation.FList recent)
           /\ 0 <= critical /\ 0 <= supportive
           /\ critical + supportive
              <= len (Conversation.conversation_history d)
           /\ emotions = older ++ recent
           /\ (List.length recent <= 10)%nat
           /\ ((List.length emotions <= 10)%nat -> older = [])
  end.
Proof.
  cbv zeta. unfold Conversation.get_conversation_summary.
  destruct (Conversation.conversation_history d) as [ | turn turns] eqn:Eh.
  - split; [reflexivity | ].
    intros k Hk. cbn. destruct (String.eqb_spec k "total_interactions");
      [contradiction | reflexivity].
  - split; [reflexivity | ].
    set (history := turn :: turns).
    destruct (last_ten_suffix (map Conversation.Turn.emotion history))
      as (older & Ho & Hlen & Hall).
    pose proof (count_of_two "critical" "supportive"
                  (map Conversation.Turn.intervention_level history)) as Hc.
    rewrite length_map in Hc.
    assert (Hne : "critical"%string <> "supportive"%string) by discriminate.
    specialize (Hc Hne).
    eexists _, _, _, older. cbn [Conversation.summary_get String.eqb
      Ascii.eqb Bool.eqb andb].
    split; [reflexivity | split; [reflexivity | split; [reflexivity | ]]].
    unfold len. repeat split; try lia; try assumption.
Qed.

Lemma max_from_spec {A} (key : A -> nat) best xs :
  In (Conversation.max_from key best xs) (best :: xs)
  /\ forall x, In x (best :: xs) ->
               (key x <= key (Conversation.max_from key best xs))%nat.
Proof.
  revert best. induction xs as [ | y xs IH]; intros best.
  - cbn. split; [now left | ]. intros x [<- | []]. lia.
  - cbn [Conversation.max_from].
    destruct (IH (if (key best <? key y)%nat then y else best)) as [Hin Hmax].
    split.
    + destruct Hin as [Hin | Hin]; [ | now right; right].
      rewrite <- Hin. destruct (key best <? key y)%nat; cbn; auto.
    + intros x Hx.
      assert (Hbest : (key best
                       <= key (if (key best <? key y)%nat then y else best))%nat)
        by (destruct (Nat.ltb_spec (key best) (key y)); lia).
      assert (Hy : (key y
                    <= key (if (key best <? key y)%nat then y else best))%nat)
        by (destruct (Nat.ltb_spec (key best) (key y)); lia).
      pose proof (Hmax _ (or_introl eq_refl)) as Hcur.
      destruct Hx as [<- | [<- | Hx]]; [lia | lia | ].
      apply Hmax. now right.
Qed.

Lemma count_of_absent x l : ~ In x l -> Conversation.count_of x l = 0%nat.
Proof.
  intros Hx. unfold Conversation.count_of. rewrite filter_none; [reflexivity | ].
  apply Forall_forall. intros y Hy.
  destruct (String.eqb_spec x y) as [-> | ]; [contradiction | reflexivity].
Qed.

(** X20. Whatever the order in which the set of emotions is iterated, the
    most common emotion of the summary of an agent that has answered is an
    emotion of its history that occurs there at least as often as every
    other. *)
Theorem most_common_emotion_is_most_common set_of d :
  lists_members set_of ->
  Conversation.conversation_history d <> [] ->
  let emotions :=
    map Conversation.Turn.emotion (Conversation.conversation_history d) in
  exists m,
    Conversation.summary_get "most_common_emotion"
      (Conversation.get_conversation_summary set_of d)
    = Some (Conversation.FStr m)
    /\ In m emotions
    /\ forall x, (Conversation.count_of x emotions <= Conversation.count_of m emotions)%nat.
Proof.
  intros Hset Hne emotions. unfold Conversation.get_conversation_summary.
  destruct (Conversation.conversation_history d) as [ | turn turns] eqn:Eh;
    [contradiction | ].
  subst emotions. set (emotions := map Conversation.Turn.emotion (turn :: turns)).
  cbn [Conversation.summary_get String.eqb Ascii.eqb Bool.eqb andb].
  assert (Hin0 : In (Conversation.Turn.emotion turn) (set_of emotions))
    by (apply Hset; now left).
  change (map Conversation.Turn.emotion (turn :: turns)) with emotions.
  destruct emotions as [ | e0 rest0] eqn:Ee; [discriminate Ee | ].
  rewrite <- Ee in *.
  destruct (set_of emotions) as [ | first others] eqn:Es; [destruct Hin0 | ].
  destruct (max_from_spec (fun x => Conversation.count_of x emotions) first others)
    as [Hin Hmax].
  eexists. split; [reflexivity | ]. split.
  - apply Hset. now rewrite Es.
  - intros x. destruct (in_dec string_dec x emotions) as [Hx | Hx].
    + apply Hmax. rewrite <- Es. now apply Hset.
    + rewrite (count_of_absent x emotions Hx). lia.
Qed.

Lemma most_common_emotion_is_most_common_witness :
  lists_members first_occurrences
  /\ Conversation.conversation_history (Conversation.self talked_world) <> []
  /\ Conversation.summary_get "most_common_emotion"
       (Conversation.get_conversation_summary first_occurrences
          (Conversation.self talked_world))
     = Some (Conversation.FStr "sad").
Proof.
  assert (Hset : lists_members first_occurrences).
  { intros l x. unfold first_occurrences.
    rewrite <- in_rev, nodup_In, <- in_rev. reflexivity. }
  assert (Hne : Conversation.conversation_history
                  (Conversation.self talked_world) <> [])
    by (vm_compute; discriminate).
  split; [exact Hset | split; [exact Hne | ]].
  destruct (most_common_emotion_is_most_common first_occurrences
              (Conversation.self talked_world) Hset Hne)
    as (m & Hm & Hin & _).
  rewrite Hm. vm_compute in Hin. destruct Hin as [<- | []]. reflexivity.
Defined.

(** ** The critical level is never logged *)

Lemma count_of_none x l :
  Forall (fun y => y <> x) l -> Conversation.count_of x l = 0%nat.
Proof.
  intros H. apply count_of_absent. intros Hin.
  rewrite Forall_forall in H. now apply (H x).
Qed.

(** X21. No turn is ever logged at the critical level.  A fresh agent is
    not at the critical level and has no such turn; [generate_response],
    however it is called and whether it returns or raises, and
    [reset_conversation] keep it so; and the critical_interventions of the
    summary of such an agent, when the summary has them, are 0. *)
Theorem critical_never_logged emotion confidence audio user set_of w :
  never_critical Conversation.init
  /\ (never_critical (Conversation.self w) ->
      never_critical
        (Conversation.self
           (snd (Conversation.generate_response emotion confidence audio
                   user w)))
      /\ never_critical
           (Conversation.self (snd (Conversation.reset_conversation w)))
      /\ forall n,
           Conversation.summary_get "critical_interventions"
             (Conversation.get_conversation_summary set_of
                (Conversation.self w))
           = Some (Conversation.FInt n) ->
           n = 0).
Proof.
  split; [split; [discriminate | constructor] | ].
  intros [Hlevel Hturns]. split; [ | split].
  - pose proof (generate_response_shape emotion confidence audio user w)
      as Hs.
    cbv zeta in Hs.
    destruct (Conversation.generate_response emotion confidence audio user w)
      as [r w'] eqn:E.
    cbn [fst snd] in *. destruct Hs as (Hl & _ & _ & _ & Hh).
    assert (Hnew : (if PrimFloat.ltb 0.7%float confidence
                       && negative_name (Conversation.primary_of emotion audio)
                    then "supportive" else "normal")%string
                   <> "critical"%string)
      by (destruct (_ && _); discriminate).
    split; [now rewrite Hl | ].
    destruct r as [response | e].
    + destruct Hh as (-> & _). apply Forall_app. split; [exact Hturns | ].
      constructor; [exact Hnew | constructor].
    + now rewrite Hh.
  - split; [discriminate | constructor].
  - intros n. unfold Conversation.get_conversation_summary.
    destruct (Conversation.conversation_history (Conversation.self w))
      as [ | turn turns] eqn:Eh; [discriminate | ].
    cbn [Conversation.summary_get String.eqb Ascii.eqb Bool.eqb andb].
    assert (Hz : Conversation.count_of "critical"
                   (map Conversation.Turn.intervention_level (turn :: turns))
                 = 0%nat).
    { apply count_of_none. rewrite Forall_forall in *.
      intros y Hy. apply in_map_iff in Hy as (t & <- & Ht).
      now apply Hturns. }
    rewrite Hz. intros H. now inversion H.
Qed.

Lemma critical_never_logged_witness :
  never_critical (Conversation.self talked_world)
  /\ Conversation.summary_get "critical_interventions"
       (Conversation.get_conversation_summary first_occurrences
          (Conversation.self talked_world))
     = Some (Conversation.FInt 0).
Proof.
  assert (Hn : never_critical (Conversation.self talked_world)).
  { exact (proj1 (proj2 (critical_never_logged "Sad" 0.9%float None None
                           first_occurrences example_agent_world)
                   (proj1 (critical_never_logged "Sad" 0.9%float None None
                             first_occurrences example_agent_world)))). }
  split; [exact Hn | ].
  destruct (Conversation.summary_get "critical_interventions"
              (Conversation.get_conversation_summary first_occurrences
                 (Conversation.self talked_world))) as [[n | s | l] | ] eqn:E;
    try (vm_compute in E; discriminate E).
  pose proof (proj2 (proj2 (proj2 (critical_never_logged "Sad" 0.9%float
                                     None None first_occurrences talked_world)
                             Hn)) n E) as Hz.
  now rewrite Hz.
Defined.

(** * Further properties of the report *)

(** X22. [generate_report] returns the sentence that all systems are normal
    for the empty list of issues and for no other list. *)
Theorem report_all_normal_iff strftime json_dumps issues w :
  fst (generate_report strftime json_dumps issues w)
  = Ok "No critical issues detected. All systems normal."%string
  <-> issues = [].
Proof.
  split; [ | now intros ->].
  destruct issues as [ | issue rest]; [reflexivity | ].
  unfold generate_report, bind, datetime_now, ret. cbn [fst].
  rewrite report_loop_blocks. cbn [String.append].
  intros H. inversion H.
Qed.

Lemma blocks_app json_dumps i l1 l2 :
  blocks json_dumps i (l1 ++ l2)
  = (blocks json_dumps i l1
     ++ blocks json_dumps (i + List.length l1) l2)%string.
Proof.
  revert i. induction l1 as [ | issue l1 IH]; intros i.
  - cbn. now rewrite Nat.add_0_r.
  - cbn [app blocks List.length]. rewrite IH, append_assoc.
    now rewrite Nat.add_succ_r.
Qed.

(** X23. Reports compose: the report of a list of issues that is not empty,
    followed by further issues, is the report of the list followed by the
    blocks of the further issues, numbered on from where the list ends. *)
Theorem report_of_appended strftime json_dumps issues more w :
  issues <> [] ->
  exists report,
    fst (generate_report strftime json_dumps issues w) = Ok report
    /\ fst (generate_report strftime json_dumps (issues ++ more) w)
       = Ok (report
             ++ blocks json_dumps (S (List.length issues)) more)%string.
Proof.
  intros Hne. destruct issues as [ | issue rest]; [contradiction | ].
  cbn [app]. unfold generate_report, bind, datetime_now, ret. cbn [fst].
  eexists. split; [reflexivity | ].
  rewrite !report_loop_blocks.
  change (issue :: rest ++ more) with ((issue :: rest) ++ more).
  rewrite blocks_app, !append_assoc. reflexivity.
Qed.

Lemma report_of_appended_witness :
  exists issue report,
    fst (_check_sustained_negative_emotion five_sad example_world)
    = Ok (Some issue)
    /\ fst (generate_report (fun _ => "now"%string) (fun _ => "{}"%string)
              [issue] example_world) = Ok report
    /\ fst (generate_report (fun _ => "now"%string) (fun _ => "{}"%string)
              ([issue] ++ [issue]) example_world)
       = Ok (report
             ++ blocks (fun _ => "{}"%string) 2 [issue])%string.
Proof.
  destruct (_check_sustained_negative_emotion five_sad example_world)
    as [o w'] eqn:E.
  assert (Ho : exists issue, o = Ok (Some issue)).
  { apply (f_equal fst) in E. cbn [fst] in E. rewrite <- E.
    vm_compute. eexists. reflexivity. }
  destruct Ho as [issue ->]. cbn [fst].
  assert (Hne : [issue] <> []) by discriminate.
  destruct (report_of_appended (fun _ => "now"%string)
              (fun _ => "{}"%string) [issue] [issue] example_world Hne)
    as (report & H1 & H2).
  exists issue, report. auto.
Defined.

(** * Properties of the dominant emotion *)

Lemma max_item_spec best items :
  In (max_item best items) (best :: items)
  /\ (max_item best items = best
      \/ PrimFloat.ltb (snd best) (snd (max_item best items)) = true)
  /\ forall x, In x (best :: items) ->
               PrimFloat.ltb (snd (max_item best items)) (snd x) = false.
Proof.
  revert best. induction items as [ | y items IH]; intros best.
  - cbn [max_item]. split; [now left | split; [now left | ]].
    intros x [<- | []]. apply not_true_is_false. intros H.
    rewrite ltb_spec in H. unfold SFltb in H.
    destruct (Prim2SF (snd best)) as [s | s | | s m e]; cbn in H;
      try destruct s; try discriminate H.
    + rewrite Z.compare_refl, Pos.compare_cont_refl in H. discriminate H.
    + rewrite Z.compare_refl, Pos.compare_cont_refl in H. discriminate H.
  - cbn [max_item].
    set (next := if PrimFloat.ltb (snd best) (snd y) then y else best).
    destruct (IH next) as (Hin & Hup & Hmax).
    set (m := max_item next items) in *.
    assert (Hbest : m = best \/ PrimFloat.ltb (snd best) (snd m) = true).
    { subst next. destruct (PrimFloat.ltb (snd best) (snd y)) eqn:E.
      - right. destruct Hup as [-> | Hup]; [exact E | ].
        now apply (float_ltb_trans _ (snd y)).
      - exact Hup. }
    split; [ | split; [exact Hbest | ]].
    + destruct Hin as [Hin | Hin]; [ | now right; right].
      rewrite <- Hin. subst next.
      destruct (PrimFloat.ltb (snd best) (snd y)); cbn; auto.
    + intros x [<- | [<- | Hx]].
      * apply not_true_is_false. intros H. subst next.
        destruct (PrimFloat.ltb (snd best) (snd y)) eqn:E.
        -- pose proof (Hmax y (or_introl eq_refl)) as Hy.
           rewrite (float_ltb_trans _ _ _ H E) in Hy. discriminate Hy.
        -- pose proof (Hmax best (or_introl eq_refl)) as Hb.
           rewrite H in Hb. discriminate Hb.
      * apply not_true_is_false. intros H. subst next.
        destruct (PrimFloat.ltb (snd best) (snd y)) eqn:E.
        -- pose proof (Hmax y (or_introl eq_refl)) as Hy.
           rewrite H in Hy. discriminate Hy.
        -- destruct Hbest as [Hb | Hb].
           ++ rewrite Hb in H. rewrite H in E. discriminate E.
           ++ rewrite (float_ltb_trans _ _ _ Hb H) in E. discriminate E.
      * apply Hmax. now right.
Qed.

(** X24. [get_dominant_emotion] answers neutral with confidence 1.0 for an
    empty dictionary of probabilities.  For any other it answers one of the
    items of the dictionary, and no item of the dictionary has a greater
    probability than the one it answers. *)
Theorem dominant_emotion_is_maximal emotions :
  get_dominant_emotion [] = ("neutral"%string, 1.0%float)
  /\ (emotions <> [] ->
      In (get_dominant_emotion emotions) emotions
      /\ forall x, In x emotions ->
                   PrimFloat.ltb (snd (get_dominant_emotion emotions))
                                 (snd x) = false).
Proof.
  split; [reflexivity | ].
  intros Hne. destruct emotions as [ | first rest]; [contradiction | ].
  cbn [get_dominant_emotion].
  destruct (max_item_spec first rest) as (Hin & _ & Hmax). auto.
Qed.

Lemma dominant_emotion_is_maximal_witness :
  [("neutral"%string, 0.2%float); ("sad"%string, 0.7%float);
   ("happy"%string, 0.1%float)] <> []
  /\ In (get_dominant_emotion
           [("neutral"%string, 0.2%float); ("sad"%string, 0.7%float);
            ("happy"%string, 0.1%float)])
        [("neutral"%string, 0.2%float); ("sad"%string, 0.7%float);
         ("happy"%string, 0.1%float)]
  /\ get_dominant_emotion
       [("neutral"%string, 0.2%float); ("sad"%string, 0.7%float);
        ("happy"%string, 0.1%float)]
     = ("sad"%string, 0.7%float).
Proof.
  assert (Hne : [("neutral"%string, 0.2%float); ("sad"%string, 0.7%float);
                 ("happy"%string, 0.1%float)] <> []) by discriminate.
  split; [exact Hne | split; [ | reflexivity]].
  exact (proj1 (proj2 (dominant_emotion_is_maximal _) Hne)).
Defined.
